(** * mellon-blueprints: the maintain-metadata stack

  A shallow embedding of the request and response mapping templates of
  [deploy/cdk/lib/maintain-metadata/maintain-metadata-stack.ts] and of the
  inline API-key rotation Lambda, with the properties proved about them.

  The templates are Velocity (VTL) text evaluated by AppSync.  Each
  template becomes a Rocq function of the resolver context: a [#set]
  becomes a [let], a [#foreach] a recursion over the list it walks, a
  [$map.put] the [put] of an insertion-ordered association list.  The
  Python handler becomes a function in a small state-and-exception monad
  over the SSM parameter store, the AppSync key list and the clock. *)

From Stdlib Require Import String Ascii List ZArith Lia Bool Arith.
Import ListNotations.
Open Scope list_scope.
Open Scope string_scope.

Set Implicit Arguments.
Set Warnings "-register-all".
Set Warnings "-notation-overridden".
Set Warnings "-abstract-large-number".

(* ------------------------------------------------------------------ *)
(** * AppSync utilities *)

Module Util.

(** [$util.str.toUpper], on the ASCII letters (other bytes are kept). *)
Definition upper_ascii (c : ascii) : ascii :=
  let n := nat_of_ascii c in
  if (97 <=? n)%nat && (n <=? 122)%nat then ascii_of_nat (n - 32) else c.

Fixpoint toUpper (s : string) : string :=
  match s with
  | EmptyString => EmptyString
  | String c s' => String (upper_ascii c) (toUpper s')
  end.

(** Java's [Character.isWhitespace] on ASCII: tab to carriage return,
    the four separators 28..31 and the space. *)
Definition is_whitespace (c : ascii) : bool :=
  let n := nat_of_ascii c in
  ((9 <=? n)%nat && (n <=? 13)%nat) || ((28 <=? n)%nat && (n <=? 32)%nat).

Fixpoint isBlank (s : string) : bool :=
  match s with
  | EmptyString => true
  | String c s' => is_whitespace c && isBlank s'
  end.

(** [$util.defaultIfNullOrBlank(a, b)]: [a] unless it is null or blank.
    A null reference is [None]. *)
Definition defaultIfNullOrBlank (a b : option string) : option string :=
  match a with
  | Some s => if isBlank s then b else a
  | None => b
  end.

(** [$util.isNull]. *)
Definition isNull {A} (a : option A) : bool :=
  match a with Some _ => false | None => true end.

(** Whether [s] starts with [p]. *)
Fixpoint startsWith (p s : string) {struct p} : bool :=
  match p with
  | EmptyString => true
  | String a p' =>
      match s with
      | EmptyString => false
      | String b s' => Ascii.eqb a b && startsWith p' s'
      end
  end.

(** [$util.str.toReplace(s, target, replacement)]: every occurrence of
    [target], left to right and without overlap.  [skip] counts the
    characters of a match still to be dropped. *)
Fixpoint replace_from (skip : nat) (target replacement s : string) : string :=
  match s with
  | EmptyString => EmptyString
  | String c s' =>
      match skip with
      | S k => replace_from k target replacement s'
      | O =>
          if startsWith target s
          then replacement ++ replace_from (String.length target - 1) target replacement s'
          else String c (replace_from 0 target replacement s')
      end
  end.

Definition toReplace (s target replacement : string) : string :=
  match target with
  | EmptyString => s
  | _ => replace_from 0 target replacement s
  end.

(** [$util.str.toUpper] and [$util.str.toReplace] of a null reference are
    null. *)
Definition toUpper' (v : option string) : option string := option_map toUpper v.
Definition toReplace' (v : option string) (target replacement : string) : option string :=
  option_map (fun s => toReplace s target replacement) v.

(** A reference inside a double-quoted VTL string: its value, or, when it
    is null, the text of the reference itself. *)
Definition ref (text : string) (v : option string) : string :=
  match v with Some s => s | None => text end.

End Util.

(* ------------------------------------------------------------------ *)
(** * Maps as the templates use them *)

Module VMap.

(** A VTL map literal [{}] keeps its entries in insertion order; [put]
    on a key already present replaces the value where it stands. *)
Fixpoint put {V} (k : string) (v : V) (m : list (string * V)) : list (string * V) :=
  match m with
  | [] => [(k, v)]
  | (k', v') :: m' =>
      if String.eqb k k' then (k, v) :: m' else (k', v') :: put k v m'
  end.

Fixpoint get {V} (k : string) (m : list (string * V)) : option V :=
  match m with
  | [] => None
  | (k', v) :: m' => if String.eqb k k' then Some v else get k m'
  end.

Definition keys {V} (m : list (string * V)) : list string := map fst m.

Definition mem (k : string) (ks : list string) : bool := existsb (String.eqb k) ks.

(** [$util.map.copyAndRemoveAllKeys(m, ks)]. *)
Definition copyAndRemoveAllKeys {V} (m : list (string * V)) (ks : list string)
  : list (string * V) :=
  filter (fun e => negb (mem (fst e) ks)) m.

Definition isEmpty {A} (l : list A) : bool :=
  match l with [] => true | _ => false end.

(** [$list.add(x)]. *)
Definition add {A} (l : list A) (x : A) : list A := app l [x].

End VMap.


(* ------------------------------------------------------------------ *)
(** * Values *)

(** What a template reads from [$ctx] and renders with [$util.toJson]. *)
Inductive json : Type :=
| JNull
| JBool (b : bool)
| JNum (n : Z)
| JStr (s : string)
| JList (l : list json)
| JMap (m : list (string * json)).

Definition Obj := list (string * json).

(** [$util.dynamodb.toDynamoDB]: the typed attribute value. *)
Inductive AttributeValue : Type :=
| AttrNULL
| AttrBOOL (b : bool)
| AttrN (n : Z)
| AttrS (s : string)
| AttrL (l : list AttributeValue)
| AttrM (m : list (string * AttributeValue)).

Module Json.

Definition is_null (v : json) : bool :=
  match v with JNull => true | _ => false end.

(** [$obj.field]: a missing field reads as null. *)
Definition field (o : Obj) (k : string) : json :=
  match VMap.get k o with Some v => v | None => JNull end.

(** A field used as a string; identifiers are strings in the schema, and
    anything else reads as null. *)
Definition str (v : json) : option string :=
  match v with JStr s => Some s | _ => None end.

Definition fieldS (o : Obj) (k : string) : option string := str (field o k).

Definition of_str (v : option string) : json :=
  match v with Some s => JStr s | None => JNull end.

Fixpoint toDynamoDB (v : json) : AttributeValue :=
  match v with
  | JNull => AttrNULL
  | JBool b => AttrBOOL b
  | JNum n => AttrN n
  | JStr s => AttrS s
  | JList l => AttrL (map toDynamoDB l)
  | JMap m => AttrM (map (fun e => (fst e, toDynamoDB (snd e))) m)
  end.

End Json.

(* ------------------------------------------------------------------ *)
(** * The partial-update expression builder

    The three update functions carry the same block of template text; the
    loops of that block are written once here, and each function's copy of
    the block is a definition of its own further down. *)

Module Builder.

(** [$expNames], [$expValues], [$expSet], [$expAdd] and [$expRemove]. *)
Record Acc := {
  expNames : list (string * string);
  expValues : list (string * AttributeValue);
  expSet : list (string * string);
  expAdd : list (string * string);
  expRemove : list string
}.

Definition empty : Acc :=
  {| expNames := []; expValues := []; expSet := []; expAdd := []; expRemove := [] |}.

(** The body of [#foreach( $entry in ...copyAndRemoveAllKeys(...) )]. *)
Definition classify (acc : Acc) (entry : string * json) : Acc :=
  let key := fst entry in
  let value := snd entry in
  if Json.is_null value then
    {| expNames := VMap.put ("#" ++ key) key (expNames acc);
       expValues := expValues acc;
       expSet := expSet acc;
       expAdd := expAdd acc;
       expRemove := VMap.add (expRemove acc) ("#" ++ key) |}
  else
    {| expNames := VMap.put ("#" ++ key) key (expNames acc);
       expValues := VMap.put (":" ++ key) (Json.toDynamoDB value) (expValues acc);
       expSet := VMap.put ("#" ++ key) (":" ++ key) (expSet acc);
       expAdd := expAdd acc;
       expRemove := expRemove acc |}.

Definition collect (args : Obj) : Acc :=
  fold_left classify (VMap.copyAndRemoveAllKeys args ["itemId"; "expectedVersion"]) empty.

(** [$foreach.hasNext]. *)
Definition hasNext {A} (rest : list A) : bool := negb (VMap.isEmpty rest).

(** [#foreach( $entry in $expSet.entrySet() )]. *)
Fixpoint foreach_set (expression : string) (entries : list (string * string)) : string :=
  match entries with
  | [] => expression
  | entry :: rest =>
      let expression := expression ++ " " ++ fst entry ++ " = " ++ snd entry in
      let expression := if hasNext rest then expression ++ "," else expression in
      foreach_set expression rest
  end.

(** [#foreach( $entry in $expAdd.entrySet() )]. *)
Fixpoint foreach_add (expression : string) (entries : list (string * string)) : string :=
  match entries with
  | [] => expression
  | entry :: rest =>
      let expression := expression ++ " " ++ fst entry ++ " " ++ snd entry in
      let expression := if hasNext rest then expression ++ "," else expression in
      foreach_add expression rest
  end.

(** [#foreach( $entry in $expRemove )]. *)
Fixpoint foreach_remove (expression : string) (entries : list string) : string :=
  match entries with
  | [] => expression
  | entry :: rest =>
      let expression := expression ++ " " ++ entry in
      let expression := if hasNext rest then expression ++ "," else expression in
      foreach_remove expression rest
  end.

(** The ["update"] and ["condition"] members of the request document.  A
    names or values map that is empty is left out of the document; here it
    is the empty list. *)
Record Update := {
  expression : string;
  expressionNames : list (string * string);
  expressionValues : list (string * AttributeValue);
  condition : option (string * AttributeValue)
}.

End Builder.

(* ------------------------------------------------------------------ *)
(** * The resolver context and the request document *)

(** [$ctx.error], set when the data source invocation failed. *)
Record Error := { message : string; errorType : string }.

(** [$ctx]: arguments, parent object, identity claims, pipeline stash,
    data source result and error; [now] is what [$util.time.nowISO8601()]
    returns and [autoId] what [$util.autoId()] returns. *)
Record Context := {
  args : Obj;
  source : Obj;
  claims : Obj;
  stash : Obj;
  result : json;
  error : option Error;
  now : string;
  autoId : string
}.

Definition with_stash (ctx : Context) (st : Obj) : Context :=
  {| args := args ctx; source := source ctx; claims := claims ctx; stash := st;
     result := result ctx; error := error ctx; now := now ctx; autoId := autoId ctx |}.

Definition with_result (ctx : Context) (r : json) (e : option Error) : Context :=
  {| args := args ctx; source := source ctx; claims := claims ctx; stash := stash ctx;
     result := r; error := e; now := now ctx; autoId := autoId ctx |}.

(** One conjunct of a key condition: [attr = :v], [begins_with(attr, :v)]
    or [attr <= :v]. *)
Inductive Cond :=
| CEq (attr : string) (v : AttributeValue)
| CBeginsWith (attr : string) (v : AttributeValue)
| CLe (attr : string) (v : AttributeValue).

(** The DynamoDB request a template renders: ["operation"], ["index"],
    ["key"], the conjuncts of ["query"], ["update"] with ["condition"], and
    the key list of a batch operation.  The ["filter"], ["limit"] and
    ["nextToken"] members carry no key and are left out. *)
Record Request := {
  operation : string;
  index : option string;
  key : list (string * AttributeValue);
  query : list Cond;
  update : option Builder.Update;
  batch : list (list (string * AttributeValue))
}.

(** What evaluating a request template leaves behind: the stash, and the
    request document ([None] for the [{}] of a pipeline resolver). *)
Record Rendered := { out_stash : Obj; out_request : option Request }.

(** What a response template yields: the GraphQL field error raised by
    [$util.error], which ends the evaluation, or the rendered result
    together with the stash. *)
Inductive Response :=
| FieldError (msg : string) (type : string)
| Returned (body : json) (st : Obj).

Module Req.

Definition getItem (k : list (string * AttributeValue)) : Request :=
  {| operation := "GetItem"; index := None; key := k; query := []; update := None; batch := [] |}.

Definition deleteItem (k : list (string * AttributeValue)) : Request :=
  {| operation := "DeleteItem"; index := None; key := k; query := []; update := None; batch := [] |}.

Definition updateItem (k : list (string * AttributeValue)) (u : Builder.Update) : Request :=
  {| operation := "UpdateItem"; index := None; key := k; query := []; update := Some u; batch := [] |}.

Definition queryTable (q : list Cond) : Request :=
  {| operation := "Query"; index := None; key := []; query := q; update := None; batch := [] |}.

Definition queryIndex (i : string) (q : list Cond) : Request :=
  {| operation := "Query"; index := Some i; key := []; query := q; update := None; batch := [] |}.

Definition batchOp (op : string) (ks : list (list (string * AttributeValue))) : Request :=
  {| operation := op; index := None; key := []; query := []; update := None; batch := ks |}.

(** [$util.dynamodb.toDynamoDBJson] of a string reference. *)
Definition toDynamoDBJson (v : option string) : AttributeValue :=
  Json.toDynamoDB (Json.of_str v).

(** A hard-coded ["update"] member. *)
Definition literal (e : string) (names : list (string * string))
  (values : list (string * AttributeValue)) : Builder.Update :=
  {| Builder.expression := e; Builder.expressionNames := names;
     Builder.expressionValues := values; Builder.condition := None |}.

Definition key_attributes : list string :=
  ["PK"; "SK"; "GSI1PK"; "GSI1SK"; "GSI2PK"; "GSI2SK"].

Definition cond_pair (c : Cond) : string * AttributeValue :=
  match c with
  | CEq a v => (a, v)
  | CBeginsWith a v => (a, v)
  | CLe a v => (a, v)
  end.

(** The key attributes an update writes: the values bound to the
    placeholders [:PK] ... [:GSI2SK], which every update expression of the
    stack assigns to the attribute of the same name. *)
Definition written (u : Builder.Update) : list (string * AttributeValue) :=
  flat_map (fun a =>
    match VMap.get (":" ++ a) (Builder.expressionValues u) with
    | Some v => [(a, v)]
    | None => []
    end) key_attributes.

(** Every key attribute value a request carries. *)
Definition key_values (r : Request) : list (string * AttributeValue) :=
  (key r ++ map cond_pair (query r)
   ++ match update r with Some u => written u | None => [] end
   ++ concat (batch r))%list.

End Req.

Module Json2.

(** A value used as a map; a null or non-map reference has no map. *)
Definition as_map (v : json) : option Obj :=
  match v with JMap m => Some m | _ => None end.

(** A value walked by [#foreach]; a null reference yields no iteration. *)
Definition as_list (v : json) : list json :=
  match v with JList l => l | _ => [] end.

(** The entry set of a possibly null map. *)
Definition entries (m : option Obj) : Obj :=
  match m with Some a => a | None => [] end.

(** [$m.put(k, v)] on a possibly null map: a call on null does nothing. *)
Definition mput (k : string) (v : json) (m : option Obj) : option Obj :=
  option_map (VMap.put k v) m.

(** [$m.k] on a possibly null map. *)
Definition mfield (m : option Obj) (k : string) : json :=
  Json.field (entries m) k.

Definition of_map (m : option Obj) : json :=
  match m with Some a => JMap a | None => JNull end.

(** [$util.dynamodb.toString]. *)
Definition toStringAttr (v : option string) : AttributeValue :=
  match v with Some s => AttrS s | None => AttrNULL end.

(** Equality of two string references, as [==] compares them. *)
Definition eqS (a b : option string) : bool :=
  match a, b with
  | Some x, Some y => String.eqb x y
  | None, None => true
  | _, _ => false
  end.

End Json2.

(* ------------------------------------------------------------------ *)
(** * The mapping templates

    [set_null_allowed] is Velocity's [directive.set.null.allowed].  With the
    engine's default, [false], a [#set] whose right-hand side evaluates to
    null assigns nothing and the variable keeps its value (Velocity user
    guide, "#set": "If the RHS is a property or method reference that
    evaluates to null, it will not be assigned to the LHS"); with [true]
    the variable becomes null.  [object_truth] is how the engine judges a
    value that is neither null nor a Boolean in [#if]: Velocity 1.7 takes
    every such value for true, later engines take the empty string, zero
    and empty collections for false.  [tableName] is the name of the
    website metadata table that the stack splices into the batch
    templates. *)

Section Templates.

Variable set_null_allowed : bool.
Variable object_truth : json -> bool.
Variable tableName : string.

(** A value as a condition of [#if]. *)
Definition truthy (v : json) : bool :=
  match v with JNull => false | JBool b => b | _ => object_truth v end.

(** [#if($args.expectedVersion) "condition" : ... #end]. *)
Definition expectedVersion (args : Obj) : option (string * AttributeValue) :=
  let v := Json.field args "expectedVersion" in
  if truthy v then Some ("version = :expectedVersion", Json.toDynamoDB v) else None.

(** [#set($x = rhs)] for a variable that holds [old]. *)
Definition vset {A} (old rhs : option A) : option A :=
  match rhs with
  | Some _ => rhs
  | None => if set_null_allowed then None else old
  end.

(** [#set($m[k] = v)]. *)
Definition set_index (m : Obj) (k : string) (v : json) : Obj :=
  if Json.is_null v && negb set_null_allowed then m else VMap.put k v m.

Definition arg (ctx : Context) (k : string) : option string := Json.fieldS (args ctx) k.
Definition src (ctx : Context) (k : string) : option string := Json.fieldS (source ctx) k.
Definition stashed (ctx : Context) (k : string) : option string := Json.fieldS (stash ctx) k.
Definition claim (ctx : Context) (k : string) : option string := Json.fieldS (claims ctx) k.

(** [$!{ctx.stash.put(k, v)}]. *)
Definition stash_put (k : string) (v : json) (st : Obj) : Obj := VMap.put k v st.

(** [MappingTemplate.dynamoDbResultItem()]: [$util.toJson($ctx.result)]. *)
Definition dynamoDbResultItem (ctx : Context) : Response :=
  Returned (result ctx) (stash ctx).

(** The response of the list resolvers: the items and the next token of
    the result; [blank_to_null] is the
    [$util.defaultIfNullOrBlank($context.result.nextToken, null)] variant. *)
Definition page (blank_to_null : bool) (ctx : Context) : json :=
  let r := Json2.entries (Json2.as_map (result ctx)) in
  let token :=
    if blank_to_null
    then Json.of_str (Util.defaultIfNullOrBlank (Json.fieldS r "nextToken") None)
    else Json.field r "nextToken" in
  JMap [("items", Json.field r "items"); ("nextToken", token)].

(** The attributes [copyAndRemoveAllKeys] strips before a record is merged
    into a result. *)
Definition bookkeeping : list string :=
  ["PK"; "SK"; "TYPE"; "GSI1PK"; "GSI1SK"; "GSI2PK"; "GSI2SK";
   "dateAddedToDynamo"; "dateModifiedInDynamo"].

(** ** getMergedItemRecordFunction *)

Definition getMergedItemRecordFunction_request (ctx : Context) : Rendered :=
  let id := Util.defaultIfNullOrBlank (stashed ctx "itemId") (src ctx "itemId") in
  let id := vset id (Util.defaultIfNullOrBlank id (src ctx "id")) in
  (* the first argument is [$is], a variable no line defines *)
  let id := vset id (Util.defaultIfNullOrBlank None (src ctx "itemMetadataId")) in
  let id := vset id (Util.defaultIfNullOrBlank id (Some "")) in
  let suppliedWebsiteId :=
    Util.defaultIfNullOrBlank (stashed ctx "websiteId") (src ctx "suppliedWebsiteId") in
  (* [$util.defaultIfNullOrBland] is no method of [$util]: the call is null *)
  let suppliedWebsiteId := vset suppliedWebsiteId None in
  let st := stash_put "suppliedWebsiteId" (Json.of_str suppliedWebsiteId) (stash ctx) in
  let id := vset id (Util.defaultIfNullOrBlank id (Some "")) in
  let id := vset id (Util.toUpper' id) in
  let id := vset id (Util.toReplace' id " " "") in
  let pk := "ITEM#" ++ Util.ref "$id" id in
  {| out_stash := st;
     out_request := Some (Req.queryTable [CEq "PK" (Req.toDynamoDBJson (Some pk))]) |}.

(** The body of [#foreach($item in $context.result.items)]. *)
Definition merge_record (suppliedWebsiteId : option string) (results : Obj) (item : json) : Obj :=
  let rec := Json2.entries (Json2.as_map item) in
  let websiteInRecord :=
    Util.toUpper' (Util.defaultIfNullOrBlank (Json.fieldS rec "websiteId") (Some "")) in
  let type := Json.fieldS rec "TYPE" in
  if Json2.eqS type (Some "Item") then
    set_index rec "suppliedWebsiteId" (Json.of_str suppliedWebsiteId)
  else if Json2.eqS type (Some "ParentOverride") then
    set_index results "parentId" (Json.field rec "parentId")
  else if Json2.eqS type (Some "SupplementalData")
          && (Json2.eqS suppliedWebsiteId websiteInRecord
              || Json2.eqS websiteInRecord (Some "ALL")) then
    fold_left (fun r entry => set_index r (fst entry) (snd entry))
      (VMap.copyAndRemoveAllKeys rec bookkeeping) results
  else results.

Definition merged_results (ctx : Context) : Obj :=
  let suppliedWebsiteId :=
    Util.toUpper' (Util.defaultIfNullOrBlank (stashed ctx "suppliedWebsiteId") (Some "")) in
  let items := Json2.as_list (Json.field (Json2.entries (Json2.as_map (result ctx))) "items") in
  fold_left (merge_record suppliedWebsiteId) items [].

Definition getMergedItemRecordFunction_response (ctx : Context) : Response :=
  match error ctx with
  | Some e => FieldError (message e) (errorType e)
  | None =>
      let results := merged_results ctx in
      Returned (JMap results) (stash_put "itemRecord" (JMap results) (stash ctx))
  end.

(** ** expandSubjectTermsFunction *)

(** The body of [#foreach($subject in $subjects)]; the accumulator is
    [($keys, $uriList)]. *)
Definition subject_key (acc : list (list (string * AttributeValue)) * list string)
  (subject : json) : list (list (string * AttributeValue)) * list string :=
  let '(keys, uriList) := acc in
  let uri :=
    Util.toUpper' (Util.defaultIfNullOrBlank
      (Json.fieldS (Json2.entries (Json2.as_map subject)) "uri") (Some "")) in
  if negb (Json2.eqS uri (Some "")) && negb (VMap.mem (Util.ref "$uri" uri) uriList) then
    let uriList := VMap.add uriList (Util.ref "$uri" uri) in
    let map := [("PK", Json2.toStringAttr (Some "SUBJECTTERM"));
                ("SK", Json2.toStringAttr (Some ("URI#" ++ Util.ref "$uri" uri)))] in
    (VMap.add keys map, uriList)
  else (keys, uriList).

Definition expandSubjectTermsFunction_request (ctx : Context) : Rendered :=
  let subjects :=
    Json.field (Json2.entries (Json2.as_map (Json.field (stash ctx) "itemRecord"))) "subjects" in
  let st := stash_put "subjectsBefore" subjects (stash ctx) in
  let '(keys, uriList) := fold_left subject_key (Json2.as_list subjects) ([], []) in
  let st := stash_put "uriList" (JList (map JStr uriList)) st in
  let '(st, keys) :=
    if negb (VMap.isEmpty keys) then (stash_put "queryAttempted" (JNum 1) st, keys)
    else
      let st := stash_put "queryAttempted" (JNum 0) st in
      let map := [("PK", Json2.toStringAttr (Some "NoKeyToFind"));
                  ("SK", Json2.toStringAttr (Some "YieldEmptyResultSet"))] in
      (st, VMap.add keys map) in
  {| out_stash := st; out_request := Some (Req.batchOp "BatchGetItem" keys) |}.

(** [#foreach( $entry in copyAndRemoveAllKeys($item, [...]).entrySet() )]
    into a fresh [$map]. *)
Definition strip_record (item : json) : json :=
  JMap (fold_left (fun m entry => set_index m (fst entry) (snd entry))
          (VMap.copyAndRemoveAllKeys (Json2.entries (Json2.as_map item)) bookkeeping) []).

(** The body of [#foreach($subject in $ctx.stash.subjectsBefore)]: the
    inner loop walks [$ctx.stash.subjectsAfter], a stash entry, and not
    the local list [$subjectsAfter]. *)
Definition keep_subject (ctx : Context) (subjectsAfter : list json) (subject : json) : list json :=
  let uri := Json.fieldS (Json2.entries (Json2.as_map subject)) "uri" in
  if Json2.eqS (Util.defaultIfNullOrBlank uri (Some "")) (Some "") then
    VMap.add subjectsAfter subject
  else
    let uriToFind := Util.toUpper' (Util.defaultIfNullOrBlank uri (Some "")) in
    snd (fold_left
      (fun (acc : bool * list json) subjectAfter =>
         let '(subjectInAfterList, subjectsAfter) := acc in
         let other :=
           Util.toUpper' (Util.defaultIfNullOrBlank
             (Json.fieldS (Json2.entries (Json2.as_map subjectAfter)) "uri") (Some "")) in
         let subjectInAfterList := subjectInAfterList || Json2.eqS uriToFind other in
         if subjectInAfterList then (subjectInAfterList, subjectsAfter)
         else (subjectInAfterList, VMap.add subjectsAfter subject))
      (Json2.as_list (Json.field (stash ctx) "subjectsAfter"))
      (false, subjectsAfter)).

Definition expandSubjectTermsFunction_response (ctx : Context) : Response :=
  match error ctx with
  | Some e => FieldError (message e) (errorType e)
  | None =>
      let found :=
        match Json.field (stash ctx) "queryAttempted" with
        | JNum 1 =>
            Json2.as_list
              (Json.field
                 (Json2.entries (Json2.as_map
                    (Json.field (Json2.entries (Json2.as_map (result ctx))) "data")))
                 tableName)
        | _ => []
        end in
      let subjectsAfter := map strip_record found in
      let subjectsAfter :=
        fold_left (keep_subject ctx)
          (Json2.as_list (Json.field (stash ctx) "subjectsBefore")) subjectsAfter in
      let itemRecord :=
        Json2.mput "subjects" (JList subjectsAfter)
          (Json2.as_map (Json.field (stash ctx) "itemRecord")) in
      Returned (Json2.of_map itemRecord)
        (match itemRecord with
         | Some r => stash_put "itemRecord" (JMap r) (stash ctx)
         | None => stash ctx
         end)
  end.

(** ** findPortfolioContentForUserFunction and
       deletePortfolioContentForUserFunction *)

Definition findPortfolioContentForUserFunction_request (ctx : Context) : Rendered :=
  let portfolioUserId := stashed ctx "portfolioUserId" in
  let portfolioUserId := Util.defaultIfNullOrBlank portfolioUserId (Some "") in
  let portfolioUserId := Util.toUpper' portfolioUserId in
  let portfolioUserId := Util.toReplace' portfolioUserId " " "" in
  let portfolioCollectionId := stashed ctx "portfolioCollectionId" in
  let portfolioCollectionId := Util.defaultIfNullOrBlank portfolioCollectionId (Some "") in
  let portfolioCollectionId := Util.toUpper' portfolioCollectionId in
  let portfolioCollectionId := Util.toReplace' portfolioCollectionId " " "" in
  let pk := "PORTFOLIO" in
  let sk :=
    if Json2.eqS portfolioCollectionId (Some "")
    then "USER#" ++ Util.ref "$portfolioUserId" portfolioUserId
    else "USER#" ++ Util.ref "$portfolioUserId" portfolioUserId
           ++ "#" ++ Util.ref "$portfolioCollectionId" portfolioCollectionId in
  let st := stash_put "findPortfolioContentForUserFunctionPk" (JStr pk) (stash ctx) in
  let st := stash_put "findPortfolioContentForUserFunctionSk" (JStr sk) st in
  {| out_stash := st;
     out_request := Some (Req.queryTable
       [CEq "PK" (Req.toDynamoDBJson (Some pk));
        CBeginsWith "SK" (Req.toDynamoDBJson (Some sk))]) |}.

Definition findPortfolioContentForUserFunction_response (ctx : Context) : Response :=
  match error ctx with
  | Some e => FieldError (message e) (errorType e)
  | None =>
      let items := Json.field (Json2.entries (Json2.as_map (result ctx))) "items" in
      Returned (JMap [("items", items)])
        (stash_put "portfolioRecordsToDelete" items (stash ctx))
  end.

Definition deletePortfolioContentForUserFunction_request (ctx : Context) : Rendered :=
  let portfolioRecordsToDelete := Json.field (stash ctx) "portfolioRecordsToDelete" in
  let '(keys, recordsCountToDelete) :=
    fold_left
      (fun (acc : list (list (string * AttributeValue)) * Z) entry =>
         let rec := Json2.entries (Json2.as_map entry) in
         let map := [("PK", Json2.toStringAttr (Json.fieldS rec "PK"));
                     ("SK", Json2.toStringAttr (Json.fieldS rec "SK"))] in
         (VMap.add (fst acc) map, (snd acc + 1)%Z))
      (Json2.as_list portfolioRecordsToDelete) ([], 0%Z) in
  let st := stash_put "recordsCountToDelete" (JNum recordsCountToDelete) (stash ctx) in
  let '(st, keys) :=
    if negb (VMap.isEmpty keys) then (stash_put "queryAttempted" (JNum 1) st, keys)
    else
      let st := stash_put "queryAttempted" (JNum 0) st in
      let map := [("PK", Json2.toStringAttr (Some "NoKeyToFind"));
                  ("SK", Json2.toStringAttr (Some "YieldEmptyResultSet"))] in
      (st, VMap.add keys map) in
  let st :=
    stash_put "deletePortfolioContentForUserFunctionKeys"
      (JList (map (fun k => JMap (map (fun e =>
         (fst e, match snd e with AttrS s => JMap [("S", JStr s)] | _ => JNull end)) k)) keys)) st in
  {| out_stash := st; out_request := Some (Req.batchOp "BatchDeleteItem" keys) |}.

Definition deletePortfolioContentForUserFunction_response (ctx : Context) : Response :=
  match error ctx with
  | Some e => FieldError (message e) (errorType e)
  | None =>
      Returned (JMap [("recordsDeleted", Json.field (stash ctx) "recordsCountToDelete")])
        (stash ctx)
  end.

(** ** The update functions' copies of the expression builder

    [now] stands for each reading of [$util.time.nowISO8601()] during one
    evaluation. *)

Definition updateSupplementalDataRecordFunction_update (now : string) (args : option Obj)
  : Builder.Update :=
  let acc := Builder.collect (Json2.entries args) in
  let expNames := Builder.expNames acc in
  let expValues := Builder.expValues acc in
  let expSet := Builder.expSet acc in
  let expAdd := Builder.expAdd acc in
  let expRemove := Builder.expRemove acc in
  let expression := "" in
  let '(expression, expValues) :=
    if negb (VMap.isEmpty expSet) then
      let expression := "SET" in
      let expression := Builder.foreach_set expression expSet in
      let expression :=
        expression ++ ", dateAddedToDynamo = if_not_exists(dateAddedToDynamo, :dateAddedToDynamo)" in
      (expression, VMap.put ":dateAddedToDynamo" (Json.toDynamoDB (JStr now)) expValues)
    else (expression, expValues) in
  let expression :=
    if negb (VMap.isEmpty expAdd)
    then Builder.foreach_add (expression ++ " ADD") expAdd else expression in
  let expression :=
    if negb (VMap.isEmpty expRemove)
    then Builder.foreach_remove (expression ++ " REMOVE") expRemove else expression in
  {| Builder.expression := expression;
     Builder.expressionNames := expNames;
     Builder.expressionValues := expValues;
     Builder.condition := expectedVersion (Json2.entries args) |}.

Definition updateItemFunction_update (args : option Obj) : Builder.Update :=
  let acc := Builder.collect (Json2.entries args) in
  let expNames := Builder.expNames acc in
  let expValues := Builder.expValues acc in
  let expSet := Builder.expSet acc in
  let expAdd := Builder.expAdd acc in
  let expRemove := Builder.expRemove acc in
  let expression := "" in
  let expression :=
    if negb (VMap.isEmpty expSet)
    then Builder.foreach_set "SET" expSet else expression in
  let expression :=
    if negb (VMap.isEmpty expAdd)
    then Builder.foreach_add (expression ++ " ADD") expAdd else expression in
  let expression :=
    if negb (VMap.isEmpty expRemove)
    then Builder.foreach_remove (expression ++ " REMOVE") expRemove else expression in
  {| Builder.expression := expression;
     Builder.expressionNames := expNames;
     Builder.expressionValues := expValues;
     Builder.condition := expectedVersion (Json2.entries args) |}.

Definition updateSupplementalDataFunction_update (args : option Obj) : Builder.Update :=
  let acc := Builder.collect (Json2.entries args) in
  let expNames := Builder.expNames acc in
  let expValues := Builder.expValues acc in
  let expSet := Builder.expSet acc in
  let expAdd := Builder.expAdd acc in
  let expRemove := Builder.expRemove acc in
  let expression := "" in
  let expression :=
    if negb (VMap.isEmpty expSet)
    then Builder.foreach_set "SET" expSet else expression in
  let expression :=
    if negb (VMap.isEmpty expAdd)
    then Builder.foreach_add (expression ++ " ADD") expAdd else expression in
  let expression :=
    if negb (VMap.isEmpty expRemove)
    then Builder.foreach_remove (expression ++ " REMOVE") expRemove else expression in
  {| Builder.expression := expression;
     Builder.expressionNames := expNames;
     Builder.expressionValues := expValues;
     Builder.condition := expectedVersion (Json2.entries args) |}.

(** The response shared by the update functions: the error guard, then
    [$util.toJson($ctx.result)]. *)
Definition guarded_result (ctx : Context) : Response :=
  match error ctx with
  | Some e => FieldError (message e) (errorType e)
  | None => Returned (result ctx) (stash ctx)
  end.

(** ** updateSupplementalDataRecordFunction (second revision) *)

Definition updateSupplementalDataRecordFunction_request (ctx : Context) : Rendered :=
  let args := Json2.as_map (Json.field (stash ctx) "supplementalDataArgs") in
  let id := Json.str (Json2.mfield args "itemId") in
  let websiteId := Json.str (Json2.mfield args "websiteId") in
  let id := Util.defaultIfNullOrBlank id (Some "") in
  let idNotUpper := id in
  let id := Util.toUpper' id in
  let id := Util.toReplace' id " " "" in
  let websiteId := Util.defaultIfNullOrBlank websiteId (Some "All") in
  let websiteIdNotUpper := websiteId in
  let websiteId := Util.toUpper' websiteId in
  let websiteId := Util.toReplace' websiteId " " "" in
  let pk := "ITEM#" ++ Util.ref "$id" id in
  let sk := "SUPPLEMENTALDATA#" ++ Util.ref "$websiteId" websiteId in
  let args := Json2.mput "TYPE" (JStr "SupplementalData") args in
  let args := Json2.mput "dateModifiedInDynamo" (JStr (now ctx)) args in
  let args := Json2.mput "GSI1PK" (JStr "SUPPLEMENTALDATA") args in
  let args := Json2.mput "GSI1SK" (JStr ("ITEM#" ++ Util.ref "$id" id)) args in
  let args := Json2.mput "id" (Json.of_str idNotUpper) args in
  let args := Json2.mput "websiteId" (Json.of_str websiteIdNotUpper) args in
  {| out_stash :=
       match args with
       | Some a => stash_put "supplementalDataArgs" (JMap a) (stash ctx)
       | None => stash ctx
       end;
     out_request := Some (Req.updateItem
       [("PK", Req.toDynamoDBJson (Some pk)); ("SK", Req.toDynamoDBJson (Some sk))]
       (updateSupplementalDataRecordFunction_update (now ctx) args)) |}.

Definition updateSupplementalDataRecordFunction_response := guarded_result.

(** ** Resolvers of the second revision *)

Definition QueryShowItemByWebsite_request (ctx : Context) : Rendered :=
  let st := stash_put "itemId" (Json.field (args ctx) "itemId") (stash ctx) in
  let st := stash_put "websiteId" (Json.field (args ctx) "websiteId") st in
  {| out_stash := st; out_request := None |}.

Definition FileFileGroupResolver_request (ctx : Context) : Rendered :=
  let id := src ctx "objectFileGroupId" in
  let id := Util.defaultIfNullOrBlank id (Some "") in
  let id := Util.toUpper' id in
  let id := Util.toReplace' id " " "" in
  let fullId := "FILEGROUP#" ++ Util.ref "$id" id in
  {| out_stash := stash ctx;
     out_request := Some (Req.getItem
       [("PK", Req.toDynamoDBJson (Some "FILEGROUP"));
        ("SK", Req.toDynamoDBJson (Some fullId))]) |}.

Definition FileGroupFilesResolver_request (ctx : Context) : Rendered :=
  let id := src ctx "objectFileGroupId" in
  let id := Util.defaultIfNullOrBlank id (Some "") in
  let id := Util.toUpper' id in
  let id := Util.toReplace' id " " "" in
  let fullId := "FILEGROUP#" ++ Util.ref "$id" id in
  {| out_stash := stash ctx;
     out_request := Some (Req.queryIndex "GSI1"
       [CEq "GSI1PK" (Req.toDynamoDBJson (Some fullId));
        CBeginsWith "GSI1SK" (Req.toDynamoDBJson (Some "SORT#"))]) |}.

Definition ItemMetadataDefaultFileResolver_request (ctx : Context) : Rendered :=
  let id := src ctx "defaultFilePath" in
  let id := Util.defaultIfNullOrBlank id (Some "") in
  let id := Util.toUpper' id in
  let id := Util.toReplace' id " " "" in
  let pk := "FILE" in
  let sk := "FILE#" ++ Util.ref "$id" id in
  {| out_stash := stash ctx;
     out_request := Some (Req.getItem
       [("PK", Req.toDynamoDBJson (Some pk)); ("SK", Req.toDynamoDBJson (Some sk))]) |}.

Definition ItemMetadataParentResolver_request (ctx : Context) : Rendered :=
  let st := stash_put "itemId" (Json.field (source ctx) "parentId") (stash ctx) in
  let st := stash_put "websiteId" (Json.field (source ctx) "suppliedWebsiteId") st in
  {| out_stash := st; out_request := None |}.

Definition ItemMetadataChildrenResolver_request (ctx : Context) : Rendered :=
  let id := src ctx "id" in
  let id := Util.defaultIfNullOrBlank id (Some "") in
  let id := Util.toUpper' id in
  let id := Util.toReplace' id " " "" in
  let fullId := "ITEM#" ++ Util.ref "$id" id in
  let st := stash_put "itemId" (Json.field (source ctx) "id") (stash ctx) in
  let st :=
    if negb (Json.is_null (Json.field (source ctx) "suppliedWebsiteId"))
    then stash_put "websiteId" (Json.field (source ctx) "suppliedWebsiteId") st
    else st in
  {| out_stash := st;
     out_request := Some (Req.queryIndex "GSI1"
       [CEq "GSI1PK" (Req.toDynamoDBJson (Some fullId))]) |}.

Definition ItemMetadataChildrenResolver_response (ctx : Context) : Response :=
  let results := Json2.entries (Json2.as_map (result ctx)) in
  let items :=
    map (fun item =>
           match Json2.as_map item with
           | Some m => JMap (set_index m "suppliedWebsiteId" (Json.field (stash ctx) "websiteId"))
           | None => item
           end)
      (Json2.as_list (Json.field results "items")) in
  Returned
    (JMap [("items", match Json.field results "items" with JList _ => JList items | v => v end);
           ("nextToken",
            Json.of_str (Util.defaultIfNullOrBlank (Json.fieldS results "nextToken") None))])
    (stash ctx).

Definition ItemMetadataFilesResolver_request (ctx : Context) : Rendered :=
  let id := src ctx "objectFileGroupId" in
  let id := Util.defaultIfNullOrBlank id (Some "") in
  let id := Util.toUpper' id in
  let id := Util.toReplace' id " " "" in
  let fullId := "FILEGROUP#" ++ Util.ref "$id" id in
  {| out_stash := stash ctx;
     out_request := Some (Req.queryIndex "GSI1"
       [CEq "GSI1PK" (Req.toDynamoDBJson (Some fullId));
        CBeginsWith "GSI1SK" (Req.toDynamoDBJson (Some "SORT#"))]) |}.

Definition MutationAddItemToWebsiteResolver_request (ctx : Context) : Rendered :=
  let websiteId := arg ctx "websiteId" in
  let websiteId := Util.defaultIfNullOrBlank websiteId (Some "") in
  let websiteId := Util.toUpper' websiteId in
  let websiteId := Util.toReplace' websiteId " " "" in
  let itemId := arg ctx "itemId" in
  let itemId := Util.defaultIfNullOrBlank itemId (Some "") in
  let itemId := Util.toUpper' itemId in
  let itemId := Util.toReplace' itemId " " "" in
  let pk := "WEBSITE#" ++ Util.ref "$websiteId" websiteId in
  let sk := "ITEM#" ++ Util.ref "$itemId" itemId in
  let GSI1PK := pk in
  let GSI1SK := "ADDED#" ++ now ctx in
  let st := stash_put "itemId" (Json.field (args ctx) "itemId") (stash ctx) in
  let st := stash_put "websiteId" (Json.field (args ctx) "websiteId") st in
  {| out_stash := st;
     out_request := Some (Req.updateItem
       [("PK", Req.toDynamoDBJson (Some pk)); ("SK", Req.toDynamoDBJson (Some sk))]
       (Req.literal
          "SET itemId = :itemId, websiteId = :websiteId, #TYPE = :rowType, dateModifiedInDynamo = :dateModifiedInDynamo, GSI1PK = :GSI1PK, GSI1SK = :GSI1SK, id = :id"
          [("#TYPE", "TYPE")]
          [(":itemId", Json.toDynamoDB (Json.field (args ctx) "itemId"));
           (":websiteId", Json.toDynamoDB (Json.field (args ctx) "websiteId"));
           (":rowType", Req.toDynamoDBJson (Some "WebSiteItem"));
           (":dateModifiedInDynamo", Req.toDynamoDBJson (Some (now ctx)));
           (":GSI1PK", Req.toDynamoDBJson (Some GSI1PK));
           (":GSI1SK", Req.toDynamoDBJson (Some GSI1SK));
           (":id", Json.toDynamoDB (Json.field (args ctx) "itemId"))])) |}.

Definition MutationAddItemToHarvestResolver_request (ctx : Context) : Rendered :=
  let harvestItemId := arg ctx "harvestItemId" in
  let harvestItemId := Util.defaultIfNullOrBlank harvestItemId (Some "") in
  let harvestItemId := Util.toUpper' harvestItemId in
  let harvestItemId := Util.toReplace' harvestItemId " " "" in
  let sourceSystem := arg ctx "sourceSystem" in
  let sourceSystem := Util.defaultIfNullOrBlank sourceSystem (Some "") in
  let sourceSystem := Util.toUpper' sourceSystem in
  let sourceSystem := Util.toReplace' sourceSystem " " "" in
  let pk := "ITEMTOHARVEST" in
  let sk := "SOURCESYSTEM#" ++ Util.ref "$sourceSystem" sourceSystem
              ++ "#" ++ Util.ref "$harvestItemId" harvestItemId in
  {| out_stash := stash ctx;
     out_request := Some (Req.updateItem
       [("PK", Req.toDynamoDBJson (Some pk)); ("SK", Req.toDynamoDBJson (Some sk))]
       (Req.literal
          "SET harvestItemId = :harvestItemId, sourceSystem = :sourceSystem, #TYPE = :rowType, dateModifiedInDynamo = :dateModifiedInDynamo, dateAddedToDynamo = :dateAddedToDynamo"
          [("#TYPE", "TYPE")]
          [(":harvestItemId", Json.toDynamoDB (Json.field (args ctx) "harvestItemId"));
           (":sourceSystem", Json.toDynamoDB (Json.field (args ctx) "sourceSystem"));
           (":rowType", Req.toDynamoDBJson (Some "ItemToHarvest"));
           (":dateModifiedInDynamo", Req.toDynamoDBJson (Some (now ctx)));
           (":dateAddedToDynamo", Req.toDynamoDBJson (Some (now ctx)))])) |}.

Definition MutationRemoveItemFromWebsiteResolver_request (ctx : Context) : Rendered :=
  let websiteId := arg ctx "websiteId" in
  let websiteId := Util.defaultIfNullOrBlank websiteId (Some "") in
  let websiteId := Util.toUpper' websiteId in
  let websiteId := Util.toReplace' websiteId " " "" in
  let itemId := arg ctx "itemId" in
  let itemId := Util.defaultIfNullOrBlank itemId (Some "") in
  let itemId := Util.toUpper' itemId in
  let itemId := Util.toReplace' itemId " " "" in
  let pk := "WEBSITE#" ++ Util.ref "$websiteId" websiteId in
  let sk := "ITEM#" ++ Util.ref "$itemId" itemId in
  {| out_stash := stash ctx;
     out_request := Some (Req.deleteItem
       [("PK", Req.toDynamoDBJson (Some pk)); ("SK", Req.toDynamoDBJson (Some sk))]) |}.

Definition MutationRemoveDefaultImageForWebsiteResolver_request (ctx : Context) : Rendered :=
  let itemId := arg ctx "itemId" in
  let itemId := Util.defaultIfNullOrBlank itemId (Some "") in
  let itemId := Util.toUpper' itemId in
  let itemId := Util.toReplace' itemId " " "" in
  let websiteId := arg ctx "websiteId" in
  let websiteId := Util.defaultIfNullOrBlank websiteId (Some "All") in
  let websiteId := Util.toUpper' websiteId in
  let websiteId := Util.toReplace' websiteId " " "" in
  let pk := "ITEM#" ++ Util.ref "$itemId" itemId in
  let sk := "SUPPLEMENTALDATA#" ++ Util.ref "$websiteId" websiteId in
  {| out_stash := stash ctx;
     out_request := Some (Req.updateItem
       [("PK", Req.toDynamoDBJson (Some pk)); ("SK", Req.toDynamoDBJson (Some sk))]
       (Req.literal "Remove defaultFilePath, objectFileGroupId" [] [])) |}.

(** [$ctx.identity], as the portfolio resolvers stash it. *)
Definition identity (ctx : Context) : json := JMap [("claims", JMap (claims ctx))].

Definition MutationRemovePortfolioCollectionResolver_request (ctx : Context) : Rendered :=
  let portfolioUserId := claim ctx "netid" in
  let portfolioCollectionId :=
    Util.defaultIfNullOrBlank (arg ctx "portfolioCollectionId") (Some "") in
  let portfolioCollectionId := Util.toUpper' portfolioCollectionId in
  let portfolioCollectionId := Util.toReplace' portfolioCollectionId " " "" in
  let st := stash_put "identity" (identity ctx) (stash ctx) in
  let st := stash_put "portfolioUserId" (Json.of_str portfolioUserId) st in
  let st := stash_put "portfolioCollectionId" (Json.of_str portfolioCollectionId) st in
  {| out_stash := st; out_request := None |}.

Definition MutationRemovePortfolioItemResolver_request (ctx : Context) : Rendered :=
  let portfolioUserId := claim ctx "netid" in
  let portfolioCollectionId :=
    Util.defaultIfNullOrBlank (arg ctx "portfolioCollectionId") (Some "") in
  let portfolioCollectionId := Util.toUpper' portfolioCollectionId in
  let portfolioCollectionId := Util.toReplace' portfolioCollectionId " " "" in
  let portfolioItemId := Util.defaultIfNullOrBlank (arg ctx "portfolioItemId") (Some "") in
  let portfolioItemId := Util.toUpper' portfolioItemId in
  let portfolioItemId := Util.toReplace' portfolioItemId " " "" in
  let pk := "PORTFOLIO" in
  let sk := "USER#"
              ++ Util.ref "$util.str.toUpper($portfolioUserId)" (Util.toUpper' portfolioUserId)
              ++ "#" ++ Util.ref "$portfolioCollectionId" portfolioCollectionId
              ++ "#" ++ Util.ref "$portfolioItemId" portfolioItemId in
  {| out_stash := stash ctx;
     out_request := Some (Req.deleteItem
       [("PK", Req.toDynamoDBJson (Some pk)); ("SK", Req.toDynamoDBJson (Some sk))]) |}.

Definition MutationRemovePortfolioUserResolver_request (ctx : Context) : Rendered :=
  let portfolioUserId := claim ctx "netid" in
  let st := stash_put "identity" (identity ctx) (stash ctx) in
  let st := stash_put "portfolioUserId" (Json.of_str portfolioUserId) st in
  let st := stash_put "portfolioCollectionId" (JStr "") st in
  {| out_stash := st; out_request := None |}.

Definition MutationSaveAdditionalNotesForWebsiteResolver_request (ctx : Context) : Rendered :=
  let st := stash_put "itemId" (Json.field (args ctx) "itemId") (stash ctx) in
  let st := stash_put "websiteId" (Json.field (args ctx) "websiteId") st in
  let supplementalDataArgs : Obj := [] in
  let supplementalDataArgs := VMap.put "itemId" (Json.field (args ctx) "itemId") supplementalDataArgs in
  let supplementalDataArgs := VMap.put "websiteId" (Json.field (args ctx) "websiteId") supplementalDataArgs in
  (* [$null] is an undefined variable: the default is null *)
  let additionalNotes := Util.defaultIfNullOrBlank (arg ctx "additionalNotes") None in
  let supplementalDataArgs := VMap.put "additionalNotes" (Json.of_str additionalNotes) supplementalDataArgs in
  let st := stash_put "supplementalDataArgs" (JMap supplementalDataArgs) st in
  {| out_stash := st; out_request := None |}.

Definition MutationSaveCopyrightForWebsiteResolver_request (ctx : Context) : Rendered :=
  let st := stash_put "itemId" (Json.field (args ctx) "itemId") (stash ctx) in
  let st := stash_put "websiteId" (Json.field (args ctx) "websiteId") st in
  let supplementalDataArgs : Obj := [] in
  let supplementalDataArgs := VMap.put "itemId" (Json.field (args ctx) "itemId") supplementalDataArgs in
  let supplementalDataArgs := VMap.put "websiteId" (Json.field (args ctx) "websiteId") supplementalDataArgs in
  let copyrightStatemnt := Util.defaultIfNullOrBlank (arg ctx "copyrightStatement") None in
  let supplementalDataArgs := VMap.put "copyrightStatement" (Json.of_str copyrightStatemnt) supplementalDataArgs in
  let copyrightStatus := "Copyright" in
  let copyrightStatus :=
    if negb (truthy (Json.field (args ctx) "inCopyright")) then "not in copyright"
    else copyrightStatus in
  let supplementalDataArgs := VMap.put "copyrightStatus" (JStr copyrightStatus) supplementalDataArgs in
  let supplementalDataArgs := VMap.put "inCopyright" (Json.field (args ctx) "inCopyright") supplementalDataArgs in
  let st := stash_put "supplementalDataArgs" (JMap supplementalDataArgs) st in
  {| out_stash := st; out_request := None |}.

Definition MutationSaveDefaultImageForWebsiteResolver_request (ctx : Context) : Rendered :=
  let st := stash_put "itemId" (Json.field (args ctx) "itemId") (stash ctx) in
  let st := stash_put "websiteId" (Json.field (args ctx) "websiteId") st in
  let supplementalDataArgs : Obj := [] in
  let supplementalDataArgs := VMap.put "itemId" (Json.field (args ctx) "itemId") supplementalDataArgs in
  let supplementalDataArgs := VMap.put "websiteId" (Json.field (args ctx) "websiteId") supplementalDataArgs in
  let defaultFilePath := Util.defaultIfNullOrBlank (arg ctx "defaultFilePath") None in
  let objectFileGroupId := Util.defaultIfNullOrBlank (arg ctx "objectFileGroupId") None in
  let supplementalDataArgs := VMap.put "defaultFilePath" (Json.of_str defaultFilePath) supplementalDataArgs in
  let supplementalDataArgs := VMap.put "objectFileGroupId" (Json.of_str objectFileGroupId) supplementalDataArgs in
  let st := stash_put "supplementalDataArgs" (JMap supplementalDataArgs) st in
  {| out_stash := st; out_request := None |}.

Definition MutationSavePartiallyDigitizedForWebsiteResolver_request (ctx : Context) : Rendered :=
  let st := stash_put "itemId" (Json.field (args ctx) "itemId") (stash ctx) in
  let st := stash_put "websiteId" (Json.field (args ctx) "websiteId") st in
  let supplementalDataArgs : Obj := [] in
  let supplementalDataArgs := VMap.put "itemId" (Json.field (args ctx) "itemId") supplementalDataArgs in
  let supplementalDataArgs := VMap.put "websiteId" (Json.field (args ctx) "websiteId") supplementalDataArgs in
  let supplementalDataArgs :=
    VMap.put "partiallyDigitized" (Json.field (args ctx) "partiallyDigitized") supplementalDataArgs in
  let st := stash_put "supplementalDataArgs" (JMap supplementalDataArgs) st in
  {| out_stash := st; out_request := None |}.

Definition MutationSaveFileLastProcessedDateResolver_request (ctx : Context) : Rendered :=
  let itemId := arg ctx "itemId" in
  let itemId := Util.defaultIfNullOrBlank itemId (Some "") in
  let itemId := Util.toUpper' itemId in
  let itemId := Util.toReplace' itemId " " "" in
  let pk := "FILETOPROCESS" in
  let sk := "FILEPATH#" ++ Util.ref "$itemId" itemId in
  let dateLastProcessed := now ctx in
  let GSI2SK := "DATELASTPROCESSED#" ++ dateLastProcessed in
  {| out_stash := stash ctx;
     out_request := Some (Req.updateItem
       [("PK", Req.toDynamoDBJson (Some pk)); ("SK", Req.toDynamoDBJson (Some sk))]
       (Req.literal
          "SET dateLastProcessed = :dateLastProcessed, dateModifiedInDynamo = :dateModifiedInDynamo, GSI2PK = :GSI2PK, GSI2SK = :GSI2SK"
          []
          [(":dateLastProcessed", Req.toDynamoDBJson (Some dateLastProcessed));
           (":dateModifiedInDynamo", Req.toDynamoDBJson (Some (now ctx)));
           (":GSI2PK", Req.toDynamoDBJson (Some "FILETOPROCESS"));
           (":GSI2SK", Req.toDynamoDBJson (Some GSI2SK))])) |}.

(** [$util.isBoolean($v)] chooses between [$v] and [false]. *)
Definition boolean_or_false (v : json) : bool :=
  match v with JBool b => b | _ => false end.

Definition MutationSavePortfolioCollectionResolver_request (ctx : Context) : Rendered :=
  let portfolioUserId := claim ctx "netid" in
  let portfolioCollectionId :=
    Util.defaultIfNullOrBlank (arg ctx "portfolioCollectionId") (Some (autoId ctx)) in
  let portfolioCollectionId := Util.defaultIfNullOrBlank portfolioCollectionId (Some "") in
  let portfolioCollectionId := Util.toUpper' portfolioCollectionId in
  let portfolioCollectionId := Util.toReplace' portfolioCollectionId " " "" in
  let privacy := Util.defaultIfNullOrBlank (arg ctx "privacy") (Some "private") in
  let featuredCollection := boolean_or_false (Json.field (args ctx) "featuredCollection") in
  let highlightedCollection := boolean_or_false (Json.field (args ctx) "highlightedCollection") in
  let '(featuredCollection, highlightedCollection) :=
    if negb (Json2.eqS privacy (Some "public")) then (false, false)
    else (featuredCollection, highlightedCollection) in
  let layout := Util.defaultIfNullOrBlank (arg ctx "layout") (Some "default") in
  let pk := "PORTFOLIO" in
  let sk := Util.toUpper ("USER#" ++ Util.ref "$portfolioUserId" portfolioUserId
                            ++ "#" ++ Util.ref "$portfolioCollectionId" portfolioCollectionId) in
  let expValues : list (string * AttributeValue) := [] in
  let expValues := VMap.put ":portfolioCollectionId" (Req.toDynamoDBJson portfolioCollectionId) expValues in
  let expValues := VMap.put ":portfolioUserId" (Req.toDynamoDBJson portfolioUserId) expValues in
  let expValues := VMap.put ":rowType" (AttrS "PortfolioCollection") expValues in
  let expValues := VMap.put ":dateAddedToDynamo" (AttrS (now ctx)) expValues in
  let expValues := VMap.put ":dateModifiedInDynamo" (AttrS (now ctx)) expValues in
  let expValues := VMap.put ":description" (Json.toDynamoDB (Json.field (args ctx) "description")) expValues in
  let expValues := VMap.put ":imageUri" (Json.toDynamoDB (Json.field (args ctx) "imageUri")) expValues in
  let expValues := VMap.put ":featuredCollection" (AttrBOOL featuredCollection) expValues in
  let expValues := VMap.put ":highlightedCollection" (AttrBOOL highlightedCollection) expValues in
  let expValues := VMap.put ":layout" (Req.toDynamoDBJson layout) expValues in
  let expValues := VMap.put ":privacy" (Req.toDynamoDBJson privacy) expValues in
  let expValues :=
    if Json2.eqS privacy (Some "private") then expValues
    else
      let GSI1PK := "PORTFOLIOCOLLECTION" in
      let GSI1SK := "PORTFOLIOCOLLECTION#"
                      ++ Util.ref "$util.str.toUpper($portfolioCollectionId)"
                           (Util.toUpper' portfolioCollectionId) in
      let GSI2PK := "PORTFOLIOCOLLECTION" in
      let GSI2SK := Util.toUpper (Util.ref "$privacy" privacy
                      ++ "#" ++ Util.ref "$portfolioCollectionId" portfolioCollectionId) in
      let expValues := VMap.put ":GSI1PK" (AttrS GSI1PK) expValues in
      let expValues := VMap.put ":GSI1SK" (AttrS GSI1SK) expValues in
      let expValues := VMap.put ":GSI2PK" (AttrS GSI2PK) expValues in
      VMap.put ":GSI2SK" (AttrS GSI2SK) expValues in
  {| out_stash := stash ctx;
     out_request := Some (Req.updateItem
       [("PK", Req.toDynamoDBJson (Some pk)); ("SK", Req.toDynamoDBJson (Some sk))]
       (Req.literal
          (if Json2.eqS privacy (Some "private")
           then "SET portfolioCollectionId = :portfolioCollectionId, portfolioUserId = :portfolioUserId, #TYPE = :rowType, dateAddedToDynamo = if_not_exists(dateAddedToDynamo, :dateAddedToDynamo), dateModifiedInDynamo = :dateModifiedInDynamo, description = :description, imageUri = :imageUri, featuredCollection = :featuredCollection, highlightedCollection = :highlightedCollection, layout = :layout, privacy = :privacy REMOVE GSI1PK, GSI1SK, GSI2PK, GSI2SK"
           else "SET portfolioCollectionId = :portfolioCollectionId, portfolioUserId = :portfolioUserId, #TYPE = :rowType, dateAddedToDynamo = if_not_exists(dateAddedToDynamo, :dateAddedToDynamo), dateModifiedInDynamo = :dateModifiedInDynamo, description = :description, imageUri = :imageUri, featuredCollection = :featuredCollection, highlightedCollection = :highlightedCollection, layout = :layout, privacy = :privacy, GSI1PK = :GSI1PK, GSI1SK = :GSI1SK, GSI2PK = :GSI2PK, GSI2SK = :GSI2SK")
          [("#TYPE", "TYPE")]
          expValues)) |}.

Definition MutationSavePortfolioItemResolver_request (ctx : Context) : Rendered :=
  let portfolioUserId := claim ctx "netid" in
  let portfolioCollectionId := arg ctx "portfolioCollectionId" in
  let portfolioCollectionId := Util.defaultIfNullOrBlank portfolioCollectionId (Some "") in
  let portfolioCollectionId := Util.toUpper' portfolioCollectionId in
  let portfolioCollectionId := Util.toReplace' portfolioCollectionId " " "" in
  let portfolioItemId :=
    Util.defaultIfNullOrBlank (arg ctx "portfolioItemId") (arg ctx "internalItemId") in
  let originalPortfolioItemId := portfolioItemId in
  let portfolioItemId :=
    vset portfolioItemId (Util.defaultIfNullOrBlank portfolioItemId (arg ctx "uri")) in
  let portfolioItemId :=
    vset portfolioItemId (Util.defaultIfNullOrBlank portfolioItemId (Some (autoId ctx))) in
  let itemType := Util.defaultIfNullOrBlank (arg ctx "itemType") (Some "internal") in
  let pk := "PORTFOLIO" in
  let sk := Util.toUpper ("USER#" ++ Util.ref "$portfolioUserId" portfolioUserId
                            ++ "#" ++ Util.ref "$portfolioCollectionId" portfolioCollectionId
                            ++ "#" ++ Util.ref "$portfolioItemId" portfolioItemId) in
  let expValues : list (string * AttributeValue) := [] in
  let expValues := VMap.put ":portfolioItemId" (Req.toDynamoDBJson originalPortfolioItemId) expValues in
  let expValues := VMap.put ":portfolioCollectionId" (Req.toDynamoDBJson portfolioCollectionId) expValues in
  let expValues := VMap.put ":portfolioUserId" (Req.toDynamoDBJson portfolioUserId) expValues in
  let expValues := VMap.put ":rowType" (AttrS "PortfolioItem") expValues in
  let expValues := VMap.put ":annotation" (Json.toDynamoDB (Json.field (args ctx) "annotation")) expValues in
  let expValues := VMap.put ":dateAddedToDynamo" (AttrS (now ctx)) expValues in
  let expValues := VMap.put ":dateModifiedInDynamo" (AttrS (now ctx)) expValues in
  let expValues := VMap.put ":description" (Json.toDynamoDB (Json.field (args ctx) "description")) expValues in
  let expValues := VMap.put ":imageUri" (Json.toDynamoDB (Json.field (args ctx) "imageUri")) expValues in
  let expValues := VMap.put ":internalItemId" (Json.toDynamoDB (Json.field (args ctx) "internalItemId")) expValues in
  let expValues := VMap.put ":sequence" (Json.toDynamoDB (Json.field (args ctx) "sequence")) expValues in
  let expValues := VMap.put ":title" (Json.toDynamoDB (Json.field (args ctx) "title")) expValues in
  let expValues := VMap.put ":uri" (Json.toDynamoDB (Json.field (args ctx) "uri")) expValues in
  let external :=
    negb (truthy (Json.of_str (Util.defaultIfNullOrBlank (arg ctx "internalItemId") (Some "")))) in
  let '(expValues, itemType) :=
    if external then (expValues, itemType)
    else
      let GSI1PK := "PORTFOLIOITEM" in
      let GSI1SK := Util.toUpper ("INTERNALITEM#" ++ Util.ref "$portfolioItemId" portfolioItemId) in
      let expValues := VMap.put ":GSI1PK" (AttrS GSI1PK) expValues in
      let expValues := VMap.put ":GSI1SK" (AttrS GSI1SK) expValues in
      (expValues, Some "internal") in
  let expValues := VMap.put ":itemType" (Req.toDynamoDBJson itemType) expValues in
  {| out_stash := stash ctx;
     out_request := Some (Req.updateItem
       [("PK", Req.toDynamoDBJson (Some pk)); ("SK", Req.toDynamoDBJson (Some sk))]
       (Req.literal
          (if external
           then "SET portfolioItemId = :portfolioItemId, portfolioCollectionId = :portfolioCollectionId, portfolioUserId = :portfolioUserId, #TYPE = :rowType, annotation = :annotation, dateAddedToDynamo = if_not_exists(dateAddedToDynamo, :dateAddedToDynamo), dateModifiedInDynamo = :dateModifiedInDynamo, description = :description, imageUri = :imageUri, internalItemId = :internalItemId, itemType = :itemType, #sequence = :sequence, title = :title, uri = :uri REMOVE GSI1PK, GSI1SK"
           else "SET portfolioItemId = :portfolioItemId, portfolioCollectionId = :portfolioCollectionId, portfolioUserId = :portfolioUserId, #TYPE = :rowType, annotation = :annotation, dateAddedToDynamo = if_not_exists(dateAddedToDynamo, :dateAddedToDynamo), dateModifiedInDynamo = :dateModifiedInDynamo, description = :description, imageUri = :imageUri, internalItemId = :internalItemId, itemType = :itemType, #sequence = :sequence, title = :title, uri = :uri, GSI1PK = :GSI1PK, GSI1SK = :GSI1SK")
          [("#TYPE", "TYPE"); ("#sequence", "sequence")]
          expValues)) |}.

Definition MutationSavePortfolioUserResolver_request (ctx : Context) : Rendered :=
  let portfolioUserId := claim ctx "netid" in
  let fullName := Util.defaultIfNullOrBlank (arg ctx "fullName") (claim ctx "name") in
  let email := Util.defaultIfNullOrBlank (arg ctx "email") (claim ctx "email") in
  let primaryAffiliation := claim ctx "primary_affiliation" in
  let department := claim ctx "department" in
  let st := stash_put "identity" (identity ctx) (stash ctx) in
  let st := stash_put "portfolioUserId" (Json.of_str portfolioUserId) st in
  let st := stash_put "fullName" (Json.of_str fullName) st in
  let st := stash_put "email" (Json.of_str email) st in
  let st := stash_put "primaryAffiliation" (Json.of_str primaryAffiliation) st in
  let st := stash_put "department" (Json.of_str department) st in
  let pk := "PORTFOLIO" in
  let sk := "USER#" ++ Util.ref "$util.str.toUpper($portfolioUserId)" (Util.toUpper' portfolioUserId) in
  {| out_stash := st;
     out_request := Some (Req.updateItem
       [("PK", Req.toDynamoDBJson (Some pk)); ("SK", Req.toDynamoDBJson (Some sk))]
       (Req.literal
          "SET portfolioUserId = :portfolioUserId, bio = :bio, #TYPE = :rowType, dateAddedToDynamo = if_not_exists(dateAddedToDynamo, :dateAddedToDynamo), dateModifiedInDynamo = :dateModifiedInDynamo, department = :department, email = :email, fullName = :fullName, primaryAffiliation = :primaryAffiliation"
          [("#TYPE", "TYPE")]
          [(":portfolioUserId", Req.toDynamoDBJson portfolioUserId);
           (":bio", Json.toDynamoDB (Json.field (args ctx) "bio"));
           (":rowType", Req.toDynamoDBJson (Some "PortfolioUser"));
           (":dateAddedToDynamo", Req.toDynamoDBJson (Some (now ctx)));
           (":dateModifiedInDynamo", Req.toDynamoDBJson (Some (now ctx)));
           (":department", Req.toDynamoDBJson department);
           (":email", Req.toDynamoDBJson email);
           (":fullName", Req.toDynamoDBJson fullName);
           (":primaryAffiliation", Req.toDynamoDBJson primaryAffiliation)])) |}.

Definition PortfolioUserPortfolioCollectionsResolver_request (ctx : Context) : Rendered :=
  let portfolioUserId := src ctx "portfolioUserId" in
  let portfolioUserId := Util.defaultIfNullOrBlank portfolioUserId (Some "") in
  let portfolioUserId := Util.toUpper' portfolioUserId in
  let portfolioUserId := Util.toReplace' portfolioUserId " " "" in
  {| out_stash := stash ctx;
     out_request := Some (Req.queryTable
       [CEq "PK" (Req.toDynamoDBJson (Some "PORTFOLIO"));
        CBeginsWith "SK" (Req.toDynamoDBJson
          (Some ("USER#" ++ Util.ref "$portfolioUserId" portfolioUserId ++ "#")))]) |}.

Definition PortfolioCollectionPortfolioItemsResolver_request (ctx : Context) : Rendered :=
  let portfolioUserId := src ctx "portfolioUserId" in
  let portfolioUserId := Util.defaultIfNullOrBlank portfolioUserId (Some "") in
  let portfolioUserId := Util.toUpper' portfolioUserId in
  let portfolioUserId := Util.toReplace' portfolioUserId " " "" in
  let portfolioCollectionId := src ctx "portfolioCollectionId" in
  let portfolioCollectionId := Util.defaultIfNullOrBlank portfolioCollectionId (Some "") in
  let portfolioCollectionId := Util.toUpper' portfolioCollectionId in
  let portfolioCollectionId := Util.toReplace' portfolioCollectionId " " "" in
  {| out_stash := stash ctx;
     out_request := Some (Req.queryTable
       [CEq "PK" (Req.toDynamoDBJson (Some "PORTFOLIO"));
        CBeginsWith "SK" (Req.toDynamoDBJson
          (Some ("USER#" ++ Util.ref "$portfolioUserId" portfolioUserId
                   ++ "#" ++ Util.ref "$portfolioCollectionId" portfolioCollectionId ++ "#")))]) |}.

Definition QueryGetExposedPortfolioCollectionResolver_request (ctx : Context) : Rendered :=
  let portfolioCollectionId := arg ctx "portfolioCollectionId" in
  let portfolioCollectionId := Util.defaultIfNullOrBlank portfolioCollectionId (Some "") in
  let portfolioCollectionId := Util.toUpper' portfolioCollectionId in
  let portfolioCollectionId := Util.toReplace' portfolioCollectionId " " "" in
  {| out_stash := stash ctx;
     out_request := Some (Req.queryIndex "GSI1"
       [CEq "GSI1PK" (Req.toDynamoDBJson (Some "PORTFOLIOCOLLECTION"));
        CBeginsWith "GSI1SK" (Req.toDynamoDBJson
          (Some (Util.toUpper ("PORTFOLIOCOLLECTION#"
                   ++ Util.ref "$portfolioCollectionId" portfolioCollectionId))))]) |}.

Definition QueryGetExposedPortfolioCollectionResolver_response (ctx : Context) : Response :=
  let items := Json2.as_list (Json.field (Json2.entries (Json2.as_map (result ctx))) "items") in
  let res := match items with item :: _ => item | [] => JMap [] end in
  Returned res (stash ctx).

Definition QueryGetFileResolver_request (ctx : Context) : Rendered :=
  let id := arg ctx "id" in
  let id := Util.defaultIfNullOrBlank id (Some "") in
  let id := Util.toUpper' id in
  let id := Util.toReplace' id " " "" in
  let fullId := "FILE#" ++ Util.ref "$id" id in
  {| out_stash := stash ctx;
     out_request := Some (Req.getItem
       [("PK", Req.toDynamoDBJson (Some "FILE")); ("SK", Req.toDynamoDBJson (Some fullId))]) |}.

Definition QueryGetFileGroupResolver_request (ctx : Context) : Rendered :=
  let id := arg ctx "id" in
  let id := Util.defaultIfNullOrBlank id (Some "") in
  let id := Util.toUpper' id in
  let id := Util.toReplace' id " " "" in
  let fullId := "FILEGROUP#" ++ Util.ref "$id" id in
  {| out_stash := stash ctx;
     out_request := Some (Req.getItem
       [("PK", Req.toDynamoDBJson (Some "FILEGROUP")); ("SK", Req.toDynamoDBJson (Some fullId))]) |}.

Definition QueryGetFileToProcessRecordResolver_request (ctx : Context) : Rendered :=
  let id := arg ctx "filePath" in
  let id := Util.defaultIfNullOrBlank id (Some "") in
  let id := Util.toUpper' id in
  let id := Util.toReplace' id " " "" in
  let fullId := "FILEPATH#" ++ Util.ref "$id" id in
  {| out_stash := stash ctx;
     out_request := Some (Req.getItem
       [("PK", Req.toDynamoDBJson (Some "FILETOPROCESS"));
        ("SK", Req.toDynamoDBJson (Some fullId))]) |}.

Definition QueryGetItemResolver_request (ctx : Context) : Rendered :=
  let st := stash_put "itemId" (Json.field (args ctx) "id") (stash ctx) in
  let st :=
    stash_put "websiteId"
      (Json.of_str (Util.defaultIfNullOrBlank (arg ctx "websiteId") (Some ""))) st in
  {| out_stash := st; out_request := None |}.

Definition QueryGetPortfolioCollectionResolver_request (ctx : Context) : Rendered :=
  let portfolioUserId := claim ctx "netid" in
  let portfolioCollectionId := arg ctx "portfolioCollectionId" in
  let portfolioCollectionId := Util.defaultIfNullOrBlank portfolioCollectionId (Some "") in
  let portfolioCollectionId := Util.toUpper' portfolioCollectionId in
  let portfolioCollectionId := Util.toReplace' portfolioCollectionId " " "" in
  {| out_stash := stash ctx;
     out_request := Some (Req.getItem
       [("PK", Req.toDynamoDBJson (Some "PORTFOLIO"));
        ("SK", Req.toDynamoDBJson
           (Some (Util.toUpper ("USER#" ++ Util.ref "$portfolioUserId" portfolioUserId
                    ++ "#" ++ Util.ref "$portfolioCollectionId" portfolioCollectionId))))]) |}.

Definition QueryGetPortfolioItemResolver_request (ctx : Context) : Rendered :=
  let portfolioUserId := claim ctx "netid" in
  let portfolioCollectionId := arg ctx "portfolioCollectionId" in
  let portfolioCollectionId := Util.defaultIfNullOrBlank portfolioCollectionId (Some "") in
  let portfolioCollectionId := Util.toUpper' portfolioCollectionId in
  let portfolioCollectionId := Util.toReplace' portfolioCollectionId " " "" in
  let portfolioItemId := arg ctx "portfolioItemId" in
  let portfolioItemId := Util.defaultIfNullOrBlank portfolioItemId (Some "") in
  let portfolioItemId := Util.toUpper' portfolioItemId in
  let portfolioItemId := Util.toReplace' portfolioItemId " " "" in
  {| out_stash := stash ctx;
     out_request := Some (Req.getItem
       [("PK", Req.toDynamoDBJson (Some "PORTFOLIO"));
        ("SK", Req.toDynamoDBJson
           (Some (Util.toUpper ("USER#" ++ Util.ref "$portfolioUserId" portfolioUserId
                    ++ "#" ++ Util.ref "$portfolioCollectionId" portfolioCollectionId
                    ++ "#" ++ Util.ref "$portfolioItemId" portfolioItemId))))]) |}.

Definition QueryGetPortfolioUserResolver_request (ctx : Context) : Rendered :=
  let portfolioUserId := claim ctx "netid" in
  {| out_stash := stash ctx;
     out_request := Some (Req.getItem
       [("PK", Req.toDynamoDBJson (Some "PORTFOLIO"));
        ("SK", Req.toDynamoDBJson
           (Some (Util.toUpper ("USER#" ++ Util.ref "$portfolioUserId" portfolioUserId))))]) |}.

Definition QueryGetWebsiteResolver_request (ctx : Context) : Rendered :=
  let id := arg ctx "id" in
  let id := Util.defaultIfNullOrBlank id (Some "") in
  let id := Util.toUpper' id in
  let id := Util.toReplace' id " " "" in
  let fullId := "WEBSITE#" ++ Util.ref "$id" id in
  {| out_stash := stash ctx;
     out_request := Some (Req.getItem
       [("PK", Req.toDynamoDBJson (Some "WEBSITE")); ("SK", Req.toDynamoDBJson (Some fullId))]) |}.

Definition QueryListFileGroupsResolver_request (ctx : Context) : Rendered :=
  {| out_stash := stash ctx;
     out_request := Some (Req.queryTable [CEq "PK" (Req.toDynamoDBJson (Some "FILEGROUP"))]) |}.

Definition QueryListFileGroupsByStorageSystemResolver_request (ctx : Context) : Rendered :=
  let storageSystem := arg ctx "storageSystem" in
  let storageSystem := Util.defaultIfNullOrBlank storageSystem (Some "") in
  let storageSystem := Util.toUpper' storageSystem in
  let storageSystem := Util.toReplace' storageSystem " " "" in
  let typeOfData := arg ctx "typeOfData" in
  let typeOfData := Util.defaultIfNullOrBlank typeOfData (Some "") in
  let typeOfData := Util.toUpper' typeOfData in
  let typeOfData := Util.toReplace' typeOfData " " "" in
  let fullId := "FILESYSTEM#" ++ Util.ref "$storageSystem" storageSystem
                  ++ "#" ++ Util.ref "$typeOfData" typeOfData in
  let fullId := Util.toReplace fullId " " "" in
  {| out_stash := stash ctx;
     out_request := Some (Req.queryIndex "GSI2" [CEq "GSI2PK" (Req.toDynamoDBJson (Some fullId))]) |}.

Definition QueryListFilesToProcessResolver_request (ctx : Context) : Rendered :=
  let dateLastProcessedBefore := arg ctx "dateLastProcessedBefore" in
  let dateLastProcessedBefore := Util.defaultIfNullOrBlank dateLastProcessedBefore (Some "") in
  let dateLastProcessedBefore := Util.toUpper' dateLastProcessedBefore in
  let dateLastProcessedBefore := Util.toReplace' dateLastProcessedBefore " " "" in
  let pk := "FILETOPROCESS" in
  let sk := "DATELASTPROCESSED#" ++ Util.ref "$dateLastProcessedBefore" dateLastProcessedBefore in
  {| out_stash := stash ctx;
     out_request := Some (Req.queryIndex "GSI2"
       [CEq "GSI2PK" (Req.toDynamoDBJson (Some pk));
        CLe "GSI2SK" (Req.toDynamoDBJson (Some sk))]) |}.

Definition QueryListFileGroupsForS3Resolver_request (ctx : Context) : Rendered :=
  let fullId := "FILESYSTEM#S3#RBSCWEBSITEBUCKET" in
  {| out_stash := stash ctx;
     out_request := Some (Req.queryIndex "GSI2" [CEq "GSI2PK" (Req.toDynamoDBJson (Some fullId))]) |}.

Definition QueryListItemsBySourceSystemResolver_request (ctx : Context) : Rendered :=
  let id := arg ctx "id" in
  let id := Util.defaultIfNullOrBlank id (Some "") in
  let id := Util.toUpper' id in
  let id := Util.toReplace' id " " "" in
  let fullId := "SOURCESYSTEM#" ++ Util.ref "$id" id in
  {| out_stash := stash ctx;
     out_request := Some (Req.queryIndex "GSI2"
       [CEq "GSI2PK" (Req.toDynamoDBJson (Some fullId));
        CBeginsWith "GSI2SK" (Req.toDynamoDBJson (Some "SORT#"))]) |}.

Definition QueryListItemsByWebsiteResolver_request (ctx : Context) : Rendered :=
  let id := arg ctx "id" in
  let id := Util.defaultIfNullOrBlank id (Some "") in
  let id := Util.toUpper' id in
  let id := Util.toReplace' id " " "" in
  let fullId := "WEBSITE#" ++ Util.ref "$id" id in
  {| out_stash := stash ctx;
     out_request := Some (Req.queryTable [CEq "PK" (Req.toDynamoDBJson (Some fullId))]) |}.

(** The three [QueryListPublic...PortfolioCollectionsResolver] templates
    differ in their filter only. *)
Definition QueryListPublicPortfolioCollectionsResolver_request (ctx : Context) : Rendered :=
  {| out_stash := stash ctx;
     out_request := Some (Req.queryIndex "GSI2"
       [CEq "GSI2PK" (Req.toDynamoDBJson (Some "PORTFOLIOCOLLECTION"));
        CBeginsWith "GSI2SK" (Req.toDynamoDBJson (Some (Util.toUpper "PUBLIC#")))]) |}.

Definition QueryListPublicHighlightedPortfolioCollectionsResolver_request :=
  QueryListPublicPortfolioCollectionsResolver_request.

Definition QueryListPublicFeaturedPortfolioCollectionsResolver_request :=
  QueryListPublicPortfolioCollectionsResolver_request.

Definition QueryListSupplementalDataRecordsResolver_request (ctx : Context) : Rendered :=
  let id := arg ctx "id" in
  let id := Util.defaultIfNullOrBlank id (Some "") in
  let websiteId := arg ctx "websiteId" in
  let websiteId := Util.defaultIfNullOrBlank websiteId (Some "") in
  let st := stash_put "id" (Json.of_str id) (stash ctx) in
  let st := stash_put "websiteId" (Json.of_str websiteId) st in
  let pk := "SUPPLEMENTALDATA" in
  {| out_stash := st;
     out_request := Some (Req.queryIndex "GSI1" [CEq "GSI1PK" (Req.toDynamoDBJson (Some pk))]) |}.

(** The body of [#foreach($item in $context.result.items)] of the
    supplemental data listing: whether the record is kept. *)
Definition supplemental_match (id websiteId : option string) (item : json) : bool :=
  let rec := Json2.entries (Json2.as_map item) in
  let itemId := Util.toUpper' (Json.fieldS rec "id") in
  let itemWebsiteId := Util.toUpper' (Json.fieldS rec "websiteId") in
  let no s := Json2.eqS s (Some "") in
  if no id && no websiteId then true
  else if negb (no id) && Json2.eqS itemId id && negb (no websiteId)
          && Json2.eqS itemWebsiteId websiteId then true
  else if negb (no id) && Json2.eqS itemId id && no websiteId then true
  else if negb (no websiteId) && Json2.eqS itemWebsiteId websiteId && no id then true
  else false.

Definition QueryListSupplementalDataRecordsResolver_response (ctx : Context) : Response :=
  match error ctx with
  | Some e => FieldError (message e) (errorType e)
  | None =>
      let id := Util.toUpper' (stashed ctx "id") in
      let websiteId := Util.toUpper' (stashed ctx "websiteId") in
      let r := Json2.entries (Json2.as_map (result ctx)) in
      let results := filter (supplemental_match id websiteId) (Json2.as_list (Json.field r "items")) in
      Returned (JMap [("items", JList results); ("nextToken", Json.field r "nextToken")])
        (stash ctx)
  end.

Definition QueryListWebsitesResolver_request (ctx : Context) : Rendered :=
  {| out_stash := stash ctx;
     out_request := Some (Req.queryTable [CEq "PK" (Req.toDynamoDBJson (Some "WEBSITE"))]) |}.

Definition WebsiteWebsiteItemsResolver_request (ctx : Context) : Rendered :=
  let id := src ctx "id" in
  let id := Util.defaultIfNullOrBlank id (Some "") in
  let id := Util.toUpper' id in
  let id := Util.toReplace' id " " "" in
  let fullId := "WEBSITE#" ++ Util.ref "$id" id in
  {| out_stash := stash ctx;
     out_request := Some (Req.queryTable [CEq "PK" (Req.toDynamoDBJson (Some fullId))]) |}.

Definition WebsiteItemItemMetadataResolver_request (ctx : Context) : Rendered :=
  let st := stash_put "itemId" (Json.field (source ctx) "itemId") (stash ctx) in
  let st := stash_put "websiteId" (Json.field (source ctx) "websiteId") st in
  {| out_stash := st; out_request := None |}.

(** The responses that render the items and the next token: with
    [$util.defaultIfNullOrBlank] around the token, or the token as it is. *)
Definition page_blank_to_null (ctx : Context) : Response := Returned (page true ctx) (stash ctx).
Definition page_as_is (ctx : Context) : Response := Returned (page false ctx) (stash ctx).

(** ** Templates of the first revision

    The first revision of the stack has the templates above up to their
    pagination limits, save for the ones below: it has no portfolio, file
    and harvest resolvers, its [getMergedItemRecordFunction] response does
    not stash the merged record, and it still carries the two update
    functions that the later [save...ForWebsite] mutations replaced. *)

Definition Rev1_getMergedItemRecordFunction_response (ctx : Context) : Response :=
  match error ctx with
  | Some e => FieldError (message e) (errorType e)
  | None => Returned (JMap (merged_results ctx)) (stash ctx)
  end.

Definition Rev1_updateSupplementalDataRecordFunction_request (ctx : Context) : Rendered :=
  let args := Json2.as_map (Json.field (stash ctx) "supplementalDataArgs") in
  let id := Json.str (Json2.mfield args "itemId") in
  let websiteId := Json.str (Json2.mfield args "websiteId") in
  let id := Util.defaultIfNullOrBlank id (Some "") in
  let idNotUpper := id in
  let id := Util.toUpper' id in
  let id := Util.toReplace' id " " "" in
  let websiteId := Util.defaultIfNullOrBlank websiteId (Some "All") in
  let websiteIdNotUpper := websiteId in
  let websiteId := Util.toUpper' websiteId in
  let websiteId := Util.toReplace' websiteId " " "" in
  let pk := "ITEM#" ++ Util.ref "$id" id in
  let sk := "SUPPLEMENTALDATA#" ++ Util.ref "$websiteId" websiteId in
  let args := Json2.mput "TYPE" (JStr "SupplementalData") args in
  let args := Json2.mput "dateModifiedInDynamo" (JStr (now ctx)) args in
  let args := Json2.mput "GSI1PK" (JStr "SUPPLEMENTALDATA") args in
  let args := Json2.mput "GSI1SK" (JStr ("ITEM#" ++ Util.ref "$id" id)) args in
  let args := Json2.mput "id" (Json.of_str idNotUpper) args in
  let args := Json2.mput "title" (Json.of_str idNotUpper) args in
  {| out_stash :=
       match args with
       | Some a => stash_put "supplementalDataArgs" (JMap a) (stash ctx)
       | None => stash ctx
       end;
     out_request := Some (Req.updateItem
       [("PK", Req.toDynamoDBJson (Some pk)); ("SK", Req.toDynamoDBJson (Some sk))]
       (updateSupplementalDataRecordFunction_update (now ctx) args)) |}.

Definition updateItemFunction_request (ctx : Context) : Rendered :=
  let id := stashed ctx "itemId" in
  let id := Util.defaultIfNullOrBlank id (Some "") in
  let id := Util.toUpper' id in
  let id := Util.toReplace' id " " "" in
  let pk := "ITEM#" ++ Util.ref "$id" id in
  let sk := "ITEM#" ++ Util.ref "$id" id in
  let args := Json2.as_map (Json.field (stash ctx) "itemArgs") in
  let args := Json2.mput "TYPE" (JStr "Item") args in
  let args := Json2.mput "dateModifiedInDynamo" (JStr (now ctx)) args in
  {| out_stash :=
       match args with
       | Some a => stash_put "itemArgs" (JMap a) (stash ctx)
       | None => stash ctx
       end;
     out_request := Some (Req.updateItem
       [("PK", Req.toDynamoDBJson (Some pk)); ("SK", Req.toDynamoDBJson (Some sk))]
       (updateItemFunction_update args)) |}.

Definition updateSupplementalDataFunction_request (ctx : Context) : Rendered :=
  let id := stashed ctx "itemId" in
  let id := Util.defaultIfNullOrBlank id (Some "") in
  let id := Util.toUpper' id in
  let id := Util.toReplace' id " " "" in
  let pk := "ITEM#" ++ Util.ref "$id" id in
  let sk := "SUPPLEMENTALDATA#" ++ Util.ref "$id" id in
  let args := Json2.as_map (Json.field (stash ctx) "supplementalDataArgs") in
  let args := Json2.mput "TYPE" (JStr "SupplementalData") args in
  let args := Json2.mput "dateModifiedInDynamo" (JStr (now ctx)) args in
  {| out_stash :=
       match args with
       | Some a => stash_put "supplementalDataArgs" (JMap a) (stash ctx)
       | None => stash ctx
       end;
     out_request := Some (Req.updateItem
       [("PK", Req.toDynamoDBJson (Some pk)); ("SK", Req.toDynamoDBJson (Some sk))]
       (updateSupplementalDataFunction_update args)) |}.

(** [$ctx.args.input]. *)
Definition input (ctx : Context) : Obj :=
  Json2.entries (Json2.as_map (Json.field (args ctx) "input")).

Definition MutationAddItemMetadataToWebsiteResolver_request (ctx : Context) : Rendered :=
  let websiteId := Json.fieldS (input ctx) "websiteId" in
  let websiteId := Util.defaultIfNullOrBlank websiteId (Some "") in
  let websiteId := Util.toUpper' websiteId in
  let websiteId := Util.toReplace' websiteId " " "" in
  let itemMetadataId := Json.fieldS (input ctx) "itemMetadataId" in
  let itemMetadataId := Util.defaultIfNullOrBlank itemMetadataId (Some "") in
  let itemMetadataId := Util.toUpper' itemMetadataId in
  let itemMetadataId := Util.toReplace' itemMetadataId " " "" in
  let pk := "WEBSITE#" ++ Util.ref "$websiteId" websiteId in
  let sk := "ITEM#" ++ Util.ref "$itemMetadataId" itemMetadataId in
  let GSI1PK := pk in
  let GSI1SK := "ADDED#" ++ now ctx in
  let st := stash_put "itemId" (Json.field (input ctx) "itemMetadataId") (stash ctx) in
  let st := stash_put "websiteId" (Json.field (input ctx) "websiteId") st in
  {| out_stash := st;
     out_request := Some (Req.updateItem
       [("PK", Req.toDynamoDBJson (Some pk)); ("SK", Req.toDynamoDBJson (Some sk))]
       (Req.literal
          "SET itemMetadataId = :itemMetadataId, websiteId = :websiteId, #TYPE = :rowType, dateModifiedInDynamo = :dateModifiedInDynamo, GSI1PK = :GSI1PK, GSI1SK = :GSI1SK, id = :id, title = :title"
          [("#TYPE", "TYPE")]
          [(":itemMetadataId", Json.toDynamoDB (Json.field (input ctx) "itemMetadataId"));
           (":websiteId", Json.toDynamoDB (Json.field (input ctx) "websiteId"));
           (":rowType", Req.toDynamoDBJson (Some "WebSiteItem"));
           (":dateModifiedInDynamo", Req.toDynamoDBJson (Some (now ctx)));
           (":GSI1PK", Req.toDynamoDBJson (Some GSI1PK));
           (":GSI1SK", Req.toDynamoDBJson (Some GSI1SK));
           (":id", Json.toDynamoDB (Json.field (input ctx) "itemMetadataId"));
           (":title", Json.toDynamoDB (Json.field (input ctx) "itemMetadataId"))])) |}.

Definition Rev1_MutationAddItemToWebsiteResolver_request (ctx : Context) : Rendered :=
  let websiteId := arg ctx "websiteId" in
  let websiteId := Util.defaultIfNullOrBlank websiteId (Some "") in
  let websiteId := Util.toUpper' websiteId in
  let websiteId := Util.toReplace' websiteId " " "" in
  let itemId := arg ctx "itemId" in
  let itemId := Util.defaultIfNullOrBlank itemId (Some "") in
  let itemId := Util.toUpper' itemId in
  let itemId := Util.toReplace' itemId " " "" in
  let pk := "WEBSITE#" ++ Util.ref "$websiteId" websiteId in
  let sk := "ITEM#" ++ Util.ref "$itemId" itemId in
  let GSI1PK := pk in
  let GSI1SK := "ADDED#" ++ now ctx in
  let st := stash_put "itemId" (Json.field (args ctx) "itemId") (stash ctx) in
  let st := stash_put "websiteId" (Json.field (args ctx) "websiteId") st in
  {| out_stash := st;
     out_request := Some (Req.updateItem
       [("PK", Req.toDynamoDBJson (Some pk)); ("SK", Req.toDynamoDBJson (Some sk))]
       (Req.literal
          "SET itemId = :itemId, websiteId = :websiteId, #TYPE = :rowType, dateModifiedInDynamo = :dateModifiedInDynamo, GSI1PK = :GSI1PK, GSI1SK = :GSI1SK, id = :id, title = :title"
          [("#TYPE", "TYPE")]
          [(":itemId", Json.toDynamoDB (Json.field (args ctx) "itemId"));
           (":websiteId", Json.toDynamoDB (Json.field (args ctx) "websiteId"));
           (":rowType", Req.toDynamoDBJson (Some "WebSiteItem"));
           (":dateModifiedInDynamo", Req.toDynamoDBJson (Some (now ctx)));
           (":GSI1PK", Req.toDynamoDBJson (Some GSI1PK));
           (":GSI1SK", Req.toDynamoDBJson (Some GSI1SK));
           (":id", Json.toDynamoDB (Json.field (args ctx) "itemId"));
           (":title", Json.toDynamoDB (Json.field (args ctx) "itemId"))])) |}.

Definition MutationReplaceCopyrightStatement_request (ctx : Context) : Rendered :=
  let supplementalDataArgs : Obj := [] in
  let itemArgs : Obj := [] in
  let generalCopyrightStatus := "Copyright" in
  let generalCopyrightStatus :=
    if negb (truthy (Json.field (input ctx) "generalInCopyright")) then "not in copyright"
    else generalCopyrightStatus in
  let supplementalDataArgs :=
    VMap.put "generalInCopyright" (Json.field (input ctx) "generalInCopyright") supplementalDataArgs in
  let supplementalDataArgs :=
    VMap.put "generalCopyrightStatement" (Json.field (input ctx) "generalCopyrightStatement")
      supplementalDataArgs in
  let supplementalDataArgs :=
    VMap.put "generalCopyrightStatus" (JStr generalCopyrightStatus) supplementalDataArgs in
  let itemArgs :=
    VMap.put "copyrightStatement" (Json.field (input ctx) "generalCopyrightStatement") itemArgs in
  let itemArgs := VMap.put "copyrightStatus" (JStr generalCopyrightStatus) itemArgs in
  let st := stash_put "itemId" (Json.field (input ctx) "id") (stash ctx) in
  let st := stash_put "supplementalDataArgs" (JMap supplementalDataArgs) st in
  let st := stash_put "itemArgs" (JMap itemArgs) st in
  {| out_stash := st; out_request := None |}.

Definition MutationReplaceDefaultImageResolver_request (ctx : Context) : Rendered :=
  let supplementalDataArgs : Obj := [] in
  let itemArgs : Obj := [] in
  let supplementalDataArgs :=
    VMap.put "generalDefaultFilePath" (Json.field (input ctx) "generalDefaultFilePath")
      supplementalDataArgs in
  let supplementalDataArgs :=
    VMap.put "generalObjectFileGroupId" (Json.field (input ctx) "generalObjectFileGroupId")
      supplementalDataArgs in
  let itemArgs :=
    VMap.put "defaultFilePath" (Json.field (input ctx) "generalDefaultFilePath") itemArgs in
  let itemArgs :=
    VMap.put "objectFileGroupId" (Json.field (input ctx) "generalObjectFileGroupId") itemArgs in
  let st := stash_put "itemId" (Json.field (input ctx) "id") (stash ctx) in
  let st := stash_put "supplementalDataArgs" (JMap supplementalDataArgs) st in
  let st := stash_put "itemArgs" (JMap itemArgs) st in
  {| out_stash := st; out_request := None |}.

Definition MutationReplacePartiallyDigitizedResolver_request (ctx : Context) : Rendered :=
  let supplementalDataArgs : Obj := [] in
  let itemArgs : Obj := [] in
  let supplementalDataArgs :=
    VMap.put "generalPartiallyDigitized" (Json.field (input ctx) "generalPartiallyDigitized")
      supplementalDataArgs in
  let itemArgs :=
    VMap.put "partiallyDigitized" (Json.field (input ctx) "generalPartiallyDigitized") itemArgs in
  let st := stash_put "itemId" (Json.field (input ctx) "id") (stash ctx) in
  let st := stash_put "supplementalDataArgs" (JMap supplementalDataArgs) st in
  let st := stash_put "itemArgs" (JMap itemArgs) st in
  {| out_stash := st; out_request := None |}.

Definition WebsiteItemsItemMetadataResolver_request (ctx : Context) : Rendered :=
  let st := stash_put "itemId" (Json.field (source ctx) "itemMetadataId") (stash ctx) in
  let st := stash_put "websiteId" (Json.field (source ctx) "websiteId") st in
  {| out_stash := st; out_request := None |}.

(** ** The resolvers and functions the stack declares *)

(** A function or resolver: its request and its response template. *)
Record Template := {
  t_name : string;
  t_request : Context -> Rendered;
  t_response : Context -> Response
}.

(** A resolver with the functions of its [pipelineConfig]; a unit
    resolver has none and sends its own request to the data source. *)
Record Resolver := {
  r_template : Template;
  r_functions : list Template
}.

Definition unit_resolver (n : string) (req : Context -> Rendered) (resp : Context -> Response)
  : Resolver :=
  {| r_template := {| t_name := n; t_request := req; t_response := resp |};
     r_functions := [] |}.

Definition pipeline_resolver (n : string) (req : Context -> Rendered) (fs : list Template)
  : Resolver :=
  {| r_template := {| t_name := n; t_request := req; t_response := dynamoDbResultItem |};
     r_functions := fs |}.

Definition getMergedItemRecordFunction : Template :=
  {| t_name := "getMergedItemRecordFunction";
     t_request := getMergedItemRecordFunction_request;
     t_response := getMergedItemRecordFunction_response |}.

Definition expandSubjectTermsFunction : Template :=
  {| t_name := "expandSubjectTermsFunction";
     t_request := expandSubjectTermsFunction_request;
     t_response := expandSubjectTermsFunction_response |}.

Definition findPortfolioContentForUserFunction : Template :=
  {| t_name := "findPortfolioContentForUserFunction";
     t_request := findPortfolioContentForUserFunction_request;
     t_response := findPortfolioContentForUserFunction_response |}.

Definition deletePortfolioContentForUserFunction : Template :=
  {| t_name := "deletePortfolioContentForUserFunction";
     t_request := deletePortfolioContentForUserFunction_request;
     t_response := deletePortfolioContentForUserFunction_response |}.

Definition updateSupplementalDataRecordFunction : Template :=
  {| t_name := "updateSupplementalDataRecordFunction";
     t_request := updateSupplementalDataRecordFunction_request;
     t_response := updateSupplementalDataRecordFunction_response |}.

Definition Rev1_getMergedItemRecordFunction : Template :=
  {| t_name := "getMergedItemRecordFunction";
     t_request := getMergedItemRecordFunction_request;
     t_response := Rev1_getMergedItemRecordFunction_response |}.

Definition Rev1_updateSupplementalDataRecordFunction : Template :=
  {| t_name := "updateSupplementalDataRecordFunction";
     t_request := Rev1_updateSupplementalDataRecordFunction_request;
     t_response := guarded_result |}.

Definition updateItemFunction : Template :=
  {| t_name := "updateItemFunction";
     t_request := updateItemFunction_request;
     t_response := guarded_result |}.

Definition updateSupplementalDataFunction : Template :=
  {| t_name := "updateSupplementalDataFunction";
     t_request := updateSupplementalDataFunction_request;
     t_response := guarded_result |}.

Definition rev2_functions : list Template :=
  [getMergedItemRecordFunction; expandSubjectTermsFunction;
   findPortfolioContentForUserFunction; deletePortfolioContentForUserFunction;
   updateSupplementalDataRecordFunction].

Definition rev1_functions : list Template :=
  [Rev1_getMergedItemRecordFunction; Rev1_updateSupplementalDataRecordFunction;
   updateItemFunction; updateSupplementalDataFunction].

Definition rev2_resolvers : list Resolver :=
  [pipeline_resolver "QueryShowItemByWebsite" QueryShowItemByWebsite_request
     [getMergedItemRecordFunction; expandSubjectTermsFunction];
   unit_resolver "FileFileGroupResolver" FileFileGroupResolver_request dynamoDbResultItem;
   unit_resolver "FileGroupFilesResolver" FileGroupFilesResolver_request page_blank_to_null;
   unit_resolver "ItemMetadataDefaultFileResolver" ItemMetadataDefaultFileResolver_request
     dynamoDbResultItem;
   pipeline_resolver "ItemMetadataParentResolver" ItemMetadataParentResolver_request
     [getMergedItemRecordFunction; expandSubjectTermsFunction];
   unit_resolver "ItemMetadataChildrenResolver" ItemMetadataChildrenResolver_request
     ItemMetadataChildrenResolver_response;
   unit_resolver "ItemMetadataFilesResolver" ItemMetadataFilesResolver_request page_blank_to_null;
   unit_resolver "MutationAddItemToWebsiteResolver" MutationAddItemToWebsiteResolver_request
     dynamoDbResultItem;
   unit_resolver "MutationAddItemToHarvestResolver" MutationAddItemToHarvestResolver_request
     dynamoDbResultItem;
   unit_resolver "MutationRemoveItemFromWebsiteResolver"
     MutationRemoveItemFromWebsiteResolver_request dynamoDbResultItem;
   unit_resolver "MutationRemoveDefaultImageForWebsiteResolver"
     MutationRemoveDefaultImageForWebsiteResolver_request dynamoDbResultItem;
   pipeline_resolver "MutationRemovePortfolioCollectionResolver"
     MutationRemovePortfolioCollectionResolver_request
     [findPortfolioContentForUserFunction; deletePortfolioContentForUserFunction];
   unit_resolver "MutationRemovePortfolioItemResolver"
     MutationRemovePortfolioItemResolver_request dynamoDbResultItem;
   pipeline_resolver "MutationRemovePortfolioUserResolver"
     MutationRemovePortfolioUserResolver_request
     [findPortfolioContentForUserFunction; deletePortfolioContentForUserFunction];
   pipeline_resolver "MutationSaveAdditionalNotesForWebsiteResolver"
     MutationSaveAdditionalNotesForWebsiteResolver_request [updateSupplementalDataRecordFunction];
   pipeline_resolver "MutationSaveCopyrightForWebsiteResolver"
     MutationSaveCopyrightForWebsiteResolver_request [updateSupplementalDataRecordFunction];
   pipeline_resolver "MutationSaveDefaultImageForWebsiteResolver"
     MutationSaveDefaultImageForWebsiteResolver_request [updateSupplementalDataRecordFunction];
   unit_resolver "MutationSaveFileLastProcessedDateResolver"
     MutationSaveFileLastProcessedDateResolver_request dynamoDbResultItem;
   pipeline_resolver "MutationSavePartiallyDigitizedForWebsiteResolver"
     MutationSavePartiallyDigitizedForWebsiteResolver_request [updateSupplementalDataRecordFunction];
   unit_resolver "MutationSavePortfolioCollectionResolver"
     MutationSavePortfolioCollectionResolver_request dynamoDbResultItem;
   unit_resolver "MutationSavePortfolioItemResolver"
     MutationSavePortfolioItemResolver_request dynamoDbResultItem;
   unit_resolver "MutationSavePortfolioUserResolver"
     MutationSavePortfolioUserResolver_request dynamoDbResultItem;
   unit_resolver "PortfolioUserPortfolioCollectionsResolver"
     PortfolioUserPortfolioCollectionsResolver_request page_blank_to_null;
   unit_resolver "PortfolioCollectionPortfolioItemsResolver"
     PortfolioCollectionPortfolioItemsResolver_request page_blank_to_null;
   unit_resolver "QueryGetExposedPortfolioCollectionResolver"
     QueryGetExposedPortfolioCollectionResolver_request
     QueryGetExposedPortfolioCollectionResolver_response;
   unit_resolver "QueryGetFileResolver" QueryGetFileResolver_request dynamoDbResultItem;
   unit_resolver "QueryGetFileGroupResolver" QueryGetFileGroupResolver_request dynamoDbResultItem;
   unit_resolver "QueryGetFileToProcessRecordResolver"
     QueryGetFileToProcessRecordResolver_request dynamoDbResultItem;
   pipeline_resolver "QueryGetItemResolver" QueryGetItemResolver_request
     [getMergedItemRecordFunction; expandSubjectTermsFunction];
   unit_resolver "QueryGetPortfolioCollectionResolver"
     QueryGetPortfolioCollectionResolver_request dynamoDbResultItem;
   unit_resolver "QueryGetPortfolioItemResolver" QueryGetPortfolioItemResolver_request
     dynamoDbResultItem;
   unit_resolver "QueryGetPortfolioUserResolver" QueryGetPortfolioUserResolver_request
     dynamoDbResultItem;
   unit_resolver "QueryGetWebsiteResolver" QueryGetWebsiteResolver_request dynamoDbResultItem;
   unit_resolver "QueryListFileGroupsResolver" QueryListFileGroupsResolver_request
     page_blank_to_null;
   unit_resolver "QueryListFileGroupsByStorageSystemResolver"
     QueryListFileGroupsByStorageSystemResolver_request page_as_is;
   unit_resolver "QueryListFilesToProcessResolver" QueryListFilesToProcessResolver_request
     page_as_is;
   unit_resolver "QueryListFileGroupsForS3Resolver" QueryListFileGroupsForS3Resolver_request
     page_as_is;
   unit_resolver "QueryListItemsBySourceSystemResolver"
     QueryListItemsBySourceSystemResolver_request page_as_is;
   unit_resolver "QueryListItemsByWebsiteResolver" QueryListItemsByWebsiteResolver_request
     page_as_is;
   unit_resolver "QueryListPublicPortfolioCollectionsResolver"
     QueryListPublicPortfolioCollectionsResolver_request page_as_is;
   unit_resolver "QueryListPublicHighlightedPortfolioCollectionsResolver"
     QueryListPublicHighlightedPortfolioCollectionsResolver_request page_as_is;
   unit_resolver "QueryListPublicFeaturedPortfolioCollectionsResolver"
     QueryListPublicFeaturedPortfolioCollectionsResolver_request page_as_is;
   unit_resolver "QueryListSupplementalDataRecordsResolver"
     QueryListSupplementalDataRecordsResolver_request
     QueryListSupplementalDataRecordsResolver_response;
   unit_resolver "QueryListWebsitesResolver" QueryListWebsitesResolver_request page_as_is;
   unit_resolver "WebsiteWebsiteItemsResolver" WebsiteWebsiteItemsResolver_request page_as_is;
   pipeline_resolver "WebsiteItemItemMetadataResolver" WebsiteItemItemMetadataResolver_request
     [getMergedItemRecordFunction; expandSubjectTermsFunction]].

Definition rev1_resolvers : list Resolver :=
  [pipeline_resolver "QueryShowItemByWebsite" QueryShowItemByWebsite_request
     [Rev1_getMergedItemRecordFunction];
   unit_resolver "FileFileGroupResolver" FileFileGroupResolver_request dynamoDbResultItem;
   unit_resolver "FileGroupFilesResolver" FileGroupFilesResolver_request page_blank_to_null;
   pipeline_resolver "ItemMetadataParentResolver" ItemMetadataParentResolver_request
     [Rev1_getMergedItemRecordFunction];
   unit_resolver "ItemMetadataChildrenResolver" ItemMetadataChildrenResolver_request
     ItemMetadataChildrenResolver_response;
   unit_resolver "ItemMetadataFilesResolver" ItemMetadataFilesResolver_request page_blank_to_null;
   unit_resolver "MutationAddItemMetadataToWebsiteResolver"
     MutationAddItemMetadataToWebsiteResolver_request dynamoDbResultItem;
   pipeline_resolver "MutationReplaceCopyrightStatement" MutationReplaceCopyrightStatement_request
     [updateSupplementalDataFunction; updateItemFunction];
   pipeline_resolver "MutationReplaceDefaultImageResolver"
     MutationReplaceDefaultImageResolver_request
     [updateSupplementalDataFunction; updateItemFunction];
   pipeline_resolver "MutationReplacePartiallyDigitizedResolver"
     MutationReplacePartiallyDigitizedResolver_request
     [updateSupplementalDataFunction; updateItemFunction];
   unit_resolver "MutationAddItemToWebsiteResolver" Rev1_MutationAddItemToWebsiteResolver_request
     dynamoDbResultItem;
   unit_resolver "MutationRemoveItemFromWebsiteResolver"
     MutationRemoveItemFromWebsiteResolver_request dynamoDbResultItem;
   pipeline_resolver "MutationSaveCopyrightForWebsiteResolver"
     MutationSaveCopyrightForWebsiteResolver_request [Rev1_updateSupplementalDataRecordFunction];
   pipeline_resolver "MutationSaveDefaultImageForWebsiteResolver"
     MutationSaveDefaultImageForWebsiteResolver_request [Rev1_updateSupplementalDataRecordFunction];
   pipeline_resolver "MutationSavePartiallyDigitizedForWebsiteResolver"
     MutationSavePartiallyDigitizedForWebsiteResolver_request
     [Rev1_updateSupplementalDataRecordFunction];
   unit_resolver "QueryGetFileGroupResolver" QueryGetFileGroupResolver_request dynamoDbResultItem;
   pipeline_resolver "QueryGetItemResolver" QueryGetItemResolver_request
     [Rev1_getMergedItemRecordFunction];
   unit_resolver "QueryGetWebsiteResolver" QueryGetWebsiteResolver_request dynamoDbResultItem;
   unit_resolver "QueryListFileGroupsResolver" QueryListFileGroupsResolver_request
     page_blank_to_null;
   unit_resolver "QueryListFileGroupsByStorageSystemResolver"
     QueryListFileGroupsByStorageSystemResolver_request page_as_is;
   unit_resolver "QueryListFileGroupsForS3Resolver" QueryListFileGroupsForS3Resolver_request
     page_as_is;
   unit_resolver "QueryListItemsBySourceSystemResolver"
     QueryListItemsBySourceSystemResolver_request page_as_is;
   unit_resolver "QueryListItemsByWebsiteResolver" QueryListItemsByWebsiteResolver_request
     page_as_is;
   unit_resolver "QueryListWebsitesResolver" QueryListWebsitesResolver_request page_as_is;
   unit_resolver "WebsiteWebsiteItemsResolver" WebsiteWebsiteItemsResolver_request page_as_is;
   pipeline_resolver "WebsiteItemItemMetadataResolver" WebsiteItemItemMetadataResolver_request
     [Rev1_getMergedItemRecordFunction];
   pipeline_resolver "WebsiteItemsItemMetadataResolver" WebsiteItemsItemMetadataResolver_request
     [Rev1_getMergedItemRecordFunction]].

Definition resolvers : list Resolver := (rev2_resolvers ++ rev1_resolvers)%list.
Definition functions : list Template := (rev2_functions ++ rev1_functions)%list.

(** Every response mapping template of the API. *)
Definition response_templates : list Template :=
  (functions ++ map r_template resolvers)%list.

(** ** Running a resolver against a data source *)

(** The data source: the result and the error of one invocation. *)
Definition DataSource := Request -> json * option Error.

(** One function of a pipeline, or a unit resolver: evaluate the request
    template, invoke the data source, evaluate the response template. *)
Definition invoke (ds : DataSource) (t : Template) (ctx : Context)
  : list Request * Response :=
  let r := t_request t ctx in
  let ctx := with_stash ctx (out_stash r) in
  match out_request r with
  | Some req => ([req], t_response t (with_result ctx (fst (ds req)) (snd (ds req))))
  | None => ([], t_response t ctx)
  end.

(** The functions of a pipeline in order; a field error ends the run.
    The result of a function is the [$ctx.result] of what follows. *)
Fixpoint run_functions (ds : DataSource) (fs : list Template) (ctx : Context)
  : list Request * Response :=
  match fs with
  | [] => ([], Returned (result ctx) (stash ctx))
  | f :: fs' =>
      match snd (invoke ds f ctx) with
      | FieldError m t => (fst (invoke ds f ctx), FieldError m t)
      | Returned body st =>
          let rest := run_functions ds fs' (with_result (with_stash ctx st) body None) in
          ((fst (invoke ds f ctx) ++ fst rest)%list, snd rest)
      end
  end.

(** One execution of a resolver, which starts with an empty stash: the
    requests sent to the data source and the response.  A pipeline
    resolver evaluates its request template, runs its functions, and
    evaluates its response template on what the last function returned. *)
Definition resolve (ds : DataSource) (r : Resolver) (ctx : Context) : list Request * Response :=
  let ctx := with_stash ctx [] in
  match r_functions r with
  | [] => invoke ds (r_template r) ctx
  | fs =>
      let before := t_request (r_template r) ctx in
      let run := run_functions ds fs (with_stash ctx (out_stash before)) in
      (fst run,
       match snd run with
       | FieldError m t => FieldError m t
       | Returned body st =>
           t_response (r_template r) (with_result (with_stash ctx st) body None)
       end)
  end.

Definition requests (ds : DataSource) (r : Resolver) (ctx : Context) : list Request :=
  fst (resolve ds r ctx).

End Templates.

(* ------------------------------------------------------------------ *)
(** * The table behind the data source *)

Module Dynamo.

(** Whether an item meets one conjunct of a key condition. *)
Definition holds (item : Obj) (c : Cond) : bool :=
  match c with
  | CEq a (AttrS v) =>
      match Json.fieldS item a with Some x => String.eqb x v | None => false end
  | CBeginsWith a (AttrS v) =>
      match Json.fieldS item a with Some x => Util.startsWith v x | None => false end
  | CLe a (AttrS v) =>
      match Json.fieldS item a with Some x => String.leb x v | None => false end
  | _ => false
  end.

Definition select (table : list Obj) (q : list Cond) : list Obj :=
  filter (fun item => forallb (holds item) q) table.

(** A [Query] that does not fail returns one page of the items that meet
    its key condition; whether it fails, and what the other operations
    return, is left to [other]. *)
Definition source (page : nat) (table : list Obj) (other : DataSource) : DataSource :=
  fun req =>
    if String.eqb (operation req) "Query" then
      match snd (other req) with
      | Some e => (JNull, Some e)
      | None =>
          (JMap [("items", JList (map JMap (firstn page (select table (query req)))));
                 ("nextToken", JNull)], None)
      end
    else other req.

End Dynamo.

(* ------------------------------------------------------------------ *)
(** * The API-key rotation Lambda

    The inline Python handler of [RotateApiKeysLambdaFunction].  Time is
    counted in microseconds since the epoch: [datetime.now().timestamp()]
    is the clock, [int] of it the whole seconds. *)

Module Lambda.

(** One key of [list_api_keys]. *)
Record ApiKey := {
  api : string;
  id : string;
  description : option string;
  expires : Z
}.

(** The AWS API calls of the handler. *)
Inductive Call :=
| GetParameter (name : string)
| CreateApiKey (apiId : string) (description : string) (expires : Z)
| PutParameter (name : string) (value : string)
| ListApiKeys (apiId : string)
| DeleteApiKey (apiId : string) (id : string).

(** What the handler runs against: the parameter store, the keys AppSync
    holds, the clock with the time that passes before each of its coming
    readings, the id AppSync gives the next key, the length of a page of
    [list_api_keys], and the calls that fail with a [ClientError]. *)
Record World := {
  ssm : list (string * string);
  api_keys : list ApiKey;
  clock : Z;
  ticks : list N;
  next_id : string;
  page : nat;
  faults : Call -> bool
}.

(** [int(os.environ.get(name, default))] reads a variable that is unset,
    holds the text of an integer, or holds other text. *)
Inductive EnvInt := Unset | IntText (z : Z) | OtherText.

Record Env := {
  GRAPHQL_API_ID_KEY_PATH : option string;
  GRAPHQL_API_KEY_KEY_PATH : option string;
  DAYS_FOR_KEY_TO_LAST : EnvInt
}.

(** [TimedOut] is the runtime ending an invocation that has run past its
    [timeout]. *)
Inductive Exn :=
| ClientError (c : Call)
| ValueError
| OverflowError
| TimedOut.

(** The state of a run: the world, the calls made so far, and the instant
    at which the runtime ends the invocation. *)
Record State := { world : World; calls : list Call; deadline : Z }.

Definition M (A : Type) : Type := State -> (Exn + A) * State.

Definition ret {A} (a : A) : M A := fun s => (inr a, s).

Definition bind {A B} (m : M A) (k : A -> M B) : M B :=
  fun s =>
    match m s with
    | (inl e, s') => (inl e, s')
    | (inr a, s') => k a s'
    end.

Definition raise {A} (e : Exn) : M A := fun s => (inl e, s).

(** [try: m except botocore.exceptions.ClientError: h]. *)
Definition except_ClientError {A} (m : M A) (h : M A) : M A :=
  fun s =>
    match m s with
    | (inl (ClientError _), s') => h s'
    | r => r
    end.

Declare Scope lambda_scope.
Delimit Scope lambda_scope with lambda.
Notation "x <- m ;; k" := (bind m (fun x => k))
  (at level 61, m at next level, right associativity) : lambda_scope.
Notation "m ;; k" := (bind m (fun _ => k))
  (at level 61, right associativity) : lambda_scope.
Open Scope lambda_scope.

Definition set_world (w : World) (s : State) : State :=
  {| world := w; calls := calls s; deadline := deadline s |}.

(** Record a call; it raises when the world has it fail. *)
Definition call (c : Call) : M unit :=
  fun s =>
    let s' := {| world := world s; calls := (calls s ++ [c])%list; deadline := deadline s |} in
    if faults (world s) c then (inl (ClientError c), s') else (inr tt, s').

Definition micro : Z := 1000000.
Definition day_seconds : Z := 86400.

(** [datetime.datetime.now()]: the next reading of the clock.  Time
    passes between two readings only; an invocation that is past its
    deadline by then has been ended. *)
Definition now : M Z :=
  fun s =>
    let w := world s in
    let d := match ticks w with [] => 0%N | d :: _ => d end in
    let t := (clock w + Z.of_N d)%Z in
    let s' :=
      set_world {| ssm := ssm w; api_keys := api_keys w; clock := t; ticks := tl (ticks w);
                   next_id := next_id w; page := page w; faults := faults w |} s in
    if (deadline s <? t)%Z then (inl TimedOut, s') else (inr t, s').

(** The instants a [datetime] can hold, year 1 to year 9999. *)
Definition datetime_min : Z := (-62135596800 * micro)%Z.
Definition datetime_max : Z := (253402300800 * micro - 1)%Z.

(** A string as a condition: the empty string and [None] are false. *)
Definition nonempty (v : option string) : bool :=
  match v with
  | Some s => negb (String.eqb s "")
  | None => false
  end.

Definition _get_parameter (name : string) : M (option string) :=
  except_ClientError
    (call (GetParameter name) ;;
     fun s => (inr (VMap.get name (ssm (world s))), s))
    (ret None).

Definition _get_expire_time (days : Z) : M Z :=
  let days := if (days >? 364)%Z then 364%Z else days in
  t <- now ;;
  let new_expire_time := (t + days * day_seconds * micro)%Z in
  if (new_expire_time <? datetime_min)%Z || (datetime_max <? new_expire_time)%Z
  then raise OverflowError
  else ret (Z.quot new_expire_time micro).

Definition auto_maintained : string := "auto maintained api key".

Definition _generate_new_api_key (graphql_api_id : string) (new_expire_time : Z) : M string :=
  call (CreateApiKey graphql_api_id auto_maintained new_expire_time) ;;
  fun s =>
    let w := world s in
    let k := {| api := graphql_api_id; id := next_id w;
                description := Some auto_maintained; expires := new_expire_time |} in
    (inr (next_id w),
     set_world {| ssm := ssm w; api_keys := (api_keys w ++ [k])%list; clock := clock w;
                  ticks := ticks w; next_id := next_id w; page := page w;
                  faults := faults w |} s).

Definition _save_secure_parameter (name key_id : string) : M unit :=
  call (PutParameter name key_id) ;;
  fun s =>
    let w := world s in
    (inr tt,
     set_world {| ssm := VMap.put name key_id (ssm w); api_keys := api_keys w;
                  clock := clock w; ticks := ticks w; next_id := next_id w;
                  page := page w; faults := faults w |} s).

Definition same_key (graphql_api_id key_id : string) (k : ApiKey) : bool :=
  String.eqb (api k) graphql_api_id && String.eqb (id k) key_id.

Definition delete_api_key (graphql_api_id key_id : string) : M unit :=
  call (DeleteApiKey graphql_api_id key_id) ;;
  fun s =>
    let w := world s in
    (inr tt,
     set_world {| ssm := ssm w;
                  api_keys := filter (fun k => negb (same_key graphql_api_id key_id k)) (api_keys w);
                  clock := clock w; ticks := ticks w; next_id := next_id w;
                  page := page w; faults := faults w |} s).

Definition list_api_keys (graphql_api_id : string) : M (list ApiKey) :=
  call (ListApiKeys graphql_api_id) ;;
  fun s =>
    let w := world s in
    (inr (firstn (page w) (filter (fun k => String.eqb (api k) graphql_api_id) (api_keys w))), s).

(** [api_key.get('expires') < now.timestamp()]. *)
Definition expired (k : ApiKey) (t : Z) : bool := (expires k * micro <? t)%Z.

Definition is_auto_maintained (k : ApiKey) : bool :=
  match description k with
  | Some d => String.eqb d auto_maintained
  | None => false
  end.

(** [for api_key in response.get('apiKeys'): ...]. *)
Fixpoint delete_each (graphql_api_id : string) (keys : list ApiKey) : M unit :=
  match keys with
  | [] => ret tt
  | api_key :: rest =>
      t <- now ;;
      (if expired api_key t && is_auto_maintained api_key
       then delete_api_key graphql_api_id (id api_key)
       else ret tt) ;;
      delete_each graphql_api_id rest
  end.

Definition _delete_expired_api_keys (graphql_api_id : string) : M unit :=
  keys <- list_api_keys graphql_api_id ;;
  delete_each graphql_api_id keys.

Definition int_env (v : EnvInt) (default : Z) : M Z :=
  match v with
  | Unset => ret default
  | IntText z => ret z
  | OtherText => raise ValueError
  end.

Definition run (env : Env) : M unit :=
  let graphql_api_id_key_path := GRAPHQL_API_ID_KEY_PATH env in
  let graphql_api_key_key_path := GRAPHQL_API_KEY_KEY_PATH env in
  days_for_key_to_last <- int_env (DAYS_FOR_KEY_TO_LAST env) 7 ;;
  match graphql_api_id_key_path with
  | Some id_path =>
      if nonempty graphql_api_id_key_path then
        graphql_api_id <- _get_parameter id_path ;;
        match graphql_api_id, graphql_api_key_key_path with
        | Some api_id, Some key_path =>
            if nonempty graphql_api_id && nonempty graphql_api_key_key_path then
              expire_time <- _get_expire_time days_for_key_to_last ;;
              new_api_key <- _generate_new_api_key api_id expire_time ;;
              if nonempty (Some new_api_key) then
                _save_secure_parameter key_path new_api_key ;;
                _delete_expired_api_keys api_id
              else ret tt
            else ret tt
        | _, _ => ret tt
        end
      else ret tt
  | None => ret tt
  end.

(** [timeout: Duration.seconds(90)]. *)
Definition timeout : Z := (90 * micro)%Z.

(** One invocation, from a world in which no call has been made. *)
Definition invoke (env : Env) (w : World) : (Exn + unit) * State :=
  run env {| world := w; calls := []; deadline := (clock w + timeout)%Z |}.








(** The environment the stack gives the function: the two parameter paths
    of the stack and [String(daysForKeyToLast)], with
    [daysForKeyToLast = 7]. *)
Definition daysForKeyToLast : Z := 7.

Definition environment (graphqlApiIdKeyPath graphqlApiKeyKeyPath : string) : Env :=
  {| GRAPHQL_API_ID_KEY_PATH := Some graphqlApiIdKeyPath;
     GRAPHQL_API_KEY_KEY_PATH := Some graphqlApiKeyKeyPath;
     DAYS_FOR_KEY_TO_LAST := IntText daysForKeyToLast |}.

End Lambda.

(* ------------------------------------------------------------------ *)
(** * What the specification says, in its own words *)

Module Spec.

(** "substituting the empty string when it is null or blank". *)
Definition substitute_empty (v : option string) : string :=
  match v with
  | Some s => if Util.isBlank s then "" else s
  | None => ""
  end.

(** "removing all space characters". *)
Fixpoint remove_spaces (s : string) : string :=
  match s with
  | EmptyString => EmptyString
  | String c s' =>
      if Ascii.eqb c " "%char then remove_spaces s' else String c (remove_spaces s')
  end.

(** The normalized identifier: substitute, then uppercase, then remove
    the spaces. *)
Definition normalize (v : option string) : string :=
  remove_spaces (Util.toUpper (substitute_empty v)).

(** A record-type prefix joined by "#" to normalized identifiers. *)
Fixpoint join (ids : list (option string)) : string :=
  match ids with
  | [] => ""
  | i :: rest => "#" ++ normalize i ++ join rest
  end.

Definition key (prefix : string) (ids : list (option string)) : AttributeValue :=
  AttrS (prefix ++ join ids).

(** The entries the builder walks, and their keys by kind. *)
Definition entries (args : Obj) : Obj :=
  VMap.copyAndRemoveAllKeys args ["itemId"; "expectedVersion"].

(** The entries with a value, and the ones without. *)
Definition nonnull (l : Obj) : Obj := filter (fun e => negb (Json.is_null (snd e))) l.
Definition nulls (l : Obj) : Obj := filter (fun e => Json.is_null (snd e)) l.

Definition set_keys (args : Obj) : list string :=
  map fst (filter (fun e => negb (Json.is_null (snd e))) (entries args)).

Definition remove_keys (args : Obj) : list string :=
  map fst (filter (fun e => Json.is_null (snd e)) (entries args)).

(** "a comma-separated SET clause over all non-null entries". *)
Definition set_clause (ks : list string) : string :=
  match ks with
  | [] => ""
  | _ => "SET" ++ String.concat "," (map (fun k => " #" ++ k ++ " = :" ++ k) ks)
  end.

(** "a comma-separated REMOVE clause over all null entries". *)
Definition remove_clause (ks : list string) : string :=
  match ks with
  | [] => ""
  | _ => " REMOVE" ++ String.concat "," (map (fun k => " #" ++ k) ks)
  end.

(** What [updateSupplementalDataRecordFunction] appends to a SET clause. *)
Definition dateAddedToDynamo : string :=
  ", dateAddedToDynamo = if_not_exists(dateAddedToDynamo, :dateAddedToDynamo)".

Definition dateAdded_if (ks : list string) : string :=
  match ks with [] => "" | _ => dateAddedToDynamo end.

End Spec.

(** * Key attribute values *)

Module Keys.

(** The record-type tags the templates use as a whole key value. *)
Definition bare_tags : list string :=
  ["PORTFOLIO"; "FILEGROUP"; "WEBSITE"; "FILE"; "FILETOPROCESS"; "ITEMTOHARVEST";
   "SUPPLEMENTALDATA"; "PORTFOLIOCOLLECTION"; "PORTFOLIOITEM"; "SUBJECTTERM"].

(** The tags the templates join by "#" to what follows. *)
Definition prefixes : list string :=
  ["ITEM"; "SUPPLEMENTALDATA"; "FILEGROUP"; "WEBSITE"; "FILE"; "FILEPATH";
   "SOURCESYSTEM"; "FILESYSTEM"; "USER"; "PORTFOLIOCOLLECTION"; "INTERNALITEM";
   "URI"; "SORT"; "ADDED"; "DATELASTPROCESSED"; "PUBLIC"].

Definition tagged (s : string) : bool :=
  VMap.mem s bare_tags || existsb (fun t => Util.startsWith (t ++ "#") s) prefixes.

(** A key value that is a bare tag or starts with a tag and "#". *)
Definition well_formed (v : AttributeValue) : bool :=
  match v with AttrS s => tagged s | _ => false end.

(** The key the batch functions send when they have nothing to look up. *)
Definition placeholder (v : AttributeValue) : bool :=
  match v with
  | AttrS s => VMap.mem s ["NoKeyToFind"; "YieldEmptyResultSet"]
  | _ => false
  end.

(** The value of a key attribute in the request a template renders. *)
Definition value_of (attr : string) (r : Rendered) : option AttributeValue :=
  match out_request r with
  | Some req => VMap.get attr (Req.key_values req)
  | None => None
  end.

End Keys.

(** * Outcomes of an invocation of the rotation Lambda *)

Module LambdaSpec.

Import Lambda.

(** The first reading of the clock in an invocation. *)
Definition first_reading (w : World) : Z :=
  (clock w + Z.of_N match ticks w with [] => 0%N | d :: _ => d end)%Z.

(** "computed from min(days, 364)": the expiry, in whole seconds, of a key
    requested at instant [t]. *)
Definition expiry (days t : Z) : Z :=
  Z.quot (t + Z.min days 364 * day_seconds * micro) micro.

(** The days [run] reads from its environment. *)
Definition days_of (env : Env) : option Z :=
  match DAYS_FOR_KEY_TO_LAST env with
  | Unset => Some 7%Z
  | IntText z => Some z
  | OtherText => None
  end.

(** The key [create_api_key] adds. *)
Definition new_key (a : string) (e : Z) (w : World) : ApiKey :=
  {| api := a; id := next_id w; description := Some auto_maintained; expires := e |}.

(** AppSync gives every key of an API an id of its own. *)
Definition distinct_ids (w : World) : Prop :=
  NoDup (map (fun k => (api k, id k)) (api_keys w))
  /\ forall k, In k (api_keys w) -> id k <> next_id w.

(** A key the loop deletes: listed, auto maintained, and expired at the
    reading [t] of the clock that the loop compared it with. *)
Definition deleted_rightly (keys : list ApiKey) (from upto limit : Z) (d : ApiKey) : Prop :=
  In d keys /\ is_auto_maintained d = true
  /\ exists t, (from <= t <= upto)%Z /\ (t <= limit)%Z /\ expired d t = true.

(** What a run of the deleting loop from [s] to [s'] did: [ds] are the
    keys it asked AppSync to delete, in order. *)
Record Loop (api_id : string) (keys : list ApiKey) (s s' : State) (ds : list ApiKey) : Prop := {
  loop_calls : calls s' = (calls s ++ map (fun k => DeleteApiKey api_id (id k)) ds)%list;
  loop_only : forall d, In d ds ->
      deleted_rightly keys (clock (world s)) (clock (world s')) (deadline s) d;
  loop_frame : forall k, In k (api_keys (world s)) ->
      In k (api_keys (world s')) \/ exists d, In d ds /\ same_key api_id (id d) k = true;
  loop_shrink : forall k, In k (api_keys (world s')) -> In k (api_keys (world s));
  loop_ssm : ssm (world s') = ssm (world s);
  loop_clock : (clock (world s) <= clock (world s'))%Z;
  loop_deadline : deadline s' = deadline s;
  loop_count : (List.length ds <= List.length
      (filter (fun k => is_auto_maintained k && expired k (clock (world s'))) keys))%nat
}.

(** The ways an invocation in world [w] can end in state [s']. *)
Inductive Outcome (env : Env) (w : World) (s' : State) : Prop :=
| NoCall :
    calls s' = [] ->
    api_keys (world s') = api_keys w -> ssm (world s') = ssm w ->
    Outcome env w s'
| GetOnly (idp : string) :
    GRAPHQL_API_ID_KEY_PATH env = Some idp ->
    calls s' = [GetParameter idp] ->
    api_keys (world s') = api_keys w -> ssm (world s') = ssm w ->
    Outcome env w s'
| CreateOnly (idp kp a : string) (days : Z) :
    GRAPHQL_API_ID_KEY_PATH env = Some idp ->
    GRAPHQL_API_KEY_KEY_PATH env = Some kp ->
    VMap.get idp (ssm w) = Some a ->
    days_of env = Some days ->
    let e := expiry days (first_reading w) in
    calls s' = [GetParameter idp; CreateApiKey a auto_maintained e] ->
    (faults w (CreateApiKey a auto_maintained e) = true
     /\ api_keys (world s') = api_keys w
     \/ faults w (CreateApiKey a auto_maintained e) = false
        /\ next_id w = "" /\ api_keys (world s') = (api_keys w ++ [new_key a e w])%list) ->
    ssm (world s') = ssm w ->
    Outcome env w s'
| PutFailed (idp kp a : string) (days : Z) :
    GRAPHQL_API_ID_KEY_PATH env = Some idp ->
    GRAPHQL_API_KEY_KEY_PATH env = Some kp ->
    VMap.get idp (ssm w) = Some a ->
    days_of env = Some days ->
    let e := expiry days (first_reading w) in
    calls s' = [GetParameter idp; CreateApiKey a auto_maintained e;
                PutParameter kp (next_id w)] ->
    faults w (CreateApiKey a auto_maintained e) = false ->
    api_keys (world s') = (api_keys w ++ [new_key a e w])%list ->
    ssm (world s') = ssm w ->
    Outcome env w s'
| Rotated (idp kp a : string) (days : Z) (ds : list ApiKey) :
    GRAPHQL_API_ID_KEY_PATH env = Some idp ->
    GRAPHQL_API_KEY_KEY_PATH env = Some kp ->
    VMap.get idp (ssm w) = Some a ->
    days_of env = Some days ->
    let e := expiry days (first_reading w) in
    let keys := (api_keys w ++ [new_key a e w])%list in
    calls s' = ([GetParameter idp; CreateApiKey a auto_maintained e;
                 PutParameter kp (next_id w); ListApiKeys a]
                ++ map (fun k => DeleteApiKey a (id k)) ds)%list ->
    faults w (CreateApiKey a auto_maintained e) = false ->
    (forall d, In d ds ->
       api d = a
       /\ deleted_rightly keys (first_reading w) (clock (world s')) (clock w + timeout) d) ->
    (forall k, In k keys ->
       In k (api_keys (world s')) \/ exists d, In d ds /\ same_key a (id d) k = true) ->
    (forall k, In k (api_keys (world s')) -> In k keys) ->
    (List.length ds <= List.length
       (filter (fun k => is_auto_maintained k && expired k (clock (world s'))) keys))%nat ->
    ssm (world s') = VMap.put kp (next_id w) (ssm w) ->
    Outcome env w s'.


Definition is_get (c : Call) : bool := match c with GetParameter _ => true | _ => false end.
Definition is_put (c : Call) : bool := match c with PutParameter _ _ => true | _ => false end.
Definition is_create (c : Call) : bool := match c with CreateApiKey _ _ _ => true | _ => false end.

End LambdaSpec.

(** * What the templates are compared with *)

Module TemplateSpec.

(** The identifier that [getMergedItemRecordFunction] normalizes into its
    partition key: [$ctx.source.itemMetadataId] when it is not null; when it
    is null, nothing if [#set] assigns nulls, and otherwise what the two
    lines before left in [$id]. *)
Definition merged_id (set_null_allowed : bool) (ctx : Context) : option string :=
  match src ctx "itemMetadataId" with
  | Some m => Some m
  | None =>
      if set_null_allowed then None
      else Util.defaultIfNullOrBlank
             (Util.defaultIfNullOrBlank (stashed ctx "itemId") (src ctx "itemId"))
             (src ctx "id")
  end.

(** The templates whose response opens with
    [#if($ctx.error) $util.error($ctx.error.message, $ctx.error.type) #end]:
    the pipeline functions and one resolver. *)
Definition guards_error (t : Template) : bool :=
  VMap.mem (t_name t)
    ["getMergedItemRecordFunction"; "expandSubjectTermsFunction";
     "findPortfolioContentForUserFunction"; "deletePortfolioContentForUserFunction";
     "updateSupplementalDataRecordFunction"; "updateItemFunction";
     "updateSupplementalDataFunction"; "QueryListSupplementalDataRecordsResolver"].







(** [$util.defaultIfNullOrBlank(v, d)] for a default that is not null. *)
Definition with_default (d : string) (v : option string) : string :=
  match v with
  | Some s => if Util.isBlank s then d else s
  | None => d
  end.

(** The [GSI2SK] that [MutationSavePortfolioCollectionResolver] writes for
    a collection that is not private: the privacy argument in place of a
    record type. *)
Definition privacy_key (ctx : Context) : AttributeValue :=
  AttrS (Util.toUpper
    (with_default "private" (arg ctx "privacy") ++ "#"
     ++ Spec.normalize
          (Util.defaultIfNullOrBlank (arg ctx "portfolioCollectionId") (Some (autoId ctx))))).

(** The shapes of a key attribute value: a tag, a tag and "#" before what
    follows, a placeholder of the batch functions, or the privacy key. *)
Definition key_shape (ctx : Context) (a : string) (v : AttributeValue) : Prop :=
  Keys.well_formed v = true \/ Keys.placeholder v = true
  \/ (a = "GSI2SK" /\ v = privacy_key ctx).

Definition keys_ok (ctx : Context) (req : Request) : Prop :=
  forall a v, In (a, v) (Req.key_values req) -> key_shape ctx a v.

(** The first two shapes, as a check of a key map and of a request. *)
Definition wf_pair (p : string * AttributeValue) : bool :=
  Keys.well_formed (snd p) || Keys.placeholder (snd p).

Definition wf_map (k : list (string * AttributeValue)) : Prop := forallb wf_pair k = true.

Definition keys_wf (req : Request) : bool := forallb wf_pair (Req.key_values req).

(** What the portfolio pipeline keeps true of its stash: the records that
    [deletePortfolioContentForUserFunction] is to delete carry well-formed
    keys. *)
Definition record_keys_wf (item : json) : bool :=
  let rec := Json2.entries (Json2.as_map item) in
  Keys.well_formed (Json2.toStringAttr (Json.fieldS rec "PK"))
  && Keys.well_formed (Json2.toStringAttr (Json.fieldS rec "SK")).

Definition records_ok (st : Obj) : Prop :=
  forallb record_keys_wf (Json2.as_list (Json.field st "portfolioRecordsToDelete")) = true.

(** What the update pipelines keep true of their stash: an argument map
    binds a key attribute to a well-formed value only. *)
Definition entries_ok (m : Obj) : Prop :=
  forall key value, In (key, value) m -> In key Req.key_attributes ->
    Keys.well_formed (Json.toDynamoDB value) = true.

Definition map_ok (a : option Obj) : Prop :=
  match a with Some m => entries_ok m | None => True end.

Definition args_ok (st : Obj) (k : string) : Prop :=
  map_ok (Json2.as_map (Json.field st k)).

Definition updates_ok (st : Obj) : Prop :=
  args_ok st "supplementalDataArgs" /\ args_ok st "itemArgs".

(** An argument map that binds no key attribute at all. *)
Definition clean_args (st : Obj) (k : string) : bool :=
  match Json2.as_map (Json.field st k) with
  | Some m => forallb (fun a => negb (VMap.mem a Req.key_attributes)) (VMap.keys m)
  | None => true
  end.

End TemplateSpec.

(** * Sample inputs *)

Module Sample.

Import Lambda.

Definition env : Env :=
  environment "/all/stacks/mm/graphql-api-id" "/all/stacks/mm/graphql-api-key".

(** An API with an expired auto maintained key, a hand-made key that is
    expired too, and an auto maintained key that is still good. *)
Definition world : World :=
  {| ssm := [("/all/stacks/mm/graphql-api-id", "api123")];
     api_keys :=
       [{| api := "api123"; id := "da2-old";
           description := Some auto_maintained; expires := 1600000000 |};
        {| api := "api123"; id := "da2-manual";
           description := Some "made by hand"; expires := 1600000000 |};
        {| api := "api123"; id := "da2-good";
           description := Some auto_maintained; expires := 1800000000 |}];
     clock := (1700000000 * micro)%Z;
     ticks := [250000%N; 40000%N; 40000%N];
     next_id := "da2-new";
     page := 25;
     faults := fun _ => false |}.

End Sample.

(** Sample inputs of the templates: the engine as Velocity 1.7 has it, and
    an argument map with a null entry and the two skipped keys. *)
Module SampleVtl.

Definition object_truth (v : json) : bool := true.

Definition now : string := "2021-03-01T00:00:00.000Z".

Definition args : Obj :=
  [("itemId", JStr "abc 123"); ("title", JStr "A title"); ("expectedVersion", JNum 3);
   ("description", JNull); ("sequence", JNum 2)].

Definition one_arg : Obj := [("title", JStr "A title")].

Definition tableName : string := "website-metadata".

End SampleVtl.

(** Sample contexts of the resolvers. *)
Module SampleRun.

Definition context (a st : Obj) (e : option Error) : Context :=
  {| args := a; source := []; claims := []; stash := st; result := JNull; error := e;
     now := SampleVtl.now; autoId := "0f8fad5b-d9cb-469f-a165-70867728950e" |}.

(** A query for an item or a file group by its id. *)
Definition by_id : Context := context [("id", JStr "abc 123")] [] None.

(** The same, inside the item pipeline: the resolver stashed the id. *)
Definition item_query : Context :=
  context [("id", JStr "abc 123")] [("itemId", JStr "abc 123"); ("websiteId", JStr "")] None.

(** The same, after the data source failed. *)
Definition failure : Error :=
  {| message := "The conditional request failed";
     errorType := "DynamoDB:ConditionalCheckFailedException" |}.

Definition failed : Context := context [("id", JStr "abc 123")] [] (Some failure).


(** A signed-in user, whose [netid] claim has a space in it. *)
Definition signed_in (a : Obj) : Context :=
  {| args := a; source := []; claims := [("netid", JStr "jd oe")]; stash := [];
     result := JNull; error := None; now := SampleVtl.now;
     autoId := "0f8fad5b-d9cb-469f-a165-70867728950e" |}.

(** Saving a collection that is shared, neither private nor public. *)
Definition save_shared : Context :=
  signed_in [("portfolioCollectionId", JStr "My Trip"); ("privacy", JStr "shared")].

(** A data source that never fails and returns nothing outside queries. *)
Definition quiet : DataSource := fun _ => (JNull, None).

End SampleRun.

(* ------------------------------------------------------------------ *)
(** * The rotation Lambda in its stack *)

Module RotationSpec.

Import Lambda LambdaSpec.

(** [this.graphqlApiKeyKeyPath] and [this.graphqlApiIdKeyPath]. *)
Definition graphqlApiKeyKeyPath (stackName : string) : string :=
  "/all/stacks/" ++ stackName ++ "/graphql-api-key".

Definition graphqlApiIdKeyPath (stackName : string) : string :=
  "/all/stacks/" ++ stackName ++ "/graphql-api-id".

(** The [environment] of [RotateApiKeysLambdaFunction]. *)
Definition stack_environment (stackName : string) : Env :=
  environment (graphqlApiIdKeyPath stackName) (graphqlApiKeyKeyPath stackName).

(** The world after the first reading of the clock. *)
Definition after_reading (w : World) : World :=
  {| ssm := ssm w; api_keys := api_keys w; clock := first_reading w; ticks := tl (ticks w);
     next_id := next_id w; page := page w; faults := faults w |}.

(** What takes [run] as far as [create_api_key]: both paths are set, the
    API id is read and is not empty, the lifetime is an integer, the clock
    is read before the runtime ends the invocation, and the expiry is an
    instant a [datetime] can hold. *)
Record Ready (env : Env) (w : World) (idp kp a : string) (days : Z) : Prop := {
  ready_id_path : GRAPHQL_API_ID_KEY_PATH env = Some idp;
  ready_id_path_set : idp <> "";
  ready_key_path : GRAPHQL_API_KEY_KEY_PATH env = Some kp;
  ready_key_path_set : kp <> "";
  ready_days : days_of env = Some days;
  ready_get : faults w (GetParameter idp) = false;
  ready_api : VMap.get idp (ssm w) = Some a;
  ready_api_set : a <> "";
  ready_time : (first_reading w <= clock w + timeout)%Z;
  ready_range :
    (datetime_min <= first_reading w + Z.min days 364 * day_seconds * micro <= datetime_max)%Z
}.

(** The keys of API [a] that [list_api_keys] returns: one page. *)
Definition listed (a : string) (n : nat) (keys : list ApiKey) : list ApiKey :=
  firstn n (filter (fun k => String.eqb (api k) a) keys).

(** Where an invocation leaves the keys of AppSync: as they were, with the
    new key added, or as the loop over one page of the listing leaves
    them. *)
Definition Final (w : World) (s' : State) : Prop :=
  api_keys (world s') = api_keys w
  \/ (exists a e, api_keys (world s') = (api_keys w ++ [new_key a e w])%list)
  \/ exists a e s,
       api_keys (world s) = (api_keys w ++ [new_key a e w])%list
       /\ s' = snd (delete_each a (listed a (page w) (api_keys w ++ [new_key a e w])%list) s).

End RotationSpec.

(** Worlds in which a call fails. *)
Module SampleFaults.

Import Lambda.

Definition failing (c : Call) : World :=
  {| ssm := ssm Sample.world; api_keys := api_keys Sample.world; clock := clock Sample.world;
     ticks := ticks Sample.world; next_id := next_id Sample.world; page := page Sample.world;
     faults := fun c' =>
       match c, c' with
       | GetParameter _, GetParameter _ => true
       | CreateApiKey _ _ _, CreateApiKey _ _ _ => true
       | PutParameter _ _, PutParameter _ _ => true
       | ListApiKeys _, ListApiKeys _ => true
       | DeleteApiKey _ _, DeleteApiKey _ _ => true
       | _, _ => false
       end |}.

Definition no_get : World := failing (GetParameter "").
Definition no_create : World := failing (CreateApiKey "" "" 0).
Definition no_put : World := failing (PutParameter "" "").

(** A listing of one key a page, with the expired key listed last. *)
Definition short_page : World :=
  {| ssm := ssm Sample.world; api_keys := rev (api_keys Sample.world);
     clock := clock Sample.world; ticks := ticks Sample.world;
     next_id := next_id Sample.world; page := 1; faults := faults Sample.world |}.

(** The environment of the stack with a lifetime of no day. *)
Definition short_lived : Env :=
  {| GRAPHQL_API_ID_KEY_PATH := GRAPHQL_API_ID_KEY_PATH Sample.env;
     GRAPHQL_API_KEY_KEY_PATH := GRAPHQL_API_KEY_KEY_PATH Sample.env;
     DAYS_FOR_KEY_TO_LAST := IntText 0 |}.

End SampleFaults.

(** * What the subject functions work on *)

Module SubjectSpec.

(** [$ctx.stash.itemRecord.subjects]. *)
Definition subjects_of (ctx : Context) : list json :=
  Json2.as_list
    (Json.field (Json2.entries (Json2.as_map (Json.field (stash ctx) "itemRecord"))) "subjects").

(** The uri of a subject as the templates compare it: upper-cased, the
    empty string when the subject has none. *)
Definition uri_of (subject : json) : string :=
  Util.toUpper
    (Spec.substitute_empty (Json.fieldS (Json2.entries (Json2.as_map subject)) "uri")).

(** The key of a subject term, and the key that finds nothing. *)
Definition term_key (uri : string) : list (string * AttributeValue) :=
  [("PK", AttrS "SUBJECTTERM"); ("SK", AttrS ("URI#" ++ uri))].

Definition no_key : list (string * AttributeValue) :=
  [("PK", AttrS "NoKeyToFind"); ("SK", AttrS "YieldEmptyResultSet")].

(** A subject without a uri: none, null or blank. *)
Definition has_no_uri (subject : json) : bool :=
  String.eqb (Spec.substitute_empty (Json.fieldS (Json2.entries (Json2.as_map subject)) "uri")) "".

(** [$context.result.data.<table>] of a batch result. *)
Definition batch_items (tableName : string) (result : json) : list json :=
  Json2.as_list
    (Json.field (Json2.entries (Json2.as_map (Json.field (Json2.entries (Json2.as_map result))
                                                "data"))) tableName).

End SubjectSpec.

Module ListingSpec.

(** The one query [listSupplementalDataRecords] sends. *)
Definition supplemental_query : Request :=
  Req.queryIndex "GSI1" [CEq "GSI1PK" (AttrS "SUPPLEMENTALDATA")].

(** Whether [value] passes the filter [given]: no filter (none, null or
    blank), or the same text without regard to case. *)
Definition wanted (given value : option string) : bool :=
  let given := Spec.substitute_empty given in
  String.eqb given "" || Json2.eqS (Util.toUpper' value) (Some (Util.toUpper given)).

Definition supplemental_wanted (ctx : Context) (item : json) : bool :=
  let rec := Json2.entries (Json2.as_map item) in
  wanted (arg ctx "id") (Json.fieldS rec "id")
  && wanted (arg ctx "websiteId") (Json.fieldS rec "websiteId").

Definition QueryListSupplementalDataRecordsResolver : Resolver :=
  unit_resolver "QueryListSupplementalDataRecordsResolver"
    QueryListSupplementalDataRecordsResolver_request
    QueryListSupplementalDataRecordsResolver_response.

Definition QueryGetItemResolver (set_null_allowed : bool) (tableName : string) : Resolver :=
  pipeline_resolver "QueryGetItemResolver" QueryGetItemResolver_request
    [getMergedItemRecordFunction set_null_allowed; expandSubjectTermsFunction set_null_allowed tableName].

(** The query of [getMergedItemRecordFunction] for an item id. *)
Definition item_query (id : option string) : Request :=
  Req.queryTable [CEq "PK" (AttrS ("ITEM#" ++ Spec.normalize id))].

(** The identifier [getItem] looks up: [TemplateSpec.merged_id] with the
    [id] argument in the stash. *)
Definition asked_id (set_null_allowed : bool) (ctx : Context) : option string :=
  match src ctx "itemMetadataId" with
  | Some m => Some m
  | None =>
      if set_null_allowed then None
      else Util.defaultIfNullOrBlank
             (Util.defaultIfNullOrBlank (arg ctx "id") (src ctx "itemId"))
             (src ctx "id")
  end.

End ListingSpec.

Module PortfolioSpec.
Import TemplateSpec.

(** [$privacy] of [savePortfolioCollection]. *)
Definition privacy_of (ctx : Context) : string :=
  with_default "private" (arg ctx "privacy").

(** [$portfolioCollectionId] of [savePortfolioCollection]: the argument,
    or [$util.autoId()] when it is blank. *)
Definition collection_id (ctx : Context) : string :=
  Spec.normalize (Util.defaultIfNullOrBlank (arg ctx "portfolioCollectionId")
                    (Some (autoId ctx))).

(** The key attributes a request gives the record it names. *)
Definition stored (req : Request) : Obj :=
  map (fun p => (fst p, match snd p with AttrS s => JStr s | _ => JNull end))
      (Req.key_values req).

(** Whether a record meets every conjunct of the key condition of a query. *)
Definition meets (item : Obj) (q : Request) : bool :=
  forallb (Dynamo.holds item) (query q).

(** The prefix [findPortfolioContentForUserFunction] looks for: the user,
    and the collection when one is given. *)
Definition find_prefix (user collection : option string) : string :=
  if String.eqb (Spec.normalize collection) ""
  then "USER#" ++ Spec.normalize user
  else "USER#" ++ Spec.normalize user ++ "#" ++ Spec.normalize collection.

Definition portfolio_query (prefix : string) : Request :=
  Req.queryTable [CEq "PK" (AttrS "PORTFOLIO"); CBeginsWith "SK" (AttrS prefix)].

Definition record_key (item : Obj) : list (string * AttributeValue) :=
  [("PK", Json2.toStringAttr (Json.fieldS item "PK"));
   ("SK", Json2.toStringAttr (Json.fieldS item "SK"))].

(** The batch [deletePortfolioContentForUserFunction] sends for the
    records found; a placeholder key when there is none. *)
Definition delete_request (found : list Obj) : Request :=
  Req.batchOp "BatchDeleteItem"
    (if VMap.isEmpty found then [SubjectSpec.no_key] else map record_key found).

Definition MutationRemovePortfolioUserResolver : Resolver :=
  pipeline_resolver "MutationRemovePortfolioUserResolver"
    MutationRemovePortfolioUserResolver_request
    [findPortfolioContentForUserFunction; deletePortfolioContentForUserFunction].

Definition MutationRemovePortfolioCollectionResolver : Resolver :=
  pipeline_resolver "MutationRemovePortfolioCollectionResolver"
    MutationRemovePortfolioCollectionResolver_request
    [findPortfolioContentForUserFunction; deletePortfolioContentForUserFunction].

End PortfolioSpec.

(** A sample table and sample requests of the resolvers. *)
Module SampleTable.

Definition record (pk sk : string) (rest : Obj) : Obj :=
  (("PK", JStr pk) :: ("SK", JStr sk) :: rest)%list.

(** The portfolio of the user "jdoe", with two collections whose ids
    start alike, a collection of the user "jdoel", and two supplemental
    data records of one item. *)
Definition table : list Obj :=
  [record "PORTFOLIO" "USER#JDOE" [("TYPE", JStr "PortfolioUser")];
   record "PORTFOLIO" "USER#JDOE#TRIP" [("TYPE", JStr "PortfolioCollection")];
   record "PORTFOLIO" "USER#JDOE#TRIP#ITEM1" [("TYPE", JStr "PortfolioItem")];
   record "PORTFOLIO" "USER#JDOE#TRIPS" [("TYPE", JStr "PortfolioCollection")];
   record "PORTFOLIO" "USER#JDOEL#ALBUM" [("TYPE", JStr "PortfolioCollection")];
   record "ITEM#XYZ" "SUPPLEMENTALDATA#MARBLE"
     [("GSI1PK", JStr "SUPPLEMENTALDATA"); ("id", JStr "xyz"); ("websiteId", JStr "Marble")];
   record "ITEM#XYZ" "SUPPLEMENTALDATA#INQUISITIONS"
     [("GSI1PK", JStr "SUPPLEMENTALDATA"); ("id", JStr "xyz");
      ("websiteId", JStr "Inquisitions")]].

Definition dynamo : DataSource := Dynamo.source 10 table SampleRun.quiet.

(** A data source whose every operation fails. *)
Definition broken : DataSource := fun _ => (JNull, Some SampleRun.failure).

(** Removing the collection "trip" of the signed-in user. *)
Definition remove_trip : Context :=
  SampleRun.signed_in [("portfolioCollectionId", JStr "trip")].

(** Saving and reading an item whose id has a space in it. *)
Definition spaced_item : Context :=
  SampleRun.signed_in [("portfolioCollectionId", JStr "trip");
                       ("portfolioItemId", JStr "item 1")].

(** Listing the supplemental data of one website. *)
Definition of_marble : Context := SampleRun.context [("websiteId", JStr "marble")] [] None.

(** The stash of [expandSubjectTermsFunction] for an item with a subject
    that has a uri and one that has none, and a batch result without
    terms. *)
Definition two_subjects : Context :=
  SampleRun.context []
    [("itemRecord",
      JMap [("id", JStr "abc");
            ("subjects",
             JList [JMap [("term", JStr "Saints")];
                    JMap [("term", JStr "Art"); ("uri", JStr "http://example.org/art")]])])]
    None.

(** The result of the item query with a supplemental data record listed
    before the item record. *)
Definition note_record : json :=
  JMap [("PK", JStr "ITEM#ABC"); ("SK", JStr "A#NOTE"); ("TYPE", JStr "SupplementalData");
        ("websiteId", JStr "all"); ("additionalNotes", JStr "A note")].

Definition item_record : json :=
  JMap [("PK", JStr "ITEM#ABC"); ("SK", JStr "ITEM#ABC"); ("TYPE", JStr "Item");
        ("id", JStr "abc"); ("title", JStr "A title")].

Definition merged : Context :=
  with_result (SampleRun.context [] [] None)
    (JMap [("items", JList [note_record; item_record])]) None.

Definition no_terms : DataSource :=
  fun _ => (JMap [("data", JMap [(SampleVtl.tableName, JList [])])], None).

End SampleTable.

(* ================================================================== *)
(** * Properties *)

Unset Implicit Arguments.

(** ** The update expression builder *)

Module BuilderFacts.
Import Builder.

Lemma append_assoc (a b c : string) : (a ++ b) ++ c = a ++ (b ++ c).
Proof. induction a as [|x a IH]; cbn; [reflexivity|now rewrite IH]. Qed.

Lemma append_nil_r (a : string) : a ++ "" = a.
Proof. induction a as [|x a IH]; cbn; [reflexivity|now rewrite IH]. Qed.

(** The loops extend the expression they are given. *)
Lemma foreach_set_app e l : foreach_set e l = e ++ foreach_set "" l.
Proof.
  revert e. induction l as [|x l IH]; intros e; cbn [foreach_set].
  - now rewrite append_nil_r.
  - rewrite IH. rewrite (IH (if hasNext l then _ else _)).
    destruct (hasNext l); repeat (rewrite append_assoc || cbn [append]); reflexivity.
Qed.

Lemma foreach_add_app e l : foreach_add e l = e ++ foreach_add "" l.
Proof.
  revert e. induction l as [|x l IH]; intros e; cbn [foreach_add].
  - now rewrite append_nil_r.
  - rewrite IH. rewrite (IH (if hasNext l then _ else _)).
    destruct (hasNext l); repeat (rewrite append_assoc || cbn [append]); reflexivity.
Qed.

Lemma foreach_remove_app e l : foreach_remove e l = e ++ foreach_remove "" l.
Proof.
  revert e. induction l as [|x l IH]; intros e; cbn [foreach_remove].
  - now rewrite append_nil_r.
  - rewrite IH. rewrite (IH (if hasNext l then _ else _)).
    destruct (hasNext l); repeat (rewrite append_assoc || cbn [append]); reflexivity.
Qed.

(** The loops write their entries separated by commas. *)
Lemma foreach_set_concat l :
  foreach_set "" l
  = String.concat "," (map (fun e => " " ++ fst e ++ " = " ++ snd e) l).
Proof.
  induction l as [|x l IH]; [reflexivity|].
  cbn [foreach_set map String.concat]. rewrite foreach_set_app, IH.
  destruct l as [|y l]; cbn [hasNext VMap.isEmpty negb map].
  - cbn. now rewrite append_nil_r.
  - repeat (rewrite append_assoc || cbn [append]); reflexivity.
Qed.

Lemma foreach_remove_concat l :
  foreach_remove "" l = String.concat "," (map (fun e => " " ++ e) l).
Proof.
  induction l as [|x l IH]; [reflexivity|].
  cbn [foreach_remove map String.concat]. rewrite foreach_remove_app, IH.
  destruct l as [|y l]; cbn [hasNext VMap.isEmpty negb map].
  - cbn. now rewrite append_nil_r.
  - repeat (rewrite append_assoc || cbn [append]); reflexivity.
Qed.


Lemma put_fresh {V} k (v : V) m :
  ~ In k (VMap.keys m) -> VMap.put k v m = app m [(k, v)].
Proof.
  induction m as [|[k' v'] m IH]; cbn; [reflexivity|].
  intros H. destruct (String.eqb_spec k k') as [->|_]; [tauto|].
  rewrite IH; tauto.
Qed.

Lemma keys_app {V} (a b : list (string * V)) : VMap.keys (app a b) = app (VMap.keys a) (VMap.keys b).
Proof. apply map_app. Qed.


(** What the classifying loop collects from entries with distinct keys. *)
Lemma classify_fold l :
  forall acc,
    NoDup (VMap.keys l) ->
    (forall k, In k (VMap.keys l) ->
       ~ In ("#" ++ k) (VMap.keys (expSet acc))
       /\ ~ In (":" ++ k) (VMap.keys (expValues acc))) ->
    let r := fold_left classify l acc in
    expSet r = app (expSet acc) (map (fun e => ("#" ++ fst e, ":" ++ fst e)) (Spec.nonnull l))
    /\ expValues r
       = app (expValues acc)
           (map (fun e => (":" ++ fst e, Json.toDynamoDB (snd e))) (Spec.nonnull l))
    /\ expRemove r = app (expRemove acc) (map (fun e => "#" ++ fst e) (Spec.nulls l))
    /\ expAdd r = expAdd acc.
Proof.
  induction l as [|[k v] l IH]; intros acc Hnd Hfresh.
  - cbn. now rewrite !app_nil_r.
  - cbn [fold_left]. inversion Hnd as [|? ? Hk Hnd']; subst.
    destruct (Hfresh k (or_introl eq_refl)) as [Hs Hv].
    assert (E : expSet (classify acc (k, v))
                = app (expSet acc) (map (fun e => ("#" ++ fst e, ":" ++ fst e)) (Spec.nonnull [(k, v)]))
              /\ expValues (classify acc (k, v))
                 = app (expValues acc)
                     (map (fun e => (":" ++ fst e, Json.toDynamoDB (snd e))) (Spec.nonnull [(k, v)]))
              /\ expRemove (classify acc (k, v))
                 = app (expRemove acc) (map (fun e => "#" ++ fst e) (Spec.nulls [(k, v)]))
              /\ expAdd (classify acc (k, v)) = expAdd acc).
    { unfold classify, Spec.nonnull, Spec.nulls. cbn [fst snd filter].
      destruct (Json.is_null v); cbn [negb expSet expValues expRemove expAdd map fst snd].
      - rewrite !app_nil_r. unfold VMap.add. tauto.
      - rewrite !put_fresh by assumption. rewrite !app_nil_r. tauto. }
    destruct E as (E1 & E2 & E3 & E4).
    destruct (IH (classify acc (k, v)) Hnd') as (F1 & F2 & F3 & F4).
    + intros k' Hk'. destruct (Hfresh k' (or_intror Hk')) as [H1 H2].
      rewrite E1, E2, !keys_app. unfold Spec.nonnull. cbn [filter snd].
      destruct (Json.is_null v); cbn; rewrite ?app_nil_r.
      * tauto.
      * split; intros H; apply in_app_or in H as [H|[H|[]]]; try tauto.
        -- injection H as ->. now apply Hk.
        -- injection H as ->. now apply Hk.
    + cbn zeta. rewrite F1, F2, F3, F4, E1, E2, E3, E4.
      rewrite <- !app_assoc, <- !map_app.
      change ((k, v) :: l) with (app [(k, v)] l).
      unfold Spec.nonnull, Spec.nulls. rewrite !filter_app. tauto.
Qed.

Lemma NoDup_keys_filter {V} (f : string * V -> bool) (l : list (string * V)) :
  NoDup (VMap.keys l) -> NoDup (VMap.keys (filter f l)).
Proof.
  induction l as [|x l IH]; cbn; [auto|].
  intros H. inversion H as [|? ? Hx Hl]; subst.
  destruct (f x); cbn; auto. constructor; auto.
  intros Hin. apply Hx. unfold VMap.keys in *. apply in_map_iff in Hin as (y & E & Hy).
  apply filter_In in Hy as [Hy _]. rewrite <- E. now apply in_map.
Qed.

(** What [collect] gathers from an argument map. *)
Lemma collect_spec (args : Obj) :
  NoDup (VMap.keys args) ->
  expSet (collect args) = map (fun k => ("#" ++ k, ":" ++ k)) (Spec.set_keys args)
  /\ expValues (collect args)
     = map (fun e => (":" ++ fst e, Json.toDynamoDB (snd e))) (Spec.nonnull (Spec.entries args))
  /\ expRemove (collect args) = map (fun k => "#" ++ k) (Spec.remove_keys args)
  /\ expAdd (collect args) = [].
Proof.
  intros Hnd. unfold collect.
  destruct (classify_fold (Spec.entries args) empty) as (E1 & E2 & E3 & E4).
  - now apply NoDup_keys_filter.
  - cbn. tauto.
  - unfold Spec.entries in *. rewrite E1, E2, E3, E4. cbn.
    unfold Spec.set_keys, Spec.remove_keys, Spec.nonnull, Spec.nulls, Spec.entries.
    rewrite !map_map. tauto.
Qed.


Lemma isEmpty_map {A B} (f : A -> B) l : VMap.isEmpty (map f l) = VMap.isEmpty l.
Proof. now destruct l. Qed.

Lemma set_part (ks : list string) :
  (if negb (VMap.isEmpty ks)
   then foreach_set "SET" (map (fun k => ("#" ++ k, ":" ++ k)) ks) else "")
  = Spec.set_clause ks.
Proof.
  destruct ks as [|k ks]; [reflexivity|]. cbn [VMap.isEmpty negb].
  rewrite foreach_set_app, foreach_set_concat, map_map. reflexivity.
Qed.

Lemma remove_part e (ks : list string) :
  (if negb (VMap.isEmpty ks)
   then foreach_remove (e ++ " REMOVE") (map (fun k => "#" ++ k) ks) else e)
  = e ++ Spec.remove_clause ks.
Proof.
  destruct ks as [|k ks]; [cbn; now rewrite append_nil_r|]. cbn [VMap.isEmpty negb].
  rewrite foreach_remove_app, foreach_remove_concat, map_map.
  unfold Spec.remove_clause. now rewrite append_assoc.
Qed.

Lemma in_keys_filter (f : string * json -> bool) (args : Obj) k :
  NoDup (VMap.keys args) ->
  In k (map fst (filter f args)) <-> exists v, In (k, v) args /\ f (k, v) = true.
Proof.
  intros _. rewrite in_map_iff. split.
  - intros ([k' v] & <- & H). apply filter_In in H. eauto.
  - intros (v & H1 & H2). exists (k, v). split; auto. now apply filter_In.
Qed.

Lemma NoDup_keys_unique {V} (m : list (string * V)) k v v' :
  NoDup (VMap.keys m) -> In (k, v) m -> In (k, v') m -> v = v'.
Proof.
  induction m as [|[k0 v0] m IH]; cbn; [tauto|].
  intros H. inversion H as [|? ? Hk Hm]; subst.
  intros [E|H1] [E'|H2].
  - congruence.
  - injection E as -> ->. exfalso. apply Hk. change k with (fst (k, v')). now apply in_map.
  - injection E' as -> ->. exfalso. apply Hk. change k with (fst (k, v)). now apply in_map.
  - eauto.
Qed.

Lemma entries_In (args : Obj) k v :
  In (k, v) (Spec.entries args)
  <-> In (k, v) args /\ k <> "itemId" /\ k <> "expectedVersion".
Proof.
  unfold Spec.entries, VMap.copyAndRemoveAllKeys. rewrite filter_In.
  cbn [fst VMap.mem existsb]. rewrite orb_false_r, negb_true_iff, orb_false_iff.
  rewrite !String.eqb_neq. tauto.
Qed.

(** C1, as amended.  For an argument map, each entry other than "itemId"
    and "expectedVersion" is in the SET clause when its value is not null
    and in the REMOVE clause when it is null, never in both; those two keys
    are in neither; and the expression is the SET clause over the non-null
    entries followed by the REMOVE clause over the null ones, where
    [updateSupplementalDataRecordFunction] ends a SET clause that is not
    empty with the assignment of dateAddedToDynamo. *)
Theorem C1_update_expression_set_then_remove :
  forall object_truth now (args : Obj),
    NoDup (VMap.keys args) ->
    let sets := Spec.set_keys args in
    let removes := Spec.remove_keys args in
    (forall k v, In (k, v) args -> k <> "itemId" -> k <> "expectedVersion" ->
       (v <> JNull /\ In k sets /\ ~ In k removes)
       \/ (v = JNull /\ In k removes /\ ~ In k sets))
    /\ (forall k, In k sets \/ In k removes -> k <> "itemId" /\ k <> "expectedVersion")
    /\ expression (updateItemFunction_update object_truth (Some args))
       = Spec.set_clause sets ++ Spec.remove_clause removes
    /\ expression (updateSupplementalDataFunction_update object_truth (Some args))
       = Spec.set_clause sets ++ Spec.remove_clause removes
    /\ expression (updateSupplementalDataRecordFunction_update object_truth now (Some args))
       = Spec.set_clause sets ++ Spec.dateAdded_if sets ++ Spec.remove_clause removes.
Proof.
  intros ot now args Hnd sets removes.
  assert (Hne : NoDup (VMap.keys (Spec.entries args))) by now apply NoDup_keys_filter.
  assert (Hs : forall k, In k sets <-> exists v, In (k, v) (Spec.entries args) /\ v <> JNull).
  { intros k. unfold sets, Spec.set_keys. rewrite in_keys_filter by exact Hne.
    split; intros (v & H1 & H2); exists v; split; auto; cbn in *.
    - intros ->. discriminate.
    - now destruct v. }
  assert (Hr : forall k, In k removes <-> In (k, JNull) (Spec.entries args)).
  { intros k. unfold removes, Spec.remove_keys. rewrite in_keys_filter by exact Hne.
    split.
    - intros (v & H1 & H2). cbn in H2. destruct v; try discriminate. exact H1.
    - intros H. exists JNull. split; auto. }
  destruct (collect_spec args Hnd) as (E1 & E2 & E3 & E4).
  fold sets in E1. fold removes in E3.
  split; [|split; [|split; [|split]]].
  - intros k v Hin H1 H2.
    assert (He : In (k, v) (Spec.entries args)) by (apply entries_In; tauto).
    destruct v; [right|left..]; rewrite Hs, Hr; repeat split; eauto; try discriminate;
      try (intros (v' & Hv' & Hn); apply Hn;
           now apply (NoDup_keys_unique (Spec.entries args) k));
      try (intros Hin'; pose proof (NoDup_keys_unique _ _ _ _ Hne He Hin'); discriminate);
      try (eexists; split; [exact He|discriminate]).
  - intros k [H|H].
    + apply Hs in H as (v & H & _). apply entries_In in H. tauto.
    + apply Hr in H. apply entries_In in H. tauto.
  - unfold updateItemFunction_update. cbn [expression Json2.entries].
    rewrite E1, E3, E4. cbn [VMap.isEmpty negb]. rewrite !isEmpty_map.
    rewrite set_part. apply remove_part.
  - unfold updateSupplementalDataFunction_update. cbn [expression Json2.entries].
    rewrite E1, E3, E4. cbn [VMap.isEmpty negb]. rewrite !isEmpty_map.
    rewrite set_part. apply remove_part.
  - unfold updateSupplementalDataRecordFunction_update. cbn [expression Json2.entries].
    rewrite E1, E3, E4. rewrite !isEmpty_map.
    destruct sets as [|k ks] eqn:Es.
    + cbn [VMap.isEmpty negb fst]. rewrite remove_part. reflexivity.
    + cbn [VMap.isEmpty negb fst]. rewrite remove_part.
      rewrite foreach_set_app, foreach_set_concat, map_map.
      unfold Spec.set_clause, Spec.dateAdded_if. now rewrite !append_assoc.
Qed.


Lemma sample_args_distinct : NoDup (VMap.keys SampleVtl.args).
Proof. cbn. repeat constructor; cbn; intuition discriminate. Qed.

(** The sample map has distinct keys; its expression. *)
Lemma C1_witness :
  expression (updateItemFunction_update SampleVtl.object_truth (Some SampleVtl.args))
  = "SET #title = :title, #sequence = :sequence REMOVE #description".
Proof.
  exact (proj1 (proj2 (proj2
    (C1_update_expression_set_then_remove SampleVtl.object_truth SampleVtl.now
       SampleVtl.args sample_args_distinct)))).
Defined.

(** C1 as stated fails for [updateSupplementalDataRecordFunction]: with one
    non-null entry its expression is not the SET clause over that entry. *)
Lemma C1_counterexample :
  expression (updateSupplementalDataRecordFunction_update SampleVtl.object_truth
                SampleVtl.now (Some SampleVtl.one_arg))
  = "SET #title = :title, dateAddedToDynamo = if_not_exists(dateAddedToDynamo, :dateAddedToDynamo)"
  /\ expression (updateSupplementalDataRecordFunction_update SampleVtl.object_truth
                   SampleVtl.now (Some SampleVtl.one_arg))
     <> Spec.set_clause (Spec.set_keys SampleVtl.one_arg)
        ++ Spec.remove_clause (Spec.remove_keys SampleVtl.one_arg).
Proof.
  split; [reflexivity|]. vm_compute. intros H. discriminate H.
Qed.

(** The ADD and REMOVE parts follow what precedes them. *)
Lemma expression_rest acc s :
  (let expression :=
     if negb (VMap.isEmpty (expAdd acc))
     then foreach_add (s ++ " ADD") (expAdd acc) else s in
   if negb (VMap.isEmpty (expRemove acc))
   then foreach_remove (expression ++ " REMOVE") (expRemove acc) else expression)
  = s
    ++ (if negb (VMap.isEmpty (expAdd acc)) then foreach_add " ADD" (expAdd acc) else "")
    ++ (if negb (VMap.isEmpty (expRemove acc))
        then foreach_remove " REMOVE" (expRemove acc) else "").
Proof.
  cbn zeta.
  destruct (negb (VMap.isEmpty (expAdd acc))), (negb (VMap.isEmpty (expRemove acc)));
    rewrite ?(foreach_remove_app (_ ++ _)), ?(foreach_add_app (_ ++ _)),
      ?(foreach_add_app " ADD"), ?(foreach_remove_app " REMOVE");
    repeat (rewrite append_assoc || rewrite append_nil_r || cbn [append]); reflexivity.
Qed.

(** C8, as amended.  The copies of the builder in [updateItemFunction] and
    [updateSupplementalDataFunction] give the same update for every
    argument map.  The copy in [updateSupplementalDataRecordFunction]
    gives the same names and condition; when the SET clause is empty it
    gives the same expression and values; otherwise its expression has the
    assignment of dateAddedToDynamo after the SET clause and its values
    bind :dateAddedToDynamo to the current time. *)
Theorem C8_builder_copies_agree :
  forall object_truth now (args : option Obj),
    let item := updateItemFunction_update object_truth args in
    let record := updateSupplementalDataRecordFunction_update object_truth now args in
    let acc := collect (Json2.entries args) in
    let set_part :=
      if negb (VMap.isEmpty (expSet acc)) then foreach_set "SET" (expSet acc) else "" in
    let rest :=
      (if negb (VMap.isEmpty (expAdd acc)) then foreach_add " ADD" (expAdd acc) else "")
      ++ (if negb (VMap.isEmpty (expRemove acc))
          then foreach_remove " REMOVE" (expRemove acc) else "") in
    updateSupplementalDataFunction_update object_truth args = item
    /\ expressionNames record = expressionNames item
    /\ condition record = condition item
    /\ expression item = set_part ++ rest
    /\ expression record
       = set_part
         ++ (if negb (VMap.isEmpty (expSet acc)) then Spec.dateAddedToDynamo else "")
         ++ rest
    /\ expressionValues record
       = (if negb (VMap.isEmpty (expSet acc))
          then VMap.put ":dateAddedToDynamo" (AttrS now) (expressionValues item)
          else expressionValues item).
Proof.
  intros ot now args item record acc set_part rest.
  split; [reflexivity|].
  split.
  { unfold record, item, updateSupplementalDataRecordFunction_update, updateItemFunction_update.
    now destruct (negb (VMap.isEmpty (expSet (collect (Json2.entries args))))). }
  split.
  { unfold record, item, updateSupplementalDataRecordFunction_update, updateItemFunction_update.
    now destruct (negb (VMap.isEmpty (expSet (collect (Json2.entries args))))). }
  split; [|split].
  - unfold item, updateItemFunction_update. cbn [expression]. fold acc.
    exact (expression_rest acc set_part).
  - unfold record, updateSupplementalDataRecordFunction_update. fold acc.
    unfold set_part.
    destruct (negb (VMap.isEmpty (expSet acc))) eqn:Hs; cbn [expression fst snd].
    + rewrite <- append_assoc. apply expression_rest.
    + exact (expression_rest acc "").
  - unfold record, item, updateSupplementalDataRecordFunction_update, updateItemFunction_update.
    fold acc. now destruct (negb (VMap.isEmpty (expSet acc))).
Qed.

(** C8 as stated fails: with one non-null entry the values of
    [updateSupplementalDataRecordFunction] are not those of
    [updateItemFunction], so the expression is not all they differ in. *)
Lemma C8_counterexample :
  expressionValues (updateSupplementalDataRecordFunction_update SampleVtl.object_truth
                      SampleVtl.now (Some SampleVtl.one_arg))
  = [(":title", AttrS "A title"); (":dateAddedToDynamo", AttrS SampleVtl.now)]
  /\ expressionValues (updateItemFunction_update SampleVtl.object_truth
                         (Some SampleVtl.one_arg))
     = [(":title", AttrS "A title")]
  /\ expressionValues (updateSupplementalDataRecordFunction_update SampleVtl.object_truth
                         SampleVtl.now (Some SampleVtl.one_arg))
     <> expressionValues (updateItemFunction_update SampleVtl.object_truth
                            (Some SampleVtl.one_arg)).
Proof.
  split; [reflexivity|]. split; [reflexivity|]. vm_compute. intros H. discriminate H.
Qed.

End BuilderFacts.

(** ** The mapping templates *)

Module TemplateFacts.

Import TemplateSpec.

(** *** The idiom and the key of [getMergedItemRecordFunction] *)

Lemma toReplace_space s : Util.toReplace s " " "" = Spec.remove_spaces s.
Proof.
  unfold Util.toReplace. induction s as [|c s IH]; [reflexivity|].
  cbn [Util.replace_from Spec.remove_spaces Util.startsWith String.length Nat.sub].
  rewrite Ascii.eqb_sym.
  destruct (Ascii.eqb c " "); cbn; [exact IH | now rewrite IH].
Qed.

Lemma default_empty v :
  Util.defaultIfNullOrBlank v (Some "") = Some (Spec.substitute_empty v).
Proof. destruct v as [s|]; cbn; [now destruct (Util.isBlank s)|reflexivity]. Qed.

Lemma substitute_empty_again v :
  Spec.substitute_empty (Some (Spec.substitute_empty v)) = Spec.substitute_empty v.
Proof.
  destruct v as [s|]; cbn; [|reflexivity].
  destruct (Util.isBlank s) eqn:E; cbn; [reflexivity|now rewrite E].
Qed.

(** The four-line idiom of the templates computes the normalized
    identifier of the specification. *)
Lemma idiom v :
  Util.toReplace' (Util.toUpper' (Util.defaultIfNullOrBlank v (Some ""))) " " ""
  = Some (Spec.normalize v).
Proof.
  rewrite default_empty. cbn [Util.toUpper' Util.toReplace' option_map].
  unfold Spec.normalize. now rewrite toReplace_space.
Qed.




(** *** The error guard of the response templates *)

(** Decide [guards_error] of the template at hand. *)
Ltac guard_case :=
  match goal with
  | |- context [guards_error ?t] =>
      let b := eval vm_compute in (guards_error t) in
      change (guards_error t) with b; cbv iota
  end.

(** Evaluate the response template at hand under [He : error ctx = Some e]. *)
Ltac response_case He :=
  unfold getMergedItemRecordFunction, expandSubjectTermsFunction,
    findPortfolioContentForUserFunction, deletePortfolioContentForUserFunction,
    updateSupplementalDataRecordFunction, Rev1_getMergedItemRecordFunction,
    Rev1_updateSupplementalDataRecordFunction, updateItemFunction,
    updateSupplementalDataFunction;
  cbn [t_response t_name r_template unit_resolver pipeline_resolver];
  unfold getMergedItemRecordFunction_response, expandSubjectTermsFunction_response,
    findPortfolioContentForUserFunction_response, deletePortfolioContentForUserFunction_response,
    updateSupplementalDataRecordFunction_response, Rev1_getMergedItemRecordFunction_response,
    QueryListSupplementalDataRecordsResolver_response, guarded_result,
    dynamoDbResultItem, page_blank_to_null, page_as_is,
    ItemMetadataChildrenResolver_response, QueryGetExposedPortfolioCollectionResolver_response;
  rewrite ?He; first [reflexivity | eexists; eexists; reflexivity].

(** C3.  Every pipeline function guards its response, and so does
    [QueryListSupplementalDataRecordsResolver]: when [$ctx.error] is set, a
    guarded response template raises the field error
    [$util.error($ctx.error.message, $ctx.error.type)].  Every other
    resolver's response template returns a result even then. *)
Theorem C3_error_forwarded_by_guarded_templates :
  forall set_null_allowed object_truth tableName t ctx e,
    In t (response_templates set_null_allowed object_truth tableName) ->
    error ctx = Some e ->
    (In t (functions set_null_allowed object_truth tableName) -> guards_error t = true)
    /\ if guards_error t
       then t_response t ctx = FieldError (message e) (errorType e)
       else exists body st, t_response t ctx = Returned body st.
Proof.
  intros sna ot tn t ctx e Hin He.
  assert (A : Forall (fun t => guards_error t = true) (functions sna ot tn)).
  { repeat (apply Forall_cons; [vm_compute; reflexivity|]). apply Forall_nil. }
  split; [intro Hf; exact (proj1 (Forall_forall _ _) A t Hf)|].
  revert t Hin. apply Forall_forall.
  unfold response_templates, functions, resolvers, rev2_functions, rev1_functions,
    rev2_resolvers, rev1_resolvers.
  cbn [map app].
  repeat (apply Forall_cons; [guard_case; response_case He|]).
  apply Forall_nil.
Qed.

Lemma C3_witness :
  In (Rev1_getMergedItemRecordFunction false)
     (response_templates false SampleVtl.object_truth SampleVtl.tableName)
  /\ error SampleRun.failed = Some SampleRun.failure
  /\ t_response (Rev1_getMergedItemRecordFunction false) SampleRun.failed
     = FieldError "The conditional request failed" "DynamoDB:ConditionalCheckFailedException".
Proof.
  assert (Hin : In (Rev1_getMergedItemRecordFunction false)
                  (response_templates false SampleVtl.object_truth SampleVtl.tableName)).
  { unfold response_templates. apply in_or_app. left.
    unfold functions. apply in_or_app. right. left. reflexivity. }
  split; [exact Hin|split; [reflexivity|]].
  exact (proj2 (C3_error_forwarded_by_guarded_templates false SampleVtl.object_truth
           SampleVtl.tableName _ SampleRun.failed SampleRun.failure Hin eq_refl)).
Defined.

(** C3, refuted as stated: the response template of
    [QueryListWebsitesResolver] renders a result although [$ctx.error] is
    set. *)
Lemma C3_counterexample :
  In (r_template (unit_resolver "QueryListWebsitesResolver"
        QueryListWebsitesResolver_request page_as_is))
     (response_templates false SampleVtl.object_truth SampleVtl.tableName)
  /\ error SampleRun.failed = Some SampleRun.failure
  /\ t_response (r_template (unit_resolver "QueryListWebsitesResolver"
        QueryListWebsitesResolver_request page_as_is)) SampleRun.failed
     = Returned (JMap [("items", JNull); ("nextToken", JNull)]) [].
Proof.
  split; [|split; reflexivity].
  unfold response_templates. apply in_or_app. right. apply in_map.
  unfold resolvers. apply in_or_app. left. unfold rev2_resolvers.
  repeat (first [left; reflexivity | right]).
Qed.

(** *** Upper-casing and space removal *)

Lemma upper_ascii_idem c : Util.upper_ascii (Util.upper_ascii c) = Util.upper_ascii c.
Proof. destruct c as [[] [] [] [] [] [] [] []]; reflexivity. Qed.

Lemma upper_ascii_space c : Ascii.eqb (Util.upper_ascii c) " " = Ascii.eqb c " ".
Proof. destruct c as [[] [] [] [] [] [] [] []]; reflexivity. Qed.

Lemma toUpper_idem s : Util.toUpper (Util.toUpper s) = Util.toUpper s.
Proof. induction s as [|c s IH]; cbn; [reflexivity|]. now rewrite upper_ascii_idem, IH. Qed.

Lemma toUpper_remove_spaces s :
  Util.toUpper (Spec.remove_spaces s) = Spec.remove_spaces (Util.toUpper s).
Proof.
  induction s as [|c s IH]; cbn [Spec.remove_spaces Util.toUpper]; [reflexivity|].
  rewrite upper_ascii_space. destruct (Ascii.eqb c " "); cbn [Util.toUpper]; now rewrite IH.
Qed.

Lemma toUpper_normalize v : Util.toUpper (Spec.normalize v) = Spec.normalize v.
Proof. unfold Spec.normalize. now rewrite toUpper_remove_spaces, toUpper_idem. Qed.


Lemma remove_spaces_idem s : Spec.remove_spaces (Spec.remove_spaces s) = Spec.remove_spaces s.
Proof.
  induction s as [|c s IH]; cbn [Spec.remove_spaces]; [reflexivity|].
  destruct (Ascii.eqb c " ") eqn:E; [exact IH|].
  cbn [Spec.remove_spaces]. now rewrite E, IH.
Qed.

Lemma remove_spaces_normalize v : Spec.remove_spaces (Spec.normalize v) = Spec.normalize v.
Proof. unfold Spec.normalize. apply remove_spaces_idem. Qed.


Lemma exposed_key v :
  Util.toUpper ("PORTFOLIOCOLLECTION#" ++ Spec.normalize v)
  = "PORTFOLIOCOLLECTION#" ++ Spec.normalize v.
Proof.
  rewrite <- (toUpper_normalize v) at 2. reflexivity.
Qed.








(** *** Key attribute values *)

Lemma keys_wf_ok ctx req : keys_wf req = true -> keys_ok ctx req.
Proof.
  unfold keys_wf, keys_ok, key_shape. intros H a v Hin.
  rewrite forallb_forall in H. specialize (H _ Hin). unfold wf_pair in H. cbn [snd] in H.
  apply orb_true_iff in H. tauto.
Qed.

Lemma unit_requests ds n req resp ctx :
  requests ds (unit_resolver n req resp) ctx
  = match out_request (req (with_stash ctx [])) with Some r => [r] | None => [] end.
Proof.
  unfold requests, resolve, unit_resolver, invoke. cbn [r_functions r_template t_request].
  destruct (out_request (req (with_stash ctx []))); reflexivity.
Qed.

(** A unit resolver whose request has no conditional part: its keys are
    checked by computation for an arbitrary context. *)
Ltac unit_auto :=
  let ctx := fresh "ctx" in let req := fresh "req" in let Hin := fresh "Hin" in
  intros ctx req Hin; rewrite unit_requests in Hin; apply keys_wf_ok;
  revert Hin; generalize (with_stash ctx []); clear ctx; intros ctx Hin;
  match type of Hin with
  | In _ (match out_request ?x with _ => _ end) =>
      let E := fresh "E" in
      assert (E : match out_request x with Some r => keys_wf r | None => true end = true)
        by (vm_compute; reflexivity);
      destruct (out_request x); [destruct Hin as [<-|[]]; exact E | destruct Hin]
  end.

(** *** The map operations *)

Lemma get_put_same {V} k (v : V) m : VMap.get k (VMap.put k v m) = Some v.
Proof.
  induction m as [|[k' v'] m IH]; cbn; [now rewrite String.eqb_refl|].
  destruct (String.eqb k k') eqn:E; cbn; [now rewrite String.eqb_refl|now rewrite E].
Qed.

Lemma get_put_other {V} k k' (v : V) m :
  String.eqb k k' = false -> VMap.get k (VMap.put k' v m) = VMap.get k m.
Proof.
  intros Hk. induction m as [|[k2 v2] m IH]; cbn; [now rewrite Hk|].
  destruct (String.eqb k' k2) eqn:E; cbn.
  - apply String.eqb_eq in E. subst k2. now rewrite Hk.
  - now rewrite IH.
Qed.

Lemma get_put_inv {V} k k' (v x : V) m :
  VMap.get k (VMap.put k' x m) = Some v -> (k = k' /\ v = x) \/ VMap.get k m = Some v.
Proof.
  destruct (String.eqb k k') eqn:E.
  - apply String.eqb_eq in E. subst k'. rewrite get_put_same. intros [= <-]. now left.
  - rewrite get_put_other by exact E. now right.
Qed.

Lemma In_put {V} k (x : V) m p : In p (VMap.put k x m) -> p = (k, x) \/ In p m.
Proof.
  induction m as [|[k' v'] m IH]; cbn.
  - intros [<-|[]]. now left.
  - destruct (String.eqb k k'); cbn.
    + intros [<-|H]; [now left|right; now right].
    + intros [<-|H]; [right; now left|]. destruct (IH H); [now left|right; now right].
Qed.

Lemma field_put_same k v st : Json.field (stash_put k v st) k = v.
Proof. unfold Json.field, stash_put. now rewrite get_put_same. Qed.

Lemma field_put_other k k' v st :
  String.eqb k k' = false -> Json.field (stash_put k' v st) k = Json.field st k.
Proof. intros H. unfold Json.field, stash_put. now rewrite get_put_other. Qed.

Lemma startsWith_app p q s : Util.startsWith (p ++ q) s = true -> Util.startsWith p s = true.
Proof.
  revert s. induction p as [|a p IH]; intros s; cbn; [reflexivity|].
  destruct s as [|b s]; [discriminate|].
  intros H. apply andb_true_iff in H. destruct H as [H1 H2].
  rewrite H1. cbn. now apply IH.
Qed.

(** *** Running a pipeline *)

Lemma pipeline_requests ds n rq f fs ctx :
  requests ds (pipeline_resolver n rq (f :: fs)) ctx
  = fst (run_functions ds (f :: fs)
           (with_stash (with_stash ctx []) (out_stash (rq (with_stash ctx []))))).
Proof. reflexivity. Qed.

(** An invariant of the stash that every function keeps, and under which
    every function sends requests that meet [P], makes every request of
    the pipeline meet [P]. *)
Lemma run_functions_keys (I : Obj -> Prop) (P : Request -> Prop) ds fs :
  (forall f c, In f fs -> I (stash c) ->
     (forall req, In req (fst (invoke ds f c)) -> P req)
     /\ (forall body st, snd (invoke ds f c) = Returned body st -> I st)) ->
  forall ctx, I (stash ctx) ->
  forall req, In req (fst (run_functions ds fs ctx)) -> P req.
Proof.
  induction fs as [|f fs IH]; intros Hf ctx HI req Hin; [destruct Hin|].
  cbn [run_functions] in Hin.
  destruct (Hf f ctx (or_introl eq_refl) HI) as [Hreq Hst].
  destruct (snd (invoke ds f ctx)) as [m ty|body st] eqn:E; cbn [fst] in Hin.
  - now apply Hreq.
  - apply in_app_or in Hin. destruct Hin as [Hin|Hin]; [now apply Hreq|].
    apply IH with (ctx := with_result (with_stash ctx st) body None) (req := req).
    + intros g c Hg. apply Hf. now right.
    + cbn. exact (Hst body st eq_refl).
    + exact Hin.
Qed.

Lemma invoke_requests ds f c :
  fst (invoke ds f c)
  = match out_request (t_request f c) with Some r => [r] | None => [] end.
Proof. unfold invoke. now destruct (out_request (t_request f c)). Qed.

Lemma invoke_keys (P : Request -> Prop) ds f c :
  match out_request (t_request f c) with Some r => P r | None => True end ->
  forall req, In req (fst (invoke ds f c)) -> P req.
Proof.
  rewrite invoke_requests. destruct (out_request (t_request f c)); intros H req Hin.
  - destruct Hin as [<-|[]]. exact H.
  - destruct Hin.
Qed.

(** *** The functions of the item pipelines *)

Lemma getMerged_keys sna c :
  match out_request (getMergedItemRecordFunction_request sna c) with
  | Some r => keys_wf r = true
  | None => True
  end.
Proof. vm_compute. reflexivity. Qed.

Lemma forallb_concat {A} (f : A -> bool) ls :
  Forall (fun l => forallb f l = true) ls -> forallb f (concat ls) = true.
Proof.
  induction 1 as [|l ls Hl _ IH]; [reflexivity|].
  cbn. rewrite forallb_app, Hl, IH. reflexivity.
Qed.

Lemma batch_keys op ks : Forall wf_map ks -> keys_wf (Req.batchOp op ks) = true.
Proof. intros H. unfold keys_wf, Req.key_values. cbn. now apply forallb_concat. Qed.

Lemma subject_key_wf acc subject :
  Forall wf_map (fst acc) -> Forall wf_map (fst (subject_key acc subject)).
Proof.
  destruct acc as [keys uriList]. unfold subject_key. cbv zeta. intros H.
  match goal with |- context [if ?c then _ else _] => destruct c end; [|exact H].
  cbn [fst]. unfold VMap.add. apply Forall_app. split; [exact H|].
  constructor; [|constructor]. vm_compute. reflexivity.
Qed.

Lemma subject_fold_wf l : forall acc,
  Forall wf_map (fst acc) -> Forall wf_map (fst (fold_left subject_key l acc)).
Proof.
  induction l as [|s l IH]; intros acc H; [exact H|].
  cbn [fold_left]. apply IH. now apply subject_key_wf.
Qed.

Lemma placeholder_wf ks :
  Forall wf_map ks ->
  Forall wf_map
    (if negb (VMap.isEmpty ks) then ks
     else VMap.add ks [("PK", Json2.toStringAttr (Some "NoKeyToFind"));
                       ("SK", Json2.toStringAttr (Some "YieldEmptyResultSet"))]).
Proof.
  intros H. destruct ks; cbn; [|exact H].
  constructor; [|constructor]. vm_compute. reflexivity.
Qed.

Lemma expand_keys c :
  match out_request (expandSubjectTermsFunction_request c) with
  | Some r => keys_wf r = true
  | None => True
  end.
Proof.
  unfold expandSubjectTermsFunction_request. cbv zeta.
  match goal with |- context [fold_left subject_key ?l ?a] =>
    pose proof (subject_fold_wf l a (Forall_nil _)) as H;
    destruct (fold_left subject_key l a) as [keys uriList] end.
  cbn [fst] in H. apply placeholder_wf in H.
  destruct (negb (VMap.isEmpty keys)); cbn [out_request]; now apply batch_keys.
Qed.

(** *** The functions of the portfolio pipelines *)

Lemma find_keys c :
  match out_request (findPortfolioContentForUserFunction_request c) with
  | Some r => keys_wf r = true
  | None => True
  end.
Proof.
  unfold findPortfolioContentForUserFunction_request. cbv zeta.
  match goal with |- context [if ?c then _ else _] => destruct c end;
    vm_compute; reflexivity.
Qed.

Lemma In_firstn {A} n (l : list A) x : In x (firstn n l) -> In x l.
Proof.
  revert l. induction n as [|n IH]; intros [|a l]; cbn; try tauto.
  intros [->|H]; [now left|right; now apply IH].
Qed.

Lemma user_prefix_tagged rest y :
  Util.startsWith ("USER#" ++ rest) y = true -> Keys.tagged y = true.
Proof.
  intros H. apply startsWith_app in H. unfold Keys.tagged.
  apply orb_true_iff. right. apply existsb_exists. exists "USER".
  split; [|exact H]. unfold Keys.prefixes. cbn. tauto.
Qed.

Lemma find_records page table other c body st :
  snd (invoke (Dynamo.source page table other) findPortfolioContentForUserFunction c)
  = Returned body st ->
  records_ok st.
Proof.
  unfold invoke, findPortfolioContentForUserFunction.
  cbn [t_request t_response].
  unfold findPortfolioContentForUserFunction_request. cbv zeta. cbn [out_request out_stash].
  unfold findPortfolioContentForUserFunction_response, Dynamo.source.
  cbn [operation Req.queryTable String.eqb Ascii.eqb Bool.eqb].
  match goal with |- context [snd (other ?r)] => destruct (snd (other r)) end;
    cbn [fst snd with_result with_stash error result stash]; [discriminate|].
  intros [= _ <-]. unfold records_ok. rewrite field_put_same.
  cbn [Json2.as_map Json2.entries Json.field VMap.get String.eqb Ascii.eqb Bool.eqb
       Json2.as_list query].
  apply forallb_forall. intros item Hin.
  apply in_map_iff in Hin. destruct Hin as [obj [<- Hin]].
  apply In_firstn in Hin. unfold Dynamo.select in Hin. apply filter_In in Hin.
  destruct Hin as [_ Hq]. cbn [forallb] in Hq.
  apply andb_true_iff in Hq. destruct Hq as [Hpk Hsk].
  apply andb_true_iff in Hsk. destruct Hsk as [Hsk _].
  unfold record_keys_wf. cbv zeta. cbn [Json2.as_map Json2.entries].
  unfold Req.toDynamoDBJson in Hpk, Hsk. cbn [Json.of_str Json.toDynamoDB Dynamo.holds] in Hpk, Hsk.
  destruct (Json.fieldS obj "PK") as [x|]; [|discriminate].
  destruct (Json.fieldS obj "SK") as [y|]; [|discriminate].
  apply String.eqb_eq in Hpk. subst x. cbn [Json2.toStringAttr Keys.well_formed].
  apply andb_true_iff. split; [vm_compute; reflexivity|].
  match type of Hsk with context [if ?c then _ else _] => destruct c end;
    exact (user_prefix_tagged _ _ Hsk).
Qed.

Lemma delete_fold l : forall acc,
  fst (fold_left
         (fun (acc : list (list (string * AttributeValue)) * Z) entry =>
            let rec := Json2.entries (Json2.as_map entry) in
            let map := [("PK", Json2.toStringAttr (Json.fieldS rec "PK"));
                        ("SK", Json2.toStringAttr (Json.fieldS rec "SK"))] in
            (VMap.add (fst acc) map, (snd acc + 1)%Z)) l acc)
  = (fst acc ++ map (fun entry =>
       [("PK", Json2.toStringAttr (Json.fieldS (Json2.entries (Json2.as_map entry)) "PK"));
        ("SK", Json2.toStringAttr (Json.fieldS (Json2.entries (Json2.as_map entry)) "SK"))]) l)%list.
Proof.
  induction l as [|e l IH]; intros acc; cbn [fold_left map]; [now rewrite app_nil_r|].
  rewrite IH. cbn [fst]. unfold VMap.add. now rewrite <- app_assoc.
Qed.

Lemma delete_keys c :
  records_ok (stash c) ->
  match out_request (deletePortfolioContentForUserFunction_request c) with
  | Some r => keys_wf r = true
  | None => True
  end.
Proof.
  intros Hrec. unfold deletePortfolioContentForUserFunction_request. cbv zeta.
  match goal with |- context [fold_left ?f ?l ?a] =>
    pose proof (delete_fold l a) as E; destruct (fold_left f l a) as [keys n] end.
  cbn [fst app] in E. subst keys.
  match goal with |- context [negb (VMap.isEmpty ?ks)] =>
    assert (H : Forall wf_map ks) end.
  { apply Forall_forall. intros k Hk. apply in_map_iff in Hk. destruct Hk as [e [<- He]].
    unfold records_ok in Hrec. rewrite forallb_forall in Hrec. specialize (Hrec e He).
    unfold record_keys_wf in Hrec. cbv zeta in Hrec.
    apply andb_true_iff in Hrec. destruct Hrec as [H1 H2].
    unfold wf_map, wf_pair. cbn [forallb snd]. now rewrite H1, H2. }
  apply placeholder_wf in H.
  match goal with |- context [negb (VMap.isEmpty ?ks)] =>
    destruct (negb (VMap.isEmpty ks)) end; cbn [out_request]; now apply batch_keys.
Qed.

Lemma delete_records ds c body st :
  records_ok (stash c) ->
  snd (invoke ds deletePortfolioContentForUserFunction c) = Returned body st ->
  records_ok st.
Proof.
  intros Hrec. unfold invoke, deletePortfolioContentForUserFunction.
  cbn [t_request t_response].
  unfold deletePortfolioContentForUserFunction_request. cbv zeta.
  match goal with |- context [fold_left ?f ?l ?a] => destruct (fold_left f l a) as [keys n] end.
  unfold deletePortfolioContentForUserFunction_response.
  destruct (negb (VMap.isEmpty keys)); cbn [out_request out_stash];
    match goal with |- context [snd (ds ?r)] => destruct (snd (ds r)) end;
    cbn [with_result with_stash error stash]; try discriminate;
    intros [= _ <-]; unfold records_ok;
    rewrite !field_put_other by reflexivity; exact Hrec.
Qed.

(** *** The update functions *)

Lemma mem_In k ks : In k ks -> VMap.mem k ks = true.
Proof.
  intros H. unfold VMap.mem. apply existsb_exists. exists k. split; [exact H|apply String.eqb_refl].
Qed.

Lemma clean_args_ok st k : clean_args st k = true -> args_ok st k.
Proof.
  unfold clean_args, args_ok.
  destruct (Json2.as_map (Json.field st k)) as [m|]; [|intros _; exact I].
  intros H key value Hin Hk. rewrite forallb_forall in H.
  specialize (H key (in_map fst _ _ Hin)). cbn [fst] in H.
  rewrite (mem_In _ _ Hk) in H. discriminate H.
Qed.

Lemma mput_ok k x a :
  map_ok a -> (In k Req.key_attributes -> Keys.well_formed (Json.toDynamoDB x) = true) ->
  map_ok (Json2.mput k x a).
Proof.
  destruct a as [m|]; [|intros _ _; exact I].
  cbn [Json2.mput option_map map_ok]. intros Hm Hx key value Hin Hk.
  apply In_put in Hin. destruct Hin as [[= -> ->]|Hin]; [now apply Hx|now apply (Hm key value)].
Qed.

Lemma args_ok_stash k a st k' :
  map_ok a -> args_ok st k' ->
  args_ok (match a with Some m => stash_put k (JMap m) st | None => st end) k'.
Proof.
  intros Ha Hst. destruct a as [m|]; [|exact Hst]. unfold args_ok.
  destruct (String.eqb k' k) eqn:E.
  - apply String.eqb_eq in E. subst k'. rewrite field_put_same. exact Ha.
  - rewrite field_put_other by exact E. exact Hst.
Qed.

Lemma not_key_attribute k (P : Prop) :
  VMap.mem k Req.key_attributes = false -> In k Req.key_attributes -> P.
Proof. intros H Hin. now rewrite (mem_In _ _ Hin) in H. Qed.

Lemma expValues_fold es : forall acc k v,
  VMap.get k (Builder.expValues (fold_left Builder.classify es acc)) = Some v ->
  VMap.get k (Builder.expValues acc) = Some v
  \/ exists key value, In (key, value) es /\ k = ":" ++ key /\ v = Json.toDynamoDB value.
Proof.
  induction es as [|[key value] es IH]; intros acc k v H; [now left|].
  cbn [fold_left] in H. apply IH in H. destruct H as [H|[key' [value' [Hin [-> ->]]]]].
  - unfold Builder.classify in H. cbn [fst snd] in H.
    destruct (Json.is_null value); cbn [Builder.expValues] in H; [now left|].
    apply get_put_inv in H. destruct H as [[-> ->]|H]; [|now left].
    right. exists key, value. split; [now left|split; reflexivity].
  - right. exists key', value'. split; [now right|split; reflexivity].
Qed.

Lemma collect_values es a v :
  entries_ok es -> In a Req.key_attributes ->
  VMap.get (":" ++ a) (Builder.expValues (Builder.collect es)) = Some v ->
  Keys.well_formed v = true.
Proof.
  intros Hes Ha H. unfold Builder.collect in H. apply expValues_fold in H.
  destruct H as [H|[key [value [Hin [E ->]]]]]; [discriminate H|].
  cbn in E. injection E as <-.
  unfold VMap.copyAndRemoveAllKeys in Hin. apply filter_In in Hin.
  exact (Hes a value (proj1 Hin) Ha).
Qed.

Lemma written_wf u :
  (forall a v, In a Req.key_attributes ->
     VMap.get (":" ++ a) (Builder.expressionValues u) = Some v -> Keys.well_formed v = true) ->
  forallb wf_pair (Req.written u) = true.
Proof.
  intros H. apply forallb_forall. intros [a v] Hin. unfold Req.written in Hin.
  apply in_flat_map in Hin. destruct Hin as [a' [Ha Hin]].
  destruct (VMap.get (":" ++ a') (Builder.expressionValues u)) as [v'|] eqn:E; [|destruct Hin].
  destruct Hin as [[= <- <-]|[]]. unfold wf_pair. cbn [snd]. now rewrite (H a' v' Ha E).
Qed.

Lemma update_keys pk sk u :
  Keys.tagged pk = true -> Keys.tagged sk = true ->
  (forall a v, In a Req.key_attributes ->
     VMap.get (":" ++ a) (Builder.expressionValues u) = Some v -> Keys.well_formed v = true) ->
  keys_wf (Req.updateItem
    [("PK", Req.toDynamoDBJson (Some pk)); ("SK", Req.toDynamoDBJson (Some sk))] u) = true.
Proof.
  intros Hpk Hsk Hu. unfold keys_wf, Req.key_values.
  cbn [Req.updateItem key query update batch map concat app forallb].
  unfold wf_pair at 1 2.
  cbn [snd Req.toDynamoDBJson Json.of_str Json.toDynamoDB Keys.well_formed].
  rewrite Hpk, Hsk, app_nil_r. cbn [orb andb]. now apply written_wf.
Qed.

Lemma record_update_values ot now a :
  map_ok a ->
  forall k v, In k Req.key_attributes ->
    VMap.get (":" ++ k)
      (Builder.expressionValues (updateSupplementalDataRecordFunction_update ot now a)) = Some v ->
    Keys.well_formed v = true.
Proof.
  intros Ha k v Hk. unfold updateSupplementalDataRecordFunction_update. cbv zeta.
  assert (Hes : entries_ok (Json2.entries a)) by (destruct a; [exact Ha|intros ? ? []]).
  destruct (negb (VMap.isEmpty (Builder.expSet (Builder.collect (Json2.entries a)))));
    cbn [Builder.expressionValues]; intros H.
  - apply get_put_inv in H. destruct H as [[E _]|H]; [|exact (collect_values _ _ _ Hes Hk H)].
    cbn in E. injection E as ->. revert Hk. apply not_key_attribute. reflexivity.
  - exact (collect_values _ _ _ Hes Hk H).
Qed.

Lemma item_update_values ot a :
  map_ok a ->
  forall k v, In k Req.key_attributes ->
    VMap.get (":" ++ k) (Builder.expressionValues (updateItemFunction_update ot a)) = Some v ->
    Keys.well_formed v = true.
Proof.
  intros Ha k v Hk. unfold updateItemFunction_update. cbv zeta.
  assert (Hes : entries_ok (Json2.entries a)) by (destruct a; [exact Ha|intros ? ? []]).
  cbn [Builder.expressionValues]. intros H. exact (collect_values _ _ _ Hes Hk H).
Qed.

Lemma supplemental_update_values ot a :
  map_ok a ->
  forall k v, In k Req.key_attributes ->
    VMap.get (":" ++ k)
      (Builder.expressionValues (updateSupplementalDataFunction_update ot a)) = Some v ->
    Keys.well_formed v = true.
Proof.
  intros Ha k v Hk. unfold updateSupplementalDataFunction_update. cbv zeta.
  assert (Hes : entries_ok (Json2.entries a)) by (destruct a; [exact Ha|intros ? ? []]).
  cbn [Builder.expressionValues]. intros H. exact (collect_values _ _ _ Hes Hk H).
Qed.

(** The side condition of [mput_ok]: the key put is no key attribute, or
    its value is well formed. *)
Ltac put_side :=
  first [ apply not_key_attribute; reflexivity | intros _; vm_compute; reflexivity ].

Ltac puts_ok H := repeat (apply mput_ok; [|put_side]); exact H.

Lemma record_request_keys ot c :
  updates_ok (stash c) ->
  match out_request (updateSupplementalDataRecordFunction_request ot c) with
  | Some r => keys_wf r = true
  | None => True
  end.
Proof.
  intros [Hs _]. unfold updateSupplementalDataRecordFunction_request. cbv zeta.
  cbn [out_request]. apply update_keys; [vm_compute; reflexivity..|].
  apply record_update_values. puts_ok Hs.
Qed.

Lemma record1_request_keys ot c :
  updates_ok (stash c) ->
  match out_request (Rev1_updateSupplementalDataRecordFunction_request ot c) with
  | Some r => keys_wf r = true
  | None => True
  end.
Proof.
  intros [Hs _]. unfold Rev1_updateSupplementalDataRecordFunction_request. cbv zeta.
  cbn [out_request]. apply update_keys; [vm_compute; reflexivity..|].
  apply record_update_values. puts_ok Hs.
Qed.

Lemma item_request_keys ot c :
  updates_ok (stash c) ->
  match out_request (updateItemFunction_request ot c) with
  | Some r => keys_wf r = true
  | None => True
  end.
Proof.
  intros [_ Hi]. unfold updateItemFunction_request. cbv zeta.
  cbn [out_request]. apply update_keys; [vm_compute; reflexivity..|].
  apply item_update_values. puts_ok Hi.
Qed.

Lemma supplemental_request_keys ot c :
  updates_ok (stash c) ->
  match out_request (updateSupplementalDataFunction_request ot c) with
  | Some r => keys_wf r = true
  | None => True
  end.
Proof.
  intros [Hs _]. unfold updateSupplementalDataFunction_request. cbv zeta.
  cbn [out_request]. apply update_keys; [vm_compute; reflexivity..|].
  apply supplemental_update_values. puts_ok Hs.
Qed.

(** The stash an update function leaves keeps [updates_ok]. *)
Ltac update_post Hs Hi :=
  cbv zeta; cbn [out_request out_stash];
  match goal with |- snd (_, ?x) = _ -> _ => change (snd (_, x)) with x end;
  unfold updateSupplementalDataRecordFunction_response, guarded_result;
  match goal with |- context [snd (?ds ?r)] => destruct (snd (ds r)) end;
  cbn [with_result with_stash error stash]; [discriminate|];
  intros [= _ <-]; split; (apply args_ok_stash; [puts_ok Hs + puts_ok Hi|assumption]).

Lemma record_post ds ot c body st :
  updates_ok (stash c) ->
  snd (invoke ds (updateSupplementalDataRecordFunction ot) c) = Returned body st ->
  updates_ok st.
Proof.
  intros [Hs Hi]. unfold invoke, updateSupplementalDataRecordFunction.
  cbn [t_request t_response]. unfold updateSupplementalDataRecordFunction_request.
  update_post Hs Hi.
Qed.

Lemma record1_post ds ot c body st :
  updates_ok (stash c) ->
  snd (invoke ds (Rev1_updateSupplementalDataRecordFunction ot) c) = Returned body st ->
  updates_ok st.
Proof.
  intros [Hs Hi]. unfold invoke, Rev1_updateSupplementalDataRecordFunction.
  cbn [t_request t_response]. unfold Rev1_updateSupplementalDataRecordFunction_request.
  update_post Hs Hi.
Qed.

Lemma item_post ds ot c body st :
  updates_ok (stash c) ->
  snd (invoke ds (updateItemFunction ot) c) = Returned body st ->
  updates_ok st.
Proof.
  intros [Hs Hi]. unfold invoke, updateItemFunction.
  cbn [t_request t_response]. unfold updateItemFunction_request.
  update_post Hs Hi.
Qed.

Lemma supplemental_post ds ot c body st :
  updates_ok (stash c) ->
  snd (invoke ds (updateSupplementalDataFunction ot) c) = Returned body st ->
  updates_ok st.
Proof.
  intros [Hs Hi]. unfold invoke, updateSupplementalDataFunction.
  cbn [t_request t_response]. unfold updateSupplementalDataFunction_request.
  update_post Hs Hi.
Qed.

(** *** The pipelines *)

Lemma pipeline_item ds sna tn ctx req :
  In req (fst (run_functions ds
    [getMergedItemRecordFunction sna; expandSubjectTermsFunction sna tn] ctx)) ->
  keys_wf req = true.
Proof.
  intros Hin; revert req Hin;
    apply (run_functions_keys (fun _ => True) (fun r => keys_wf r = true)); [|exact I].
  intros f c [<-|[<-|[]]] _; (split; [apply invoke_keys|trivial]).
  - apply getMerged_keys.
  - apply expand_keys.
Qed.

Lemma pipeline_item1 ds sna ctx req :
  In req (fst (run_functions ds [Rev1_getMergedItemRecordFunction sna] ctx)) ->
  keys_wf req = true.
Proof.
  intros Hin; revert req Hin;
    apply (run_functions_keys (fun _ => True) (fun r => keys_wf r = true)); [|exact I].
  intros f c [<-|[]] _; (split; [apply invoke_keys|trivial]).
  apply getMerged_keys.
Qed.

Lemma pipeline_portfolio page table other ctx :
  records_ok (stash ctx) ->
  forall req,
  In req (fst (run_functions (Dynamo.source page table other)
    [findPortfolioContentForUserFunction; deletePortfolioContentForUserFunction] ctx)) ->
  keys_wf req = true.
Proof.
  apply (run_functions_keys records_ok (fun r => keys_wf r = true)).
  intros f c [<-|[<-|[]]] Hc; split.
  - apply invoke_keys. apply find_keys.
  - intros body st. apply find_records.
  - apply invoke_keys. now apply delete_keys.
  - intros body st. now apply delete_records.
Qed.

Lemma pipeline_record ds ot ctx :
  updates_ok (stash ctx) ->
  forall req,
  In req (fst (run_functions ds [updateSupplementalDataRecordFunction ot] ctx)) ->
  keys_wf req = true.
Proof.
  apply (run_functions_keys updates_ok (fun r => keys_wf r = true)).
  intros f c [<-|[]] Hc; split.
  - apply invoke_keys. now apply record_request_keys.
  - intros body st. now apply record_post.
Qed.

Lemma pipeline_record1 ds ot ctx :
  updates_ok (stash ctx) ->
  forall req,
  In req (fst (run_functions ds [Rev1_updateSupplementalDataRecordFunction ot] ctx)) ->
  keys_wf req = true.
Proof.
  apply (run_functions_keys updates_ok (fun r => keys_wf r = true)).
  intros f c [<-|[]] Hc; split.
  - apply invoke_keys. now apply record1_request_keys.
  - intros body st. now apply record1_post.
Qed.

Lemma pipeline_replace ds ot ctx :
  updates_ok (stash ctx) ->
  forall req,
  In req (fst (run_functions ds
    [updateSupplementalDataFunction ot; updateItemFunction ot] ctx)) ->
  keys_wf req = true.
Proof.
  apply (run_functions_keys updates_ok (fun r => keys_wf r = true)).
  intros f c [<-|[<-|[]]] Hc; split.
  - apply invoke_keys. now apply supplemental_request_keys.
  - intros body st. now apply supplemental_post.
  - apply invoke_keys. now apply item_request_keys.
  - intros body st. now apply item_post.
Qed.

(** *** The two portfolio mutations with a conditional update *)

Lemma with_default_ref txt v d :
  Util.ref txt (Util.defaultIfNullOrBlank v (Some d)) = with_default d v.
Proof. destruct v as [s|]; cbn; [now destruct (Util.isBlank s)|reflexivity]. Qed.

Lemma savePortfolioItem_keys sna ot c :
  match out_request (MutationSavePortfolioItemResolver_request sna ot c) with
  | Some r => keys_wf r = true
  | None => True
  end.
Proof.
  unfold MutationSavePortfolioItemResolver_request. cbv zeta.
  match goal with |- context [if negb ?c then _ else _] => destruct c end;
    vm_compute; reflexivity.
Qed.

Lemma key_values_update k u :
  Req.key_values (Req.updateItem k u) = (k ++ Req.written u)%list.
Proof. unfold Req.key_values. cbn. now rewrite app_nil_r. Qed.

Lemma written_collection e names x1 x2 x3 x4 x5 x6 x7 x8 x9 x10 x11 g1 g2 g3 g4 :
  Req.written (Req.literal e names
    (VMap.put ":GSI2SK" g4 (VMap.put ":GSI2PK" g3 (VMap.put ":GSI1SK" g2 (VMap.put ":GSI1PK" g1
      (VMap.put ":privacy" x11 (VMap.put ":layout" x10
        (VMap.put ":highlightedCollection" x9 (VMap.put ":featuredCollection" x8
          (VMap.put ":imageUri" x7 (VMap.put ":description" x6
            (VMap.put ":dateModifiedInDynamo" x5 (VMap.put ":dateAddedToDynamo" x4
              (VMap.put ":rowType" x3 (VMap.put ":portfolioUserId" x2
                (VMap.put ":portfolioCollectionId" x1 []))))))))))))))))
  = [("GSI1PK", g1); ("GSI1SK", g2); ("GSI2PK", g3); ("GSI2SK", g4)].
Proof. vm_compute. reflexivity. Qed.

Lemma savePortfolioCollection_keys c :
  match out_request (MutationSavePortfolioCollectionResolver_request c) with
  | Some r => keys_ok c r
  | None => True
  end.
Proof.
  unfold MutationSavePortfolioCollectionResolver_request. cbv zeta.
  destruct (negb (Json2.eqS (Util.defaultIfNullOrBlank (arg c "privacy") (Some "private"))
                    (Some "public"))); cbv beta iota;
    (destruct (Json2.eqS (Util.defaultIfNullOrBlank (arg c "privacy") (Some "private"))
                (Some "private")); cbn [out_request];
     [apply keys_wf_ok; vm_compute; reflexivity|]).
  all: intros a v Hin; rewrite key_values_update, written_collection in Hin;
    cbn [app] in Hin;
    repeat (destruct Hin as [Hin|Hin]; [injection Hin as <- <-|]); try destruct Hin;
    match goal with
    | |- key_shape _ "GSI2SK" _ =>
        right; right; split; [reflexivity|]; unfold privacy_key;
        rewrite idiom, with_default_ref; reflexivity
    | |- _ => left; vm_compute; reflexivity
    end.
Qed.

(** The stash a pipeline resolver hands to its functions. *)
Ltac establish :=
  first [ unfold records_ok; vm_compute; reflexivity
        | split; apply clean_args_ok; vm_compute; reflexivity ].

(** A pipeline resolver, by the functions of its pipeline. *)
Ltac pipeline_auto :=
  let ctx := fresh "ctx" in let req := fresh "req" in let Hin := fresh "Hin" in
  intros ctx req Hin; rewrite pipeline_requests in Hin; apply keys_wf_ok; revert req Hin;
  match goal with
  | |- forall req, In req (fst (run_functions _ [getMergedItemRecordFunction _; _] _)) -> _ =>
      intros req; apply pipeline_item
  | |- forall req, In req (fst (run_functions _ [Rev1_getMergedItemRecordFunction _] _)) -> _ =>
      intros req; apply pipeline_item1
  | |- forall req, In req (fst (run_functions _ [findPortfolioContentForUserFunction; _] _)) -> _ =>
      apply pipeline_portfolio; establish
  | |- forall req, In req (fst (run_functions _ [updateSupplementalDataRecordFunction _] _)) -> _ =>
      apply pipeline_record; establish
  | |- forall req,
        In req (fst (run_functions _ [Rev1_updateSupplementalDataRecordFunction _] _)) -> _ =>
      apply pipeline_record1; establish
  | |- forall req, In req (fst (run_functions _ [updateSupplementalDataFunction _; _] _)) -> _ =>
      apply pipeline_replace; establish
  end.

(** The two portfolio mutations. *)
Ltac unit_special :=
  let ctx := fresh "ctx" in let req := fresh "req" in let Hin := fresh "Hin" in
  let E := fresh "E" in
  intros ctx req Hin; rewrite unit_requests in Hin;
  match type of Hin with
  | In _ (match out_request (MutationSavePortfolioCollectionResolver_request ?c) with
          | _ => _ end) =>
      pose proof (savePortfolioCollection_keys c) as E;
      destruct (out_request (MutationSavePortfolioCollectionResolver_request c));
      [destruct Hin as [<-|[]]; exact E|destruct Hin]
  | In _ (match out_request (MutationSavePortfolioItemResolver_request ?s ?o ?c) with
          | _ => _ end) =>
      pose proof (savePortfolioItem_keys s o c) as E;
      destruct (out_request (MutationSavePortfolioItemResolver_request s o c));
      [destruct Hin as [<-|[]]; exact (keys_wf_ok _ _ E)|destruct Hin]
  end.

Ltac resolver_keys :=
  match goal with
  | |- forall ctx req,
        In req (requests _ (unit_resolver _ MutationSavePortfolioCollectionResolver_request _)
                  ctx) -> _ => unit_special
  | |- forall ctx req,
        In req (requests _ (unit_resolver _ (MutationSavePortfolioItemResolver_request _ _) _)
                  ctx) -> _ => unit_special
  | |- forall ctx req, In req (requests _ (unit_resolver _ _ _) ctx) -> _ => unit_auto
  | |- forall ctx req, In req (requests _ (pipeline_resolver _ _ _) ctx) -> _ =>
      pipeline_auto
  end.

Lemma key_shapes sna ot tn page table other :
  Forall (fun r => forall ctx req,
            In req (requests (Dynamo.source page table other) r ctx) -> keys_ok ctx req)
    (resolvers sna ot tn).
Proof.
  unfold resolvers, rev2_resolvers, rev1_resolvers. cbn [app].
  repeat (apply Forall_cons; [resolver_keys|]).
  apply Forall_nil.
Qed.

(** C7.  Against a data source whose queries return the items of a table
    that meet the key condition, every key attribute value of every request
    that a resolver of the API sends - in a key, a key condition, a batch
    key or bound to a key attribute by an update - is a record-type tag, or
    starts with a tag and "#", save for the placeholders "NoKeyToFind" and
    "YieldEmptyResultSet" of the batch functions and for the [GSI2SK] of a
    saved portfolio collection, which starts with the upper-cased privacy
    argument instead of a tag. *)
Theorem C7_key_values_are_tagged :
  forall set_null_allowed object_truth tableName page table other r ctx req a v,
    In r (resolvers set_null_allowed object_truth tableName) ->
    In req (requests (Dynamo.source page table other) r ctx) ->
    In (a, v) (Req.key_values req) ->
    key_shape ctx a v.
Proof.
  intros sna ot tn page table other r ctx req a v Hr Hreq Hv.
  exact (proj1 (Forall_forall _ _) (key_shapes sna ot tn page table other) r Hr ctx req Hreq
           a v Hv).
Qed.

Lemma C7_witness :
  let r := unit_resolver "QueryGetFileGroupResolver" QueryGetFileGroupResolver_request
             dynamoDbResultItem in
  let ds := Dynamo.source 10 [] SampleRun.quiet in
  let req := Req.getItem [("PK", AttrS "FILEGROUP"); ("SK", AttrS "FILEGROUP#ABC123")] in
  In r (resolvers false SampleVtl.object_truth SampleVtl.tableName)
  /\ In req (requests ds r SampleRun.by_id)
  /\ In ("SK", AttrS "FILEGROUP#ABC123") (Req.key_values req)
  /\ key_shape SampleRun.by_id "SK" (AttrS "FILEGROUP#ABC123").
Proof.
  intros r ds req.
  assert (Hr : In r (resolvers false SampleVtl.object_truth SampleVtl.tableName)).
  { unfold resolvers. apply in_or_app. left. unfold rev2_resolvers.
    do 26 right. left. reflexivity. }
  assert (Hreq : In req (requests ds r SampleRun.by_id)) by (left; reflexivity).
  assert (Hv : In ("SK", AttrS "FILEGROUP#ABC123") (Req.key_values req))
    by (right; left; reflexivity).
  split; [exact Hr|split; [exact Hreq|split; [exact Hv|]]].
  exact (C7_key_values_are_tagged false SampleVtl.object_truth SampleVtl.tableName 10 []
           SampleRun.quiet r SampleRun.by_id req _ _ Hr Hreq Hv).
Defined.

(** C7, refuted as stated: for an item without subjects the item pipeline
    sends a batch request whose partition key is "NoKeyToFind", neither a
    tag nor prefixed; and a collection saved as "shared" gets a [GSI2SK]
    that starts with "SHARED". *)
Lemma C7_counterexample :
  let r := pipeline_resolver "QueryGetItemResolver" QueryGetItemResolver_request
             [getMergedItemRecordFunction false;
              expandSubjectTermsFunction false SampleVtl.tableName] in
  let ds := Dynamo.source 10 [] SampleRun.quiet in
  nth_error (resolvers false SampleVtl.object_truth SampleVtl.tableName) 28 = Some r
  /\ requests ds r SampleRun.by_id
     = [Req.queryTable [CEq "PK" (AttrS "ITEM#ABC123")];
        Req.batchOp "BatchGetItem"
          [[("PK", AttrS "NoKeyToFind"); ("SK", AttrS "YieldEmptyResultSet")]]]
  /\ Keys.well_formed (AttrS "NoKeyToFind") = false
  /\ Keys.value_of "GSI2SK"
       (MutationSavePortfolioCollectionResolver_request SampleRun.save_shared)
     = Some (AttrS "SHARED#MYTRIP")
  /\ Keys.well_formed (AttrS "SHARED#MYTRIP") = false.
Proof. repeat split. Qed.

End TemplateFacts.


(** ** The rotation Lambda *)

Module LambdaFacts.
Import Lambda LambdaSpec.
#[local] Open Scope Z_scope.

Lemma expired_mono k t t' : expired k t = true -> t <= t' -> expired k t' = true.
Proof. unfold expired. rewrite !Z.ltb_lt. lia. Qed.

Lemma deleted_rightly_widen keys keys' a b b' lim d :
  deleted_rightly keys a b lim d -> (forall x, In x keys -> In x keys') -> b <= b' ->
  deleted_rightly keys' a b' lim d.
Proof.
  intros (H1 & H2 & t & H3 & H4 & H5) Hk Hb. repeat split; auto.
  exists t. repeat split; auto; lia.
Qed.

Lemma delete_each_loop api_id keys :
  forall s, exists ds, Loop api_id keys s (snd (delete_each api_id keys s)) ds.
Proof.
  induction keys as [|k keys IH]; intros s.
  - exists []. split; cbn; auto; try lia; try contradiction.
    now rewrite app_nil_r.
  - cbn [delete_each]. unfold bind at 1. unfold now at 1.
    set (t := clock (world s) + Z.of_N match ticks (world s) with [] => 0%N | d :: _ => d end).
    assert (Ht : clock (world s) <= t) by (unfold t; lia).
    destruct (deadline s <? t) eqn:Hd.
    + exists []. cbn. split; cbn; auto; try lia; try contradiction.
      now rewrite app_nil_r.
    + apply Z.ltb_ge in Hd.
      match goal with |- context [set_world ?w s] => set (s1 := set_world w s) end.
      unfold bind at 1.
      destruct (expired k t && is_auto_maintained k) eqn:Hc.
      * apply andb_true_iff in Hc as [He Ha].
        unfold delete_api_key, bind at 1, call.
        destruct (faults (world s1) (DeleteApiKey api_id (id k))) eqn:Hf.
        -- exists [k]. cbn. split; cbn; auto; try lia.
           ++ intros d [<-|[]]. repeat split; auto. now left.
              exists t. repeat split; auto; lia.
           ++ rewrite Ha. rewrite He. cbn. lia.
        -- match goal with |- context [delete_each api_id keys ?x] => set (s3 := x) end.
           destruct (IH s3) as [ds L]. exists (k :: ds).
           destruct L as [Lc Lo Lf Lsh Ls Lcl Ld Ln].
           cbn in Lcl, Ld, Ls.
           split.
           ++ rewrite Lc. cbn. now rewrite <- app_assoc.
           ++ intros d [<-|Hin].
              ** repeat split; auto. now left. exists t. cbn in *. repeat split; auto; lia.
              ** destruct (Lo d Hin) as (H1 & H2 & t' & H3 & H4 & H5).
                 repeat split; auto. now right. exists t'. cbn in *. repeat split; auto; lia.
           ++ intros k0 Hk0. cbn in Lf.
              destruct (same_key api_id (id k) k0) eqn:Hs.
              ** right. exists k. split; auto. now left.
              ** destruct (Lf k0) as [H|[d [H1 H2]]].
                 { apply filter_In. split; auto. now rewrite Hs. }
                 { now left. }
                 { right. exists d. split; auto. now right. }
           ++ intros k0 Hk0. apply Lsh in Hk0. cbn in Hk0. apply filter_In in Hk0. tauto.
           ++ exact Ls.
           ++ cbn in *. lia.
           ++ exact Ld.
           ++ cbn [filter]. rewrite Ha. rewrite (expired_mono _ _ _ He) by (cbn in *; lia).
              cbn. lia.
      * unfold ret at 1.
        destruct (IH s1) as [ds L]. exists ds.
        destruct L as [Lc Lo Lf Lsh Ls Lcl Ld Ln]. cbn in Lcl, Ld, Ls.
        split; auto.
        -- intros d Hin. destruct (Lo d Hin) as (H1 & H2 & t' & H3 & H4 & H5).
           repeat split; auto. now right. exists t'. cbn in *. repeat split; auto; lia.
        -- cbn in *; lia.
        -- cbn [filter]. destruct (is_auto_maintained k && expired k _); cbn; lia.
Qed.

Lemma filter_length_incl {A} (P : A -> bool) (Q : A -> bool) n l :
  (List.length (filter P (firstn n (filter Q l))) <= List.length (filter P l))%nat.
Proof.
  revert n. induction l as [|x l IH]; intros n.
  - cbn. rewrite firstn_nil. cbn. lia.
  - cbn [filter]. destruct (Q x).
    + destruct n; cbn [firstn filter].
      * destruct (P x); cbn; lia.
      * specialize (IH n). destruct (P x); cbn; lia.
    + specialize (IH n). destruct (P x); cbn; lia.
Qed.

Lemma firstn_In {A} (x : A) n l : In x (firstn n l) -> In x l.
Proof.
  revert n. induction l as [|y l IH]; intros [|n]; cbn; try tauto.
  intros [->|H]; [now left|right; eauto].
Qed.

Lemma nonempty_false_eq s : nonempty (Some s) = false -> s = "".
Proof. cbn. destruct (String.eqb_spec s ""); [auto|discriminate]. Qed.

Lemma min_364 days : (if days >? 364 then 364 else days) = Z.min days 364.
Proof. destruct (Z.gtb_spec days 364); lia. Qed.

Lemma invoke_outcome env w : Outcome env w (snd (invoke env w)).
Proof.
  unfold invoke, run.
  destruct env as [idp kp days].
  cbn [GRAPHQL_API_ID_KEY_PATH GRAPHQL_API_KEY_KEY_PATH DAYS_FOR_KEY_TO_LAST].
  unfold bind at 1.
  destruct days as [|z|]; cbn [int_env ret raise]; try (now apply NoCall);
  (destruct idp as [idp|]; [|now apply NoCall]);
  (destruct (nonempty (Some idp)); [|now apply NoCall]);
  unfold bind at 1; unfold _get_parameter, except_ClientError, bind at 1, call;
  cbn [world calls deadline faults app];
  (destruct (faults w (GetParameter idp)) eqn:Fg;
   [unfold ret; cbn; now apply GetOnly with idp|]);
  cbn [world ssm];
  (destruct (VMap.get idp (ssm w)) as [a|] eqn:Ga; [|cbn; now apply GetOnly with idp]);
  (destruct kp as [kp|]; [|cbn; now apply GetOnly with idp]);
  (destruct (nonempty (Some a) && nonempty (Some kp)); [|cbn; now apply GetOnly with idp]);
  unfold bind at 1; unfold _get_expire_time, bind at 1, now;
  cbn [world calls deadline ticks clock];
  fold (first_reading w);
  (destruct (clock w + timeout <? first_reading w) eqn:Hdl;
   [cbn; now apply GetOnly with idp|]);
  rewrite min_364;
  match goal with |- context [Z.min ?d 364] => set (days := d) end;
  (destruct ((first_reading w + Z.min days 364 * day_seconds * micro <? datetime_min)
             || (datetime_max <? first_reading w + Z.min days 364 * day_seconds * micro));
   [cbn; now apply GetOnly with idp|]);
  unfold ret at 1; fold (expiry days (first_reading w));
  set (e := expiry days (first_reading w));
  unfold bind at 1; unfold _generate_new_api_key, bind at 1, call;
  cbn [world calls deadline faults set_world app];
  (destruct (faults w (CreateApiKey a auto_maintained e)) eqn:Fc;
   [cbn; apply CreateOnly with idp kp a days; auto|]);
  cbn [world next_id set_world calls deadline];
  (destruct (nonempty (Some (next_id w))) eqn:Hn;
   [|apply nonempty_false_eq in Hn; cbn; apply CreateOnly with idp kp a days; auto]);
  unfold bind at 1; unfold _save_secure_parameter, bind at 1, call;
  cbn [world calls deadline faults set_world app];
  (destruct (faults w (PutParameter kp (next_id w))) eqn:Fp;
   [cbn; apply PutFailed with idp kp a days; auto|]);
  cbn [world ssm api_keys clock ticks next_id page faults set_world calls deadline];
  unfold _delete_expired_api_keys, bind at 1, list_api_keys, bind at 1, call;
  cbn [world calls deadline faults set_world app];
  (destruct (faults w (ListApiKeys a)) eqn:Fl;
   [cbn; apply Rotated with idp kp a days (@nil ApiKey); auto;
    try (now intros ? []); try (intros; now left); cbn; apply Nat.le_0_l|]);
  cbn [world api_keys page];
  match goal with |- context [delete_each a ?l ?x] =>
    set (listing := l); set (s3 := x) end;
  destruct (delete_each_loop a listing s3) as [ds L];
  destruct L as [Lc Lo Lf Lsh Ls Lcl Ld Ln];
  cbn in Lc, Lf, Lsh, Ls, Lcl, Ld;
  apply Rotated with idp kp a days ds; auto;
  try (intros d Hd; split;
    [destruct (Lo d Hd) as (Hin & _); unfold listing in Hin;
     apply firstn_In in Hin; apply filter_In in Hin; destruct Hin as [_ Hin];
     now apply String.eqb_eq in Hin
    |eapply deleted_rightly_widen;
     [exact (Lo d Hd)| |lia];
     intros x Hx; unfold listing in Hx; apply firstn_In in Hx; apply filter_In in Hx;
     exact (proj1 Hx)]);
  try (etransitivity; [exact Ln|]; unfold listing; apply filter_length_incl).
Qed.


Lemma quot_micro_upper x : Z.quot x micro * micro < x + micro.
Proof.
  unfold micro. pose proof (Z.quot_rem' x 1000000) as E.
  pose proof (Z.rem_bound_abs x 1000000 ltac:(lia)). lia.
Qed.

Lemma quot_micro_lower x : x - micro < Z.quot x micro * micro.
Proof.
  unfold micro. pose proof (Z.quot_rem' x 1000000) as E.
  pose proof (Z.rem_bound_abs x 1000000 ltac:(lia)). lia.
Qed.

Lemma first_reading_ge w : clock w <= first_reading w.
Proof. unfold first_reading. lia. Qed.

Lemma in_deletes a ds c :
  In c (map (fun k => DeleteApiKey a (id k)) ds) ->
  exists d, In d ds /\ c = DeleteApiKey a (id d).
Proof. intros H. apply in_map_iff in H as (d & <- & Hd). eauto. Qed.

Lemma filter_deletes (P : Call -> bool) a ds :
  (forall x y, P (DeleteApiKey x y) = false) ->
  filter P (map (fun k => DeleteApiKey a (id k)) ds) = [].
Proof. intros H. induction ds as [|d ds IH]; cbn; [auto|]. now rewrite H. Qed.

Lemma NoDup_map_inj {A B} (f : A -> B) l x y :
  NoDup (map f l) -> In x l -> In y l -> f x = f y -> x = y.
Proof.
  induction l as [|z l IH]; cbn; [tauto|].
  intros Hn. inversion Hn as [|? ? Hz Hn']; subst.
  intros [->|Hx] [->|Hy] E; auto.
  - exfalso. apply Hz. rewrite E. now apply in_map.
  - exfalso. apply Hz. rewrite <- E. now apply in_map.
Qed.

Lemma same_key_eq a kid k : same_key a kid k = true -> api k = a /\ id k = kid.
Proof.
  unfold same_key. rewrite andb_true_iff, !String.eqb_eq. tauto.
Qed.

(** C9. For a non-negative [DAYS_FOR_KEY_TO_LAST], the expiry that an
    invocation passes to [create_api_key] is the one computed from
    [min(days, 364)] at the reading of the clock, and lies less than 365
    days after that reading, the instant at which the key is created. *)
Theorem C9_expiry_capped_at_364_days :
  forall env w days a d e,
    DAYS_FOR_KEY_TO_LAST env = IntText days ->
    0 <= days ->
    In (CreateApiKey a d e) (calls (snd (invoke env w))) ->
    e = expiry days (first_reading w)
    /\ expiry days (first_reading w)
       = Z.quot (first_reading w + Z.min days 364 * day_seconds * micro) micro
    /\ e * micro < first_reading w + 365 * day_seconds * micro.
Proof.
  intros env w days a d e Hd Hpos Hin.
  assert (Hdays : days_of env = Some days) by (unfold days_of; now rewrite Hd).
  assert (B : expiry days (first_reading w) * micro
              < first_reading w + 365 * day_seconds * micro).
  { unfold expiry.
    pose proof (quot_micro_upper (first_reading w + Z.min days 364 * day_seconds * micro)).
    unfold day_seconds, micro in *. lia. }
  assert (E : e = expiry days (first_reading w)).
  { destruct (invoke_outcome env w) as
      [Hc _ _|idp _ Hc _ _|idp kp a' days' _ _ _ Hd' e' Hc _ _
      |idp kp a' days' _ _ _ Hd' e' Hc _ _ _
      |idp kp a' days' ds _ _ _ Hd' e' keys Hc _ _ _ _ _ _];
      rewrite Hc in Hin; cbn in Hin.
    - contradiction.
    - destruct Hin as [H|[]]; discriminate.
    - rewrite Hdays in Hd'. injection Hd' as <-.
      destruct Hin as [H|[H|[]]]; [discriminate|]. now injection H as _ _ <-.
    - rewrite Hdays in Hd'. injection Hd' as <-.
      destruct Hin as [H|[H|[H|[]]]]; try discriminate. now injection H as _ _ <-.
    - rewrite Hdays in Hd'. injection Hd' as <-.
      destruct Hin as [H|[H|[H|[H|H]]]]; try discriminate.
      + now injection H as _ _ <-.
      + apply in_deletes in H as (x & _ & H). discriminate. }
  subst e. repeat split; auto.
Qed.



(** A non-negative day count, an input at which a key is created. *)
Lemma C9_witness :
  1700604800 = expiry 7 (first_reading Sample.world)
  /\ expiry 7 (first_reading Sample.world)
     = Z.quot (first_reading Sample.world + Z.min 7 364 * day_seconds * micro) micro
  /\ 1700604800 * micro < first_reading Sample.world + 365 * day_seconds * micro.
Proof.
  apply (C9_expiry_capped_at_364_days Sample.env Sample.world 7 "api123" auto_maintained).
  - reflexivity.
  - lia.
  - vm_compute. right. left. reflexivity.
Defined.

Lemma sample_distinct_ids : distinct_ids Sample.world.
Proof.
  split.
  - cbn. repeat constructor; cbn; intuition discriminate.
  - cbn. intros k [<-|[<-|[<-|[]]]]; discriminate.
Qed.


(** C5, as amended. An invocation reads at most one SSM parameter, the one
    named by GRAPHQL_API_ID_KEY_PATH, and writes at most one, the one named
    by GRAPHQL_API_KEY_KEY_PATH, with the id of a key that AppSync has just
    created for it; the parameter store changes in no other way.  Besides
    SSM it changes AppSync: it creates at most one key, and the keys left
    are keys that were there or the one created. *)
Theorem C5_ssm_reads_and_writes :
  forall env w,
    let s' := snd (invoke env w) in
    (List.length (filter is_get (calls s')) <= 1)%nat
    /\ (forall n, In (GetParameter n) (calls s') -> GRAPHQL_API_ID_KEY_PATH env = Some n)
    /\ (List.length (filter is_put (calls s')) <= 1)%nat
    /\ (forall n v, In (PutParameter n v) (calls s') ->
          GRAPHQL_API_KEY_KEY_PATH env = Some n /\ v = next_id w
          /\ exists a e, In (CreateApiKey a auto_maintained e) (calls s')
                         /\ faults w (CreateApiKey a auto_maintained e) = false)
    /\ (ssm (world s') = ssm w
        \/ exists kp, GRAPHQL_API_KEY_KEY_PATH env = Some kp
                      /\ In (PutParameter kp (next_id w)) (calls s')
                      /\ ssm (world s') = VMap.put kp (next_id w) (ssm w))
    /\ (List.length (filter is_create (calls s')) <= 1)%nat
    /\ (forall k, In k (api_keys (world s')) ->
          In k (api_keys w)
          \/ exists a e, k = new_key a e w
                         /\ In (CreateApiKey a auto_maintained e) (calls s')).
Proof.
  intros env w s'. subst s'.
  destruct (invoke_outcome env w) as
    [Hc Hk Hs|idp Hi Hc Hk Hs|idp kp a days Hi Hkp _ _ e Hc Hk Hs
    |idp kp a days Hi Hkp _ _ e Hc Hf Hk Hs
    |idp kp a days ds Hi Hkp _ _ e keys Hc Hf _ _ Hsh _ Hs];
    rewrite Hc;
    (split; [|split; [|split; [|split; [|split; [|split]]]]]).
  (* no call *)
  - cbn; lia.
  - intros n [].
  - cbn; lia.
  - intros n v [].
  - now left.
  - cbn; lia.
  - intros k Hin. left. now rewrite <- Hk.
  (* get_parameter only *)
  - cbn; lia.
  - intros n [H|[]]. now injection H as <-.
  - cbn; lia.
  - intros n v [H|[]]. discriminate.
  - now left.
  - cbn; lia.
  - intros k Hin. left. now rewrite <- Hk.
  (* up to create_api_key *)
  - cbn; lia.
  - intros n [H|[H|[]]]; [now injection H as <-|discriminate].
  - cbn; lia.
  - intros n v [H|[H|[]]]; discriminate.
  - now left.
  - cbn; lia.
  - intros k Hin. destruct Hk as [[_ Hk]|(_ & _ & Hk)]; rewrite Hk in Hin; auto.
    apply in_app_or in Hin as [Hin|[<-|[]]]; auto.
    right. exists a, e. split; auto. right. now left.
  (* up to put_parameter, which failed *)
  - cbn; lia.
  - intros n [H|[H|[H|[]]]]; try discriminate. now injection H as <-.
  - cbn; lia.
  - intros n v [H|[H|[H|[]]]]; try discriminate. injection H as <- <-.
    repeat split; auto. exists a, e. split; auto. right. now left.
  - now left.
  - cbn; lia.
  - intros k Hin. rewrite Hk in Hin. apply in_app_or in Hin as [Hin|[<-|[]]]; auto.
    right. exists a, e. split; auto. right. now left.
  (* the whole rotation *)
  - rewrite filter_app, filter_deletes by reflexivity. cbn; lia.
  - intros n [H|[H|[H|[H|H]]]]; try discriminate; [now injection H as <-|].
    apply in_deletes in H as (d & _ & H). discriminate.
  - rewrite filter_app, filter_deletes by reflexivity. cbn; lia.
  - intros n v [H|[H|[H|[H|H]]]]; try discriminate.
    + injection H as <- <-. repeat split; auto. exists a, e. split; auto. right. now left.
    + apply in_deletes in H as (d & _ & H). discriminate.
  - right. exists kp. repeat split; auto. right. right. now left.
  - rewrite filter_app, filter_deletes by reflexivity. cbn; lia.
  - intros k Hin. apply Hsh in Hin. apply in_app_or in Hin as [Hin|[<-|[]]]; auto.
    right. exists a, e. split; auto. right. now left.
Qed.

(** C5 as stated fails: in the sample world the invocation creates a key
    and deletes one, so the keys AppSync holds afterwards are not the ones
    it held before. *)
Lemma C5_counterexample :
  let s' := snd (invoke Sample.env Sample.world) in
  In (CreateApiKey "api123" auto_maintained 1700604800) (calls s')
  /\ In (DeleteApiKey "api123" "da2-old") (calls s')
  /\ api_keys (world s') <> api_keys Sample.world.
Proof.
  vm_compute. repeat split.
  - right. left. reflexivity.
  - do 4 right. left. reflexivity.
  - intros H. discriminate H.
Qed.
End LambdaFacts.

(* ------------------------------------------------------------------ *)
(** ** The mapping templates: what the functions send and return *)

Module FunctionFacts.

Import TemplateSpec SubjectSpec ListingSpec PortfolioSpec TemplateFacts.

Lemma mem_iff k ks : VMap.mem k ks = true <-> In k ks.
Proof.
  split; [|apply mem_In]. unfold VMap.mem. intros H.
  apply existsb_exists in H as (x & Hx & E). apply String.eqb_eq in E. now subst.
Qed.

Lemma subject_uri subject :
  Util.toUpper' (Util.defaultIfNullOrBlank
    (Json.fieldS (Json2.entries (Json2.as_map subject)) "uri") (Some ""))
  = Some (uri_of subject).
Proof. rewrite default_empty. reflexivity. Qed.

(** The loop of [expandSubjectTermsFunction]: the keys are the keys of the
    uris collected, each once. *)
Lemma subject_fold l : forall keys uris,
  keys = map term_key uris -> NoDup uris -> ~ In "" uris ->
  exists uris',
    fold_left subject_key l (keys, uris) = (map term_key uris', uris')
    /\ NoDup uris' /\ ~ In "" uris'
    /\ forall u, In u uris' <-> In u uris \/ (u <> "" /\ exists s, In s l /\ uri_of s = u).
Proof.
  induction l as [|s l IH]; intros keys uris -> Hnd Hne.
  - exists uris. repeat split; auto. intros [H|(_ & s & [] & _)]. exact H.
  - cbn [fold_left]. unfold subject_key at 2. rewrite subject_uri.
    cbn [Json2.eqS Util.ref].
    destruct (String.eqb_spec (uri_of s) "") as [E|E]; cbn [negb andb].
    + destruct (IH (map term_key uris) uris eq_refl Hnd Hne) as (uris' & Hf & Hn' & He' & Hm).
      exists uris'. repeat split; auto.
      * intros H. apply Hm in H as [H|(Hu & s' & Hs' & <-)]; [now left|].
        right. split; auto. exists s'. split; auto. now right.
      * intros [H|(Hu & s' & [<-|Hs'] & <-)]; apply Hm; [now left|contradiction|].
        right. split; auto. eauto.
    + destruct (VMap.mem (uri_of s) uris) eqn:Hmem; cbn [negb].
      * apply mem_iff in Hmem.
        destruct (IH (map term_key uris) uris eq_refl Hnd Hne) as (uris' & Hf & Hn' & He' & Hm).
        exists uris'. repeat split; auto.
        -- intros H. apply Hm in H as [H|(Hu & s' & Hs' & <-)]; [now left|].
           right. split; auto. exists s'. split; auto. now right.
        -- intros [H|(Hu & s' & [<-|Hs'] & <-)]; apply Hm; [now left|now left|].
           right. split; auto. eauto.
      * assert (Hnot : ~ In (uri_of s) uris).
        { intros H. apply mem_iff in H. congruence. }
        destruct (IH (VMap.add (map term_key uris) (term_key (uri_of s)))
                     (VMap.add uris (uri_of s))) as (uris' & Hf & Hn' & He' & Hm).
        { unfold VMap.add. now rewrite map_app. }
        { unfold VMap.add. apply NoDup_app; auto.
          - constructor; [tauto|constructor].
          - intros x Hx [<-|[]]. contradiction. }
        { unfold VMap.add. intros H. apply in_app_or in H as [H|[H|[]]]; auto. }
        exists uris'. split; [exact Hf|]. repeat split; auto.
        -- intros H. apply Hm in H as [H|(Hu & s' & Hs' & <-)].
           ++ unfold VMap.add in H. apply in_app_or in H as [H|[<-|[]]]; [now left|].
              right. split; auto. exists s. split; auto. now left.
           ++ right. split; auto. exists s'. split; auto. now right.
        -- intros [H|(Hu & s' & [<-|Hs'] & <-)]; apply Hm.
           ++ left. unfold VMap.add. apply in_or_app. now left.
           ++ left. unfold VMap.add. apply in_or_app. right. now left.
           ++ right. split; auto. eauto.
Qed.


Lemma term_key_inj u v : term_key u = term_key v -> u = v.
Proof. unfold term_key. intros [= H]. exact H. Qed.

Lemma NoDup_term_keys uris : NoDup uris -> NoDup (map term_key uris).
Proof.
  induction 1 as [|u uris Hu _ IH]; cbn [map]; constructor; [|exact IH].
  intros H. apply in_map_iff in H as (v & E & Hv). apply term_key_inj in E. now subst.
Qed.

(** X9.  The request of [expandSubjectTermsFunction] is a [BatchGetItem]
    whose keys are never empty and never repeated (a batch with a repeated
    key is refused by DynamoDB): one key "SUBJECTTERM" / "URI#" and the
    upper-cased uri for each distinct uri of the stashed subjects, compared
    without regard to case, and the key that finds nothing exactly when no
    subject has a uri. *)
Theorem X9_subject_keys_are_distinct_and_complete :
  forall ctx,
    exists keys,
      out_request (expandSubjectTermsFunction_request ctx)
      = Some (Req.batchOp "BatchGetItem" keys)
      /\ NoDup keys /\ keys <> []
      /\ (forall u, u <> "" ->
            (In (term_key u) keys <-> exists s, In s (subjects_of ctx) /\ uri_of s = u))
      /\ (In no_key keys <-> forall s, In s (subjects_of ctx) -> uri_of s = "")
      /\ (forall k, In k keys -> k = no_key \/ exists u, u <> "" /\ k = term_key u).
Proof.
  intros ctx. unfold expandSubjectTermsFunction_request. cbv zeta.
  fold (subjects_of ctx).
  destruct (subject_fold (subjects_of ctx) [] [] eq_refl (NoDup_nil _) (fun H => H))
    as (uris & -> & Hnd & Hne & Hm).
  destruct uris as [|u0 uris].
  - cbn [map VMap.isEmpty negb]. eexists. split; [reflexivity|].
    cbn [VMap.add app Json2.toStringAttr]. fold no_key.
    split; [constructor; [intros []|constructor]|].
    split; [discriminate|].
    split; [|split].
    + intros u Hu. split.
      * intros [H|[]]. discriminate H.
      * intros (s & Hs & E). exfalso.
        assert (In u []) as [] by (apply Hm; right; split; eauto).
    + split; [|intros _; now left].
      intros _ s Hs. destruct (String.eqb_spec (uri_of s) "") as [E|E]; [exact E|].
      exfalso. assert (In (uri_of s) []) as [] by (apply Hm; right; split; eauto).
    + intros k [<-|[]]. now left.
  - cbn [map VMap.isEmpty negb]. eexists. split; [reflexivity|].
    change (term_key u0 :: map term_key uris) with (map term_key (u0 :: uris)).
    split; [now apply NoDup_term_keys|].
    split; [discriminate|].
    split; [|split].
    + intros u Hu. split.
      * intros H. apply in_map_iff in H as (v & E & Hv). apply term_key_inj in E. subst v.
        apply Hm in Hv as [[]|(_ & H)]. exact H.
      * intros H. apply in_map. apply Hm. now right.
    + split.
      * intros H. apply in_map_iff in H as (v & E & _). discriminate E.
      * intros H. exfalso.
        assert (Hu : In u0 (u0 :: uris)) by now left.
        apply Hm in Hu as [[]|(Hu & s & Hs & E)]. apply Hu. rewrite <- E. now apply H.
    + intros k H. apply in_map_iff in H as (v & <- & Hv). right. exists v.
      split; [|reflexivity]. intros ->. exact (Hne Hv).
Qed.


Lemma toUpper_empty s : Util.toUpper s = "" <-> s = "".
Proof. destruct s; cbn; split; intros H; congruence. Qed.

Lemma has_no_uri_iff s : has_no_uri s = true <-> uri_of s = "".
Proof.
  unfold has_no_uri, uri_of. rewrite String.eqb_eq. symmetry. apply toUpper_empty.
Qed.

(** The second loop of the response: with no [subjectsAfter] in the stash
    its inner loop has nothing to walk, and only the subjects without a
    uri are added. *)
Lemma keep_subject_fold ctx l : forall acc,
  Json2.as_list (Json.field (stash ctx) "subjectsAfter") = [] ->
  fold_left (keep_subject ctx) l acc = (acc ++ filter has_no_uri l)%list.
Proof.
  induction l as [|s l IH]; intros acc H; cbn [fold_left filter]; [now rewrite app_nil_r|].
  rewrite IH by exact H. unfold keep_subject at 1. rewrite default_empty, H.
  cbn [Json2.eqS fold_left snd]. unfold has_no_uri.
  destruct (String.eqb _ ""); [|reflexivity].
  unfold VMap.add. now rewrite <- app_assoc.
Qed.

(** X10.  When the batch did not fail and the stash has no
    [subjectsAfter] (no template puts one: the line that would is a
    comment), [expandSubjectTermsFunction] returns the stashed item record
    with its subjects replaced by the stripped records the batch returned,
    followed by the subjects that have no uri; every other member of the
    record is kept.  A subject with a uri is never added again, so one the
    table does not hold is lost. *)
Theorem X10_subjects_with_a_uri_are_replaced_or_lost :
  forall ds set_null_allowed tableName ctx record req,
    out_request (expandSubjectTermsFunction_request ctx) = Some req ->
    snd (ds req) = None ->
    Json2.as_list (Json.field (stash ctx) "subjectsAfter") = [] ->
    Json2.as_map (Json.field (stash ctx) "itemRecord") = Some record ->
    let found :=
      if forallb has_no_uri (subjects_of ctx) then []
      else batch_items tableName (fst (ds req)) in
    exists body st,
      snd (invoke ds (expandSubjectTermsFunction set_null_allowed tableName) ctx)
      = Returned (JMap body) st
      /\ VMap.get "subjects" body
         = Some (JList (map (strip_record set_null_allowed) found
                        ++ filter has_no_uri (subjects_of ctx)))
      /\ forall k, String.eqb k "subjects" = false -> VMap.get k body = VMap.get k record.
Proof.
  intros ds sna tn ctx record req Hreq Herr Hafter Hrec found.
  unfold invoke, expandSubjectTermsFunction. cbn [t_request t_response].
  rewrite Hreq.
  match goal with |- context [snd (_, ?x)] => change (snd (_, x)) with x end.
  unfold expandSubjectTermsFunction_response. cbn [with_result with_stash error stash result].
  rewrite Herr.
  revert Hreq. unfold expandSubjectTermsFunction_request. cbv zeta.
  fold (subjects_of ctx).
  destruct (subject_fold (subjects_of ctx) [] [] eq_refl (NoDup_nil _) (fun H => H))
    as (uris & -> & Hnd & Hne & Hm).
  assert (Hall : forallb has_no_uri (subjects_of ctx) = VMap.isEmpty (map term_key uris)).
  { destruct uris as [|u uris]; cbn [map VMap.isEmpty].
    - apply forallb_forall. intros s Hs. apply has_no_uri_iff.
      destruct (String.eqb_spec (uri_of s) "") as [E|E]; [exact E|].
      exfalso. assert (In (uri_of s) []) as [] by (apply Hm; right; split; eauto).
    - apply not_true_is_false. intros H. rewrite forallb_forall in H.
      assert (Hu : In u (u :: uris)) by now left.
      apply Hm in Hu as [[]|(Hu & s & Hs & E)]. apply Hu. rewrite <- E.
      apply has_no_uri_iff. now apply H. }
  assert (Hs : subjects_of ctx
               = Json2.as_list (Json.field (Json2.entries (Some record)) "subjects"))
    by (unfold subjects_of; now rewrite Hrec).
  subst found. rewrite Hall.
  destruct (VMap.isEmpty (map term_key uris)); cbn [negb out_stash out_request];
    intros _;
    rewrite ?field_put_same;
    rewrite ?(field_put_other "subjectsBefore") by reflexivity;
    rewrite ?(field_put_other "itemRecord") by reflexivity;
    rewrite ?field_put_same; rewrite Hrec;
    cbn [Json2.mput option_map Json2.of_map];
    (rewrite keep_subject_fold;
     [|cbn [stash with_result with_stash]; rewrite ?(field_put_other "subjectsAfter") by reflexivity; exact Hafter]);
    eexists; eexists; (split; [reflexivity|]); (split; [rewrite Hs; apply get_put_same|]);
    intros k Hk; now apply get_put_other.
Qed.


Lemma toUpper_nonempty s : s <> "" -> String.eqb (Util.toUpper s) "" = false.
Proof. intros H. apply String.eqb_neq. now rewrite toUpper_empty. Qed.

Lemma supplemental_match_wanted a b item :
  let id := Spec.substitute_empty a in
  let websiteId := Spec.substitute_empty b in
  let rec := Json2.entries (Json2.as_map item) in
  supplemental_match (Some (Util.toUpper id)) (Some (Util.toUpper websiteId)) item
  = wanted a (Json.fieldS rec "id") && wanted b (Json.fieldS rec "websiteId").
Proof.
  cbv zeta. unfold supplemental_match, wanted. cbv zeta.
  set (x := Spec.substitute_empty a). set (y := Spec.substitute_empty b).
  set (i := Json2.eqS (Util.toUpper' _) (Some (Util.toUpper x))).
  set (w := Json2.eqS (Util.toUpper' _) (Some (Util.toUpper y))).
  cbn [Json2.eqS].
  destruct (String.eqb_spec x "") as [->|Hx], (String.eqb_spec y "") as [->|Hy];
    cbn [Util.toUpper String.eqb]; rewrite ?toUpper_nonempty by assumption;
    cbn [andb orb negb]; destruct i, w; reflexivity.
Qed.

(** X11.  [listSupplementalDataRecords] sends one query, for every
    supplemental data record, without regard to its arguments, and filters
    the page it gets: a record is returned when its [id] equals the [id]
    argument and its [websiteId] equals the [websiteId] argument, both
    without regard to case; an argument that is missing, null or blank
    filters nothing.  The next token of the page is passed on as it is. *)
Theorem X11_supplemental_listing_filters_by_id_and_website :
  forall ds ctx,
    snd (ds supplemental_query) = None ->
    let page := Json2.entries (Json2.as_map (fst (ds supplemental_query))) in
    exists st,
      resolve ds QueryListSupplementalDataRecordsResolver ctx
      = ([supplemental_query],
         Returned
           (JMap [("items", JList (filter (supplemental_wanted ctx)
                                     (Json2.as_list (Json.field page "items"))));
                  ("nextToken", Json.field page "nextToken")]) st).
Proof.
  intros ds ctx Herr page.
  unfold resolve, QueryListSupplementalDataRecordsResolver, unit_resolver.
  cbn [r_functions r_template]. unfold invoke. cbn [t_request t_response].
  unfold QueryListSupplementalDataRecordsResolver_request. cbv zeta.
  cbn [out_request out_stash].
  change (Req.queryIndex "GSI1" [CEq "GSI1PK" (Req.toDynamoDBJson (Some "SUPPLEMENTALDATA"))])
    with supplemental_query.
  unfold QueryListSupplementalDataRecordsResolver_response.
  cbn [error with_result with_stash stash result]. rewrite Herr.
  unfold stashed, arg, Json.fieldS. cbn [stash args with_result with_stash].
  rewrite field_put_other by reflexivity. rewrite !field_put_same.
  fold (Json.fieldS (args ctx) "id") (Json.fieldS (args ctx) "websiteId").
  rewrite !default_empty. cbn [Json.of_str Json.str Util.toUpper' option_map].
  eexists. do 6 f_equal.
  apply filter_ext. intros item. unfold supplemental_wanted, arg.
  apply supplemental_match_wanted.
Qed.


Lemma eqS_default d v x :
  Json2.eqS (Util.defaultIfNullOrBlank v (Some d)) (Some x) = String.eqb (with_default d v) x.
Proof. destruct v as [s|]; cbn; [now destruct (Util.isBlank s)|reflexivity]. Qed.

(** X12.  [savePortfolioCollection] stores [featuredCollection] and
    [highlightedCollection] as true only when the privacy argument is
    exactly "public" and the argument is the boolean true; in every other
    case it stores false. *)
Theorem X12_collection_flags_need_public_privacy :
  forall ctx,
    exists key u,
      out_request (MutationSavePortfolioCollectionResolver_request ctx)
      = Some (Req.updateItem key u)
      /\ VMap.get ":featuredCollection" (Builder.expressionValues u)
         = Some (AttrBOOL (String.eqb (privacy_of ctx) "public"
                           && boolean_or_false (Json.field (args ctx) "featuredCollection")))
      /\ VMap.get ":highlightedCollection" (Builder.expressionValues u)
         = Some (AttrBOOL (String.eqb (privacy_of ctx) "public"
                           && boolean_or_false (Json.field (args ctx) "highlightedCollection"))).
Proof.
  intros ctx. unfold MutationSavePortfolioCollectionResolver_request. cbv zeta.
  rewrite !eqS_default. fold (privacy_of ctx).
  destruct (String.eqb (privacy_of ctx) "public"); cbv beta iota; cbn [negb andb];
    (destruct (String.eqb (privacy_of ctx) "private"); cbn [out_request];
     eexists; eexists; (split; [reflexivity|]);
     cbn [Builder.expressionValues Req.literal];
     rewrite ?get_put_same, ?get_put_other by reflexivity; split; reflexivity).
Qed.


Lemma startsWith_prefix p x y : Util.startsWith (p ++ x) (p ++ y) = Util.startsWith x y.
Proof.
  induction p as [|c p IH]; [reflexivity|].
  cbn. rewrite Ascii.eqb_refl. exact IH.
Qed.

(** X13.  A collection saved by [savePortfolioCollection] meets the key
    condition of [getExposedPortfolioCollection] exactly when it was not
    saved as private (a missing or blank privacy is private) and the
    normalized id asked for is a prefix of its normalized id: the lookup is
    by prefix, so a blank id meets every collection that is not private. *)
Theorem X13_exposed_lookup_finds_shared_collections_by_prefix :
  forall saved asked,
    exists req q,
      out_request (MutationSavePortfolioCollectionResolver_request saved) = Some req
      /\ out_request (QueryGetExposedPortfolioCollectionResolver_request asked) = Some q
      /\ meets (stored req) q
         = negb (String.eqb (privacy_of saved) "private")
           && Util.startsWith (Spec.normalize (arg asked "portfolioCollectionId"))
                (collection_id saved).
Proof.
  intros saved asked.
  unfold MutationSavePortfolioCollectionResolver_request,
    QueryGetExposedPortfolioCollectionResolver_request. cbv zeta.
  rewrite !eqS_default. fold (privacy_of saved).
  rewrite !idiom. cbn [Util.toUpper' option_map Util.ref].
  rewrite exposed_key.
  destruct (negb (String.eqb (privacy_of saved) "public")); cbv beta iota;
    (destruct (String.eqb (privacy_of saved) "private"); cbn [out_request negb andb];
     eexists; eexists; (split; [reflexivity|]); (split; [reflexivity|]);
     unfold meets, stored; rewrite key_values_update;
     [|rewrite written_collection, toUpper_normalize; fold (collection_id saved)]);
    cbn [Req.written Req.literal Builder.expressionValues Req.key_attributes flat_map
         app map fst snd query Req.queryIndex forallb Req.toDynamoDBJson Json.of_str
         Json.toDynamoDB Dynamo.holds].
  all: unfold Json.fieldS, Json.field;
    cbn [VMap.get String.eqb Ascii.eqb Bool.eqb Json.str].
  all: try reflexivity.
  all: rewrite ?get_put_other by reflexivity; cbn [VMap.get app map Json.str fst snd].
  all: try reflexivity.
  all: rewrite startsWith_prefix, andb_true_r; reflexivity.
Qed.


(** *** Removing portfolio content *)

Lemma find_request_query c :
  out_request (findPortfolioContentForUserFunction_request c)
  = Some (portfolio_query (find_prefix (stashed c "portfolioUserId")
                             (stashed c "portfolioCollectionId"))).
Proof.
  unfold findPortfolioContentForUserFunction_request. cbv zeta. cbn [out_request].
  rewrite !idiom. cbn [Json2.eqS Util.ref]. unfold find_prefix, portfolio_query.
  destruct (String.eqb _ ""); reflexivity.
Qed.

Lemma invoke_find page table other c :
  let q := portfolio_query (find_prefix (stashed c "portfolioUserId")
                              (stashed c "portfolioCollectionId")) in
  let items := JList (map JMap (firstn page (Dynamo.select table (query q)))) in
  invoke (Dynamo.source page table other) findPortfolioContentForUserFunction c
  = ([q],
     match snd (other q) with
     | Some e => FieldError (message e) (errorType e)
     | None =>
         Returned (JMap [("items", items)])
           (stash_put "portfolioRecordsToDelete" items
              (out_stash (findPortfolioContentForUserFunction_request c)))
     end).
Proof.
  cbv zeta. unfold invoke, findPortfolioContentForUserFunction. cbn [t_request t_response].
  rewrite find_request_query.
  set (q := portfolio_query _).
  unfold findPortfolioContentForUserFunction_response, Dynamo.source.
  change (String.eqb (operation q) "Query") with true. cbv iota.
  destruct (snd (other q)) as [e|]; cbn [fst snd with_result with_stash error result stash];
    reflexivity.
Qed.

Lemma delete_count l : forall acc,
  snd (fold_left
         (fun (acc : list (list (string * AttributeValue)) * Z) entry =>
            let rec := Json2.entries (Json2.as_map entry) in
            let map := [("PK", Json2.toStringAttr (Json.fieldS rec "PK"));
                        ("SK", Json2.toStringAttr (Json.fieldS rec "SK"))] in
            (VMap.add (fst acc) map, (snd acc + 1)%Z)) l acc)
  = (snd acc + Z.of_nat (length l))%Z.
Proof.
  induction l as [|e l IH]; intros acc; cbn [fold_left length]; [cbn; lia|].
  rewrite IH. cbn [snd]. lia.
Qed.

Lemma invoke_delete ds c found :
  Json.field (stash c) "portfolioRecordsToDelete" = JList (map JMap found) ->
  exists st,
    invoke ds deletePortfolioContentForUserFunction c
    = ([delete_request found],
       match snd (ds (delete_request found)) with
       | Some e => FieldError (message e) (errorType e)
       | None => Returned (JMap [("recordsDeleted", JNum (Z.of_nat (length found)))]) st
       end).
Proof.
  intros Hrec. unfold invoke, deletePortfolioContentForUserFunction. cbn [t_request t_response].
  unfold deletePortfolioContentForUserFunction_request. cbv zeta. rewrite Hrec.
  cbn [Json2.as_list].
  match goal with |- context [fold_left ?f ?l ?a] =>
    pose proof (delete_fold l a) as E; pose proof (delete_count l a) as N;
    destruct (fold_left f l a) as [keys n] end.
  cbn [fst snd app] in E, N. rewrite map_map in E. rewrite length_map in N.
  change (map _ found) with (map record_key found) in E. subst keys n.
  unfold delete_request, deletePortfolioContentForUserFunction_response.
  destruct found as [|r found];
    cbn [map VMap.isEmpty negb out_request out_stash VMap.add app Json2.toStringAttr];
    fold no_key; eexists;
    (match goal with |- context [snd (ds ?r)] => destruct (snd (ds r)) end;
     cbn [with_result with_stash error stash]; [reflexivity|];
     rewrite field_put_other by reflexivity;
     rewrite field_put_other by reflexivity;
     rewrite field_put_same; reflexivity).
Qed.


Lemma source_other page table other op ks :
  String.eqb op "Query" = false ->
  Dynamo.source page table other (Req.batchOp op ks) = other (Req.batchOp op ks).
Proof. intros H. unfold Dynamo.source. cbn [operation Req.batchOp]. now rewrite H. Qed.

Lemma portfolio_run page table other c :
  let q := portfolio_query (find_prefix (stashed c "portfolioUserId")
                              (stashed c "portfolioCollectionId")) in
  let found := firstn page (Dynamo.select table (query q)) in
  snd (other q) = None ->
  snd (other (delete_request found)) = None ->
  exists st,
    run_functions (Dynamo.source page table other)
      [findPortfolioContentForUserFunction; deletePortfolioContentForUserFunction] c
    = ([q; delete_request found],
       Returned (JMap [("recordsDeleted", JNum (Z.of_nat (length found)))]) st).
Proof.
  intros q found Hq Hd. cbn [run_functions].
  pose proof (invoke_find page table other c) as E. cbv zeta in E.
  fold q in E. fold found in E. rewrite Hq in E. rewrite E. cbn [fst snd].
  match goal with |- context [invoke ?ds _ ?c'] =>
    destruct (invoke_delete ds c' found) as [st E'];
      [cbn [stash with_result with_stash]; apply field_put_same|] end.
  rewrite E'. unfold delete_request in *. rewrite source_other by reflexivity.
  rewrite Hd. cbn [fst snd app]. exists st. reflexivity.
Qed.

Lemma portfolio_run_stops page table other c e :
  let q := portfolio_query (find_prefix (stashed c "portfolioUserId")
                              (stashed c "portfolioCollectionId")) in
  snd (other q) = Some e ->
  run_functions (Dynamo.source page table other)
    [findPortfolioContentForUserFunction; deletePortfolioContentForUserFunction] c
  = ([q], FieldError (message e) (errorType e)).
Proof.
  intros q Hq. cbn [run_functions].
  pose proof (invoke_find page table other c) as E. cbv zeta in E.
  fold q in E. rewrite Hq in E. rewrite E. reflexivity.
Qed.

Lemma stashed_user u x st :
  Json.fieldS (stash_put "portfolioCollectionId" x
                 (stash_put "portfolioUserId" (Json.of_str u) st)) "portfolioUserId" = u.
Proof.
  unfold Json.fieldS. rewrite field_put_other by reflexivity. rewrite field_put_same.
  now destruct u.
Qed.

Lemma stashed_collection x st :
  Json.fieldS (stash_put "portfolioCollectionId" (JStr x) st) "portfolioCollectionId" = Some x.
Proof. unfold Json.fieldS. now rewrite field_put_same. Qed.

(** X14.  [removePortfolioUser], when its two requests do not fail:
    the query is for the records of partition "PORTFOLIO" whose sort key
    begins with "USER#" and the normalized netid, with no separator after
    it; the [BatchDeleteItem] names the keys of the first page of them (the
    key that finds nothing when there is none), and the response counts
    them. *)
Theorem X14_remove_user_deletes_the_first_page_under_the_prefix :
  forall page table other ctx,
    let q := portfolio_query ("USER#" ++ Spec.normalize (claim ctx "netid")) in
    let found := firstn page (Dynamo.select table (query q)) in
    snd (other q) = None ->
    snd (other (delete_request found)) = None ->
    exists st,
      resolve (Dynamo.source page table other) MutationRemovePortfolioUserResolver ctx
      = ([q; delete_request found],
         Returned (JMap [("recordsDeleted", JNum (Z.of_nat (length found)))]) st).
Proof.
  intros page table other ctx q found Hq Hd.
  unfold resolve, MutationRemovePortfolioUserResolver, pipeline_resolver.
  cbn [r_functions r_template t_request t_response].
  unfold MutationRemovePortfolioUserResolver_request. cbv zeta.
  cbn [out_stash stash with_stash claim claims].
  match goal with |- context [run_functions _ _ ?c] =>
    pose proof (portfolio_run page table other c) as R end.
  cbv zeta in R. unfold stashed in R. cbn [stash with_stash] in R.
  rewrite !stashed_user, !stashed_collection in R.
  unfold claim in *. cbn [claims with_stash] in *.
  change (find_prefix ?u (Some "")) with ("USER#" ++ Spec.normalize u) in R.
  destruct (R Hq Hd) as [st E]. rewrite E. cbn [fst snd]. exists st. reflexivity.
Qed.


Lemma is_whitespace_upper c : Util.is_whitespace (Util.upper_ascii c) = Util.is_whitespace c.
Proof. destruct c as [[] [] [] [] [] [] [] []]; reflexivity. Qed.

Lemma isBlank_normal s :
  Util.isBlank (Spec.remove_spaces (Util.toUpper s)) = Util.isBlank s.
Proof.
  induction s as [|c s IH]; [reflexivity|].
  cbn [Util.toUpper Spec.remove_spaces]. rewrite upper_ascii_space.
  destruct (Ascii.eqb_spec c " ") as [->|_]; [exact IH|].
  cbn [Util.isBlank]. now rewrite is_whitespace_upper, IH.
Qed.

Lemma normalize_idem v : Spec.normalize (Some (Spec.normalize v)) = Spec.normalize v.
Proof.
  unfold Spec.normalize at 1. cbn [Spec.substitute_empty].
  destruct (Util.isBlank (Spec.normalize v)) eqn:B.
  - unfold Spec.normalize in *. rewrite isBlank_normal in B.
    destruct v as [s|]; cbn [Spec.substitute_empty] in *; [|reflexivity].
    destruct (Util.isBlank s) eqn:B'; [reflexivity|congruence].
  - now rewrite toUpper_normalize, remove_spaces_normalize.
Qed.

(** X15.  [removePortfolioCollection], when its two requests do not
    fail, deletes the first page of the records whose sort key begins with
    "USER#", the normalized netid, "#" and the normalized collection id;
    with a blank collection id the prefix is the user's, and every record
    of the user is deleted. *)
Theorem X15_remove_collection_deletes_by_prefix :
  forall page table other ctx,
    let q := portfolio_query
               (find_prefix (claim ctx "netid") (arg ctx "portfolioCollectionId")) in
    let found := firstn page (Dynamo.select table (query q)) in
    snd (other q) = None ->
    snd (other (delete_request found)) = None ->
    exists st,
      resolve (Dynamo.source page table other) MutationRemovePortfolioCollectionResolver ctx
      = ([q; delete_request found],
         Returned (JMap [("recordsDeleted", JNum (Z.of_nat (length found)))]) st).
Proof.
  intros page table other ctx q found Hq Hd.
  unfold resolve, MutationRemovePortfolioCollectionResolver, pipeline_resolver.
  cbn [r_functions r_template t_request t_response].
  unfold MutationRemovePortfolioCollectionResolver_request. cbv zeta.
  rewrite idiom. cbn [out_stash stash with_stash Json.of_str].
  match goal with |- context [run_functions _ _ ?c] =>
    pose proof (portfolio_run page table other c) as R end.
  cbv zeta in R. unfold stashed in R. cbn [stash with_stash] in R.
  rewrite !stashed_user, !stashed_collection in R.
  unfold find_prefix in R. rewrite !normalize_idem in R.
  unfold q, found, find_prefix in *.
  unfold claim, arg in *. cbn [claims args with_stash] in *.
  destruct (R Hq Hd) as [st E]. rewrite E. cbn [fst snd]. exists st. reflexivity.
Qed.


Lemma portfolio_requests page table other c :
  let q := portfolio_query (find_prefix (stashed c "portfolioUserId")
                              (stashed c "portfolioCollectionId")) in
  let found := firstn page (Dynamo.select table (query q)) in
  snd (other q) = None ->
  fst (run_functions (Dynamo.source page table other)
         [findPortfolioContentForUserFunction; deletePortfolioContentForUserFunction] c)
  = [q; delete_request found].
Proof.
  intros q found Hq. cbn [run_functions].
  pose proof (invoke_find page table other c) as E. cbv zeta in E.
  fold q in E. fold found in E. rewrite Hq in E. rewrite E. cbn [fst snd].
  match goal with |- context [invoke ?ds _ ?c'] =>
    destruct (invoke_delete ds c' found) as [st E'];
      [cbn [stash with_result with_stash]; apply field_put_same|] end.
  rewrite E'. cbn [fst snd].
  destruct (snd (Dynamo.source page table other (delete_request found))); reflexivity.
Qed.

Lemma startsWith_self p rest : Util.startsWith p (p ++ rest) = true.
Proof. induction p as [|c p IH]; cbn; [reflexivity|]. now rewrite Ascii.eqb_refl. Qed.

Lemma firstn_all_le {A} n (l : list A) : (length l <= n)%nat -> firstn n l = l.
Proof. intros H. now apply firstn_all2. Qed.

(** X16.  The prefix of [removePortfolioCollection] ends with the
    collection id, not with a separator: when the table fits in one page,
    a record of the partition "PORTFOLIO" whose sort key begins with the
    prefix is among the keys deleted whatever follows the prefix, be it an
    item of the collection or the rest of a longer collection id. *)
Theorem X16_remove_collection_reaches_longer_collection_ids :
  forall page table other ctx item rest,
    let prefix := find_prefix (claim ctx "netid") (arg ctx "portfolioCollectionId") in
    snd (other (portfolio_query prefix)) = None ->
    (length table <= page)%nat ->
    In item table ->
    Json.fieldS item "PK" = Some "PORTFOLIO" ->
    Json.fieldS item "SK" = Some (prefix ++ rest) ->
    exists keys,
      requests (Dynamo.source page table other) MutationRemovePortfolioCollectionResolver ctx
      = [portfolio_query prefix; Req.batchOp "BatchDeleteItem" keys]
      /\ In (record_key item) keys.
Proof.
  intros page table other ctx item rest prefix Hq Hlen Hin Hpk Hsk.
  unfold requests, resolve, MutationRemovePortfolioCollectionResolver, pipeline_resolver.
  cbn [r_functions r_template t_request t_response fst].
  unfold MutationRemovePortfolioCollectionResolver_request. cbv zeta.
  rewrite idiom. cbn [out_stash stash with_stash Json.of_str].
  match goal with |- context [run_functions _ _ ?c] =>
    pose proof (portfolio_requests page table other c) as R end.
  cbv zeta in R. unfold stashed in R. cbn [stash with_stash] in R.
  rewrite !stashed_user, !stashed_collection in R.
  unfold find_prefix in R. rewrite !normalize_idem in R.
  unfold prefix, find_prefix in *.
  unfold claim, arg in *. cbn [claims args with_stash] in *.
  rewrite (R Hq). clear R.
  match goal with |- context [delete_request ?f] => set (found := f) end.
  assert (Hfound : In item found).
  { subst found. rewrite firstn_all_le.
    - unfold Dynamo.select. apply filter_In. split; [exact Hin|].
      cbn [query portfolio_query Req.queryTable forallb Dynamo.holds].
      rewrite Hpk, Hsk, startsWith_self. reflexivity.
    - unfold Dynamo.select. etransitivity; [apply filter_length_le|exact Hlen]. }
  unfold delete_request. eexists. split; [reflexivity|].
  destruct found as [|r found]; [destruct Hfound|].
  cbn [VMap.isEmpty]. apply in_map. exact Hfound.
Qed.

(** X17.  When the query of [findPortfolioContentForUserFunction] fails,
    [removePortfolioUser] and [removePortfolioCollection] return its error
    as a field error, and the query is the only request sent: nothing is
    deleted. *)
Theorem X17_failed_lookup_deletes_nothing :
  forall page table other ctx r e,
    In r [MutationRemovePortfolioUserResolver; MutationRemovePortfolioCollectionResolver] ->
    (forall q, operation q = "Query" -> snd (other q) = Some e) ->
    exists q,
      operation q = "Query"
      /\ resolve (Dynamo.source page table other) r ctx
         = ([q], FieldError (message e) (errorType e)).
Proof.
  intros page table other ctx r e Hr Hfail.
  destruct Hr as [<-|[<-|[]]];
    unfold resolve, MutationRemovePortfolioUserResolver,
      MutationRemovePortfolioCollectionResolver, pipeline_resolver;
    cbn [r_functions r_template t_request t_response];
    match goal with |- context [run_functions _ _ ?c] =>
      pose proof (portfolio_run_stops page table other c e) as R
    end;
    cbv zeta in R; rewrite R by (apply Hfail; reflexivity);
    eexists; (split; [|reflexivity]); reflexivity.
Qed.


(** *** An item the table does not hold *)

Lemma merged_request sna ctx :
  getMergedItemRecordFunction_request sna ctx
  = {| out_stash := out_stash (getMergedItemRecordFunction_request sna ctx);
       out_request := Some (item_query (merged_id sna ctx)) |}.
Proof.
  unfold getMergedItemRecordFunction_request, item_query, merged_id.
  cbn [out_stash Req.toDynamoDBJson Json.toDynamoDB Json.of_str]. do 6 f_equal.
  set (id0 := Util.defaultIfNullOrBlank (stashed ctx "itemId") (src ctx "itemId")).
  set (id1 := vset sna id0 (Util.defaultIfNullOrBlank id0 (src ctx "id"))).
  assert (E1 : Spec.normalize id1
               = Spec.normalize (Util.defaultIfNullOrBlank id0 (src ctx "id"))).
  { unfold id1, vset.
    destruct (Util.defaultIfNullOrBlank id0 (src ctx "id")) as [x|] eqn:E; [reflexivity|].
    destruct sna; [reflexivity|].
    destruct id0 as [s|]; [|reflexivity]. cbn in E.
    unfold Spec.normalize. cbn. destruct (Util.isBlank s); [reflexivity|discriminate]. }
  set (id2 := vset sna id1 (Util.defaultIfNullOrBlank None (src ctx "itemMetadataId"))).
  assert (E2 : Spec.normalize id2
               = Spec.normalize match src ctx "itemMetadataId" with
                                | Some m => Some m
                                | None => if sna then None
                                          else Util.defaultIfNullOrBlank id0 (src ctx "id")
                                end).
  { unfold id2, vset. cbn [Util.defaultIfNullOrBlank].
    destruct (src ctx "itemMetadataId"); [reflexivity|]. destruct sna; [reflexivity|exact E1]. }
  rewrite <- E2. clearbody id2. clear.
  rewrite !default_empty. unfold vset. cbn [Util.toUpper' Util.toReplace' option_map Util.ref].
  rewrite ?default_empty. cbn [Util.toUpper' Util.toReplace' option_map Util.ref].
  rewrite ?substitute_empty_again, toReplace_space. reflexivity.
Qed.

Lemma invoke_merged_none page table other sna c :
  let q := item_query (merged_id sna c) in
  snd (other q) = None ->
  Dynamo.select table (query q) = [] ->
  invoke (Dynamo.source page table other) (getMergedItemRecordFunction sna) c
  = ([q], Returned (JMap [])
            (stash_put "itemRecord" (JMap [])
               (out_stash (getMergedItemRecordFunction_request sna c)))).
Proof.
  intros q Hq Hnone. unfold invoke, getMergedItemRecordFunction. cbn [t_request t_response].
  rewrite merged_request. cbn [out_request out_stash]. fold q.
  unfold getMergedItemRecordFunction_response, Dynamo.source.
  change (String.eqb (operation q) "Query") with true. cbv iota.
  rewrite Hq, Hnone. cbn [fst snd with_result error]. rewrite firstn_nil.
  unfold merged_results. cbn [result map Json2.as_map Json2.entries with_result].
  unfold Json.field at 1. cbn [VMap.get String.eqb Ascii.eqb Bool.eqb Json2.as_list fold_left].
  reflexivity.
Qed.

Lemma invoke_expand_none ds sna tn c :
  Json.field (stash c) "itemRecord" = JMap [] ->
  snd (ds (Req.batchOp "BatchGetItem" [no_key])) = None ->
  exists st,
    invoke ds (expandSubjectTermsFunction sna tn) c
    = ([Req.batchOp "BatchGetItem" [no_key]], Returned (JMap [("subjects", JList [])]) st).
Proof.
  intros Hrec Hp. unfold invoke, expandSubjectTermsFunction. cbn [t_request t_response].
  unfold expandSubjectTermsFunction_request. cbv zeta. rewrite Hrec.
  cbn [Json2.as_map Json2.entries]. change (Json.field [] "subjects") with JNull.
  cbn [VMap.get Json2.as_list fold_left VMap.isEmpty negb out_request out_stash VMap.add app
       Json2.toStringAttr map].
  fold no_key. rewrite Hp.
  unfold expandSubjectTermsFunction_response. cbn [error with_result with_stash stash result].
  rewrite field_put_same.
  rewrite !(field_put_other "subjectsBefore") by reflexivity. rewrite field_put_same.
  rewrite !(field_put_other "itemRecord") by reflexivity. rewrite Hrec.
  cbn [map Json2.as_list fold_left Json2.as_map Json2.mput option_map VMap.put Json2.of_map].
  eexists. reflexivity.
Qed.

(** X18.  [getItem] for an id under which the table holds no record
    sends the query and a [BatchGetItem] for the key that finds nothing,
    and returns an object whose only member is an empty [subjects] list,
    not null. *)
Theorem X18_unknown_item_is_an_object_without_subjects :
  forall page table other sna tn ctx,
    let q := item_query (asked_id sna ctx) in
    let placeholder := Req.batchOp "BatchGetItem" [no_key] in
    snd (other q) = None ->
    snd (other placeholder) = None ->
    Dynamo.select table (query q) = [] ->
    exists st,
      resolve (Dynamo.source page table other) (QueryGetItemResolver sna tn) ctx
      = ([q; placeholder], Returned (JMap [("subjects", JList [])]) st).
Proof.
  intros page table other sna tn ctx q placeholder Hq Hp Hnone.
  unfold resolve, QueryGetItemResolver, pipeline_resolver.
  cbn [r_functions r_template t_request t_response].
  unfold QueryGetItemResolver_request. cbv zeta. cbn [out_stash].
  cbn [run_functions].
  match goal with |- context [invoke _ (getMergedItemRecordFunction sna) ?c] =>
    pose proof (invoke_merged_none page table other sna c) as M;
    assert (Hid : merged_id sna c = asked_id sna ctx)
  end.
  { unfold merged_id, asked_id, stashed, src, arg, Json.fieldS. cbn [stash source with_stash args].
    rewrite field_put_other by reflexivity. rewrite field_put_same. reflexivity. }
  cbv zeta in M. rewrite Hid in M. fold q in M. rewrite (M Hq Hnone). clear M.
  cbn [fst snd].
  match goal with |- context [invoke ?ds (expandSubjectTermsFunction sna tn) ?c] =>
    destruct (invoke_expand_none ds sna tn c) as [st E]
  end.
  { cbn [stash with_result with_stash]. apply field_put_same. }
  { unfold Dynamo.source. cbn [operation Req.batchOp String.eqb Ascii.eqb Bool.eqb].
    exact Hp. }
  rewrite E. cbn [fst snd app result stash with_result with_stash dynamoDbResultItem].
  eexists. reflexivity.
Qed.


(** *** The merge of the records of an item *)

(** X21.  The merge of [getMergedItemRecordFunction] starts again at
    every record of type "Item": what the records before it contributed,
    supplemental data or a parent override, is dropped, so the response is
    that of the records from the last "Item" record on. *)
Theorem X21_item_record_resets_the_merge :
  forall sna ctx before item after,
    Json.fieldS (Json2.entries (Json2.as_map item)) "TYPE" = Some "Item" ->
    Json2.as_list (Json.field (Json2.entries (Json2.as_map (result ctx))) "items")
    = (before ++ item :: after)%list ->
    getMergedItemRecordFunction_response sna ctx
    = getMergedItemRecordFunction_response sna
        (with_result ctx (JMap [("items", JList (item :: after))]) (error ctx)).
Proof.
  intros sna ctx before item after Htype Hitems.
  unfold getMergedItemRecordFunction_response. cbn [error with_result stash].
  destruct (error ctx); [reflexivity|].
  assert (E : merged_results sna ctx
              = merged_results sna
                  (with_result ctx (JMap [("items", JList (item :: after))]) None)).
  { unfold merged_results. rewrite Hitems, fold_left_app.
    cbn [result with_result stash Json2.as_map Json2.entries Json2.as_list fold_left].
    unfold stashed. cbn [stash with_result].
    change (Json.field [("items", JList (item :: after))] "items") with (JList (item :: after)).
    cbn [Json2.as_list fold_left]. f_equal.
    unfold merge_record. rewrite Htype. reflexivity. }
  now rewrite E.
Qed.

(** *** The items of a website *)

Lemma append_inv_head p a b : (p ++ a)%string = (p ++ b)%string -> a = b.
Proof. induction p as [|c p IH]; cbn; [tauto|]. intros [= H]. now apply IH. Qed.

(** X19.  [addItemToWebsite], [removeItemFromWebsite] and
    [listItemsByWebsite] agree on keys up to case and spaces: the key
    removed is the key added exactly when the website ids and the item ids
    are the same after normalization, and the record added meets the key
    condition of the listing exactly when the id listed and the website id
    added are. *)
Theorem X19_website_item_keys_ignore_case_and_spaces :
  forall added asked,
    exists put del q,
      out_request (MutationAddItemToWebsiteResolver_request added) = Some put
      /\ out_request (MutationRemoveItemFromWebsiteResolver_request asked) = Some del
      /\ out_request (QueryListItemsByWebsiteResolver_request asked) = Some q
      /\ (key del = key put
          <-> Spec.normalize (arg asked "websiteId") = Spec.normalize (arg added "websiteId")
              /\ Spec.normalize (arg asked "itemId") = Spec.normalize (arg added "itemId"))
      /\ meets (stored put) q
         = String.eqb (Spec.normalize (arg asked "id")) (Spec.normalize (arg added "websiteId")).
Proof.
  intros added asked.
  unfold MutationAddItemToWebsiteResolver_request, MutationRemoveItemFromWebsiteResolver_request,
    QueryListItemsByWebsiteResolver_request. cbv zeta. rewrite !idiom.
  cbn [out_request Util.ref Req.toDynamoDBJson Json.of_str Json.toDynamoDB].
  eexists; eexists; eexists.
  split; [reflexivity|]. split; [reflexivity|]. split; [reflexivity|]. split.
  - cbn [key Req.deleteItem Req.updateItem]. split.
    + intros [= H1 H2]. split; assumption.
    + intros [-> ->]. reflexivity.
  - unfold meets, stored. rewrite key_values_update.
    cbn [app map fst snd query Req.queryTable forallb Dynamo.holds].
    unfold Json.fieldS, Json.field. cbn [VMap.get String.eqb Ascii.eqb Bool.eqb Json.str].
    rewrite andb_true_r.
    change ("WEBSITE#" ++ ?x) with (String "W" (String "E" (String "B" (String "S"
      (String "I" (String "T" (String "E" (String "#" x)))))))).
    cbn [String.eqb Ascii.eqb Bool.eqb]. apply String.eqb_sym.
Qed.


(** *** A portfolio item and its identifier *)

Lemma toUpper_app a b : Util.toUpper (a ++ b) = (Util.toUpper a ++ Util.toUpper b)%string.
Proof. induction a as [|c a IH]; cbn; [reflexivity|]. now rewrite IH. Qed.

Lemma remove_spaces_length s :
  (String.length (Spec.remove_spaces s) <= String.length s)%nat.
Proof.
  induction s as [|c s IH]; cbn [Spec.remove_spaces String.length]; [lia|].
  destruct (Ascii.eqb c " "); cbn [String.length]; lia.
Qed.

Lemma no_space_iff s :
  Spec.remove_spaces (Util.toUpper s) = Util.toUpper s <-> Spec.remove_spaces s = s.
Proof.
  induction s as [|c s IH]; [cbn; tauto|].
  cbn [Util.toUpper Spec.remove_spaces]. rewrite upper_ascii_space.
  destruct (Ascii.eqb c " ").
  - split; intros H; exfalso; apply (f_equal String.length) in H; cbn [String.length] in H.
    + pose proof (remove_spaces_length (Util.toUpper s)). lia.
    + pose proof (remove_spaces_length s). lia.
  - split; intros [= H]; f_equal; now apply IH.
Qed.

(** X20.  [savePortfolioItem] upper-cases the item id but keeps its
    spaces, while [getPortfolioItem] and [removePortfolioItem] remove them:
    for a signed-in user and one and the same arguments, the key read and
    the key deleted are the key saved exactly when the item id has no
    space. *)
Theorem X20_portfolio_item_is_found_again_unless_its_id_has_a_space :
  forall sna ot ctx u i,
    claim ctx "netid" = Some u ->
    arg ctx "portfolioItemId" = Some i ->
    Util.isBlank i = false ->
    exists put get del,
      out_request (MutationSavePortfolioItemResolver_request sna ot ctx) = Some put
      /\ out_request (QueryGetPortfolioItemResolver_request ctx) = Some get
      /\ out_request (MutationRemovePortfolioItemResolver_request ctx) = Some del
      /\ (key get = key put <-> Spec.remove_spaces i = i)
      /\ (key del = key put <-> Spec.remove_spaces i = i).
Proof.
  intros sna ot ctx u i Hu Hi Hb.
  unfold MutationSavePortfolioItemResolver_request, QueryGetPortfolioItemResolver_request,
    MutationRemovePortfolioItemResolver_request. cbv zeta.
  assert (D : forall d, Util.defaultIfNullOrBlank (Some i) d = Some i)
    by (intros d; cbn; now rewrite Hb).
  rewrite !idiom, Hu, Hi. unfold vset. repeat (rewrite !D; cbv beta iota).
  cbn [Util.ref Util.toUpper' option_map].
  match goal with |- context [if ?e then _ else _] => destruct e end;
    cbn [out_request]; eexists; eexists; eexists;
    (split; [reflexivity|]); (split; [reflexivity|]); (split; [reflexivity|]);
    cbn [key Req.getItem Req.updateItem Req.deleteItem Req.toDynamoDBJson Json.of_str
         Json.toDynamoDB];
    rewrite <- no_space_iff;
    assert (N : Spec.normalize (Some i) = Spec.remove_spaces (Util.toUpper i))
      by (unfold Spec.normalize; cbn [Spec.substitute_empty]; now rewrite Hb);
    rewrite N, !toUpper_app, !toUpper_normalize, !toUpper_remove_spaces, !toUpper_idem;
    (split; (split; [intros [= H];
                     repeat first [apply append_inv_head in H | injection H as H];
                     exact H
                    |intros ->; reflexivity])).
Qed.

(** *** The properties on the sample table *)

(** X10 on the sample item: the subject with a uri, which the table does
    not hold, is not in the record returned. *)
Lemma X10_witness :
  exists body st,
    snd (invoke SampleTable.no_terms (expandSubjectTermsFunction false SampleVtl.tableName)
           SampleTable.two_subjects)
    = Returned (JMap body) st
    /\ VMap.get "subjects" body = Some (JList [JMap [("term", JStr "Saints")]])
    /\ forall k, String.eqb k "subjects" = false ->
         VMap.get k body = VMap.get k [("id", JStr "abc");
           ("subjects",
            JList [JMap [("term", JStr "Saints")];
                   JMap [("term", JStr "Art"); ("uri", JStr "http://example.org/art")]])].
Proof.
  apply (X10_subjects_with_a_uri_are_replaced_or_lost SampleTable.no_terms false
           SampleVtl.tableName SampleTable.two_subjects _
           (Req.batchOp "BatchGetItem" [term_key "HTTP://EXAMPLE.ORG/ART"]));
    reflexivity.
Defined.

(** X11 on the sample table: of the two records, the one of the website
    asked for is returned. *)
Lemma X11_witness :
  let page := Json2.entries (Json2.as_map (fst (SampleTable.dynamo supplemental_query))) in
  exists st,
    resolve SampleTable.dynamo QueryListSupplementalDataRecordsResolver SampleTable.of_marble
    = ([supplemental_query],
       Returned
         (JMap [("items", JList (filter (supplemental_wanted SampleTable.of_marble)
                                   (Json2.as_list (Json.field page "items"))));
                ("nextToken", Json.field page "nextToken")]) st).
Proof.
  apply (X11_supplemental_listing_filters_by_id_and_website SampleTable.dynamo
           SampleTable.of_marble).
  reflexivity.
Defined.

(** X14 on the sample table: removing the user "jd oe" deletes the five
    portfolio records, the collection of the user "jdoel" among them. *)
Lemma X14_witness :
  let q := portfolio_query "USER#JDOE" in
  let found := firstn 10 (Dynamo.select SampleTable.table (query q)) in
  length found = 5%nat
  /\ exists st,
       resolve SampleTable.dynamo MutationRemovePortfolioUserResolver (SampleRun.signed_in [])
       = ([q; delete_request found],
          Returned (JMap [("recordsDeleted", JNum (Z.of_nat (length found)))]) st).
Proof.
  split; [reflexivity|].
  apply (X14_remove_user_deletes_the_first_page_under_the_prefix 10 SampleTable.table
           SampleRun.quiet (SampleRun.signed_in [])); reflexivity.
Defined.

(** X15 on the sample table: removing the collection "trip" deletes three
    records. *)
Lemma X15_witness :
  let q := portfolio_query "USER#JDOE#TRIP" in
  let found := firstn 10 (Dynamo.select SampleTable.table (query q)) in
  length found = 3%nat
  /\ exists st,
       resolve SampleTable.dynamo MutationRemovePortfolioCollectionResolver
         SampleTable.remove_trip
       = ([q; delete_request found],
          Returned (JMap [("recordsDeleted", JNum (Z.of_nat (length found)))]) st).
Proof.
  split; [reflexivity|].
  apply (X15_remove_collection_deletes_by_prefix 10 SampleTable.table
           SampleRun.quiet SampleTable.remove_trip); reflexivity.
Defined.

(** X16 on the sample table: removing the collection "trip" deletes the
    collection "trips" too. *)
Lemma X16_witness :
  exists keys,
    requests SampleTable.dynamo MutationRemovePortfolioCollectionResolver
      SampleTable.remove_trip
    = [portfolio_query "USER#JDOE#TRIP"; Req.batchOp "BatchDeleteItem" keys]
    /\ In [("PK", AttrS "PORTFOLIO"); ("SK", AttrS "USER#JDOE#TRIPS")] keys.
Proof.
  apply (X16_remove_collection_reaches_longer_collection_ids 10 SampleTable.table
           SampleRun.quiet SampleTable.remove_trip
           (SampleTable.record "PORTFOLIO" "USER#JDOE#TRIPS"
              [("TYPE", JStr "PortfolioCollection")]) "S").
  - reflexivity.
  - vm_compute. lia.
  - do 3 right. left. reflexivity.
  - reflexivity.
  - reflexivity.
Defined.

(** X17 on a data source that fails: one query, and its error. *)
Lemma X17_witness :
  exists q,
    operation q = "Query"
    /\ resolve (Dynamo.source 10 SampleTable.table SampleTable.broken)
         MutationRemovePortfolioUserResolver (SampleRun.signed_in [])
       = ([q], FieldError (message SampleRun.failure) (errorType SampleRun.failure)).
Proof.
  apply (X17_failed_lookup_deletes_nothing 10 SampleTable.table SampleTable.broken).
  - left. reflexivity.
  - reflexivity.
Defined.

(** X18 on the sample table, which holds no record of the item "abc 123". *)
Lemma X18_witness :
  exists st,
    resolve SampleTable.dynamo (QueryGetItemResolver false SampleVtl.tableName) SampleRun.by_id
    = ([item_query (Some "abc 123"); Req.batchOp "BatchGetItem" [no_key]],
       Returned (JMap [("subjects", JList [])]) st).
Proof.
  apply (X18_unknown_item_is_an_object_without_subjects 10 SampleTable.table SampleRun.quiet
           false SampleVtl.tableName SampleRun.by_id); reflexivity.
Defined.

(** X21 on a page where supplemental data comes before the item record:
    the note it carries is not in the record returned. *)
Lemma X21_witness :
  getMergedItemRecordFunction_response false SampleTable.merged
  = getMergedItemRecordFunction_response false
      (with_result SampleTable.merged
         (JMap [("items", JList [SampleTable.item_record])]) None).
Proof.
  apply (X21_item_record_resets_the_merge false SampleTable.merged
           [SampleTable.note_record] SampleTable.item_record []); reflexivity.
Defined.

(** X20 on an item id with a space: neither the key read nor the key
    deleted is the key saved. *)
Lemma X20_witness :
  exists put get del,
    out_request (MutationSavePortfolioItemResolver_request false SampleVtl.object_truth
                   SampleTable.spaced_item) = Some put
    /\ out_request (QueryGetPortfolioItemResolver_request SampleTable.spaced_item) = Some get
    /\ out_request (MutationRemovePortfolioItemResolver_request SampleTable.spaced_item)
       = Some del
    /\ (key get = key put <-> Spec.remove_spaces "item 1" = "item 1")
    /\ (key del = key put <-> Spec.remove_spaces "item 1" = "item 1").
Proof.
  apply (X20_portfolio_item_is_found_again_unless_its_id_has_a_space false
           SampleVtl.object_truth SampleTable.spaced_item "jd oe" "item 1"); reflexivity.
Defined.

End FunctionFacts.

(* ------------------------------------------------------------------ *)
(** ** The rotation Lambda: failures and limits *)

Module RotationFacts.

Import Lambda LambdaSpec RotationSpec LambdaFacts.
#[local] Open Scope Z_scope.

Lemma nonempty_true s : s <> "" -> nonempty (Some s) = true.
Proof. intros H. cbn. destruct (String.eqb_spec s ""); [contradiction|reflexivity]. Qed.

Lemma days_of_int env days :
  days_of env = Some days -> int_env (DAYS_FOR_KEY_TO_LAST env) 7 = ret days.
Proof.
  unfold days_of. destruct (DAYS_FOR_KEY_TO_LAST env); intros [= <-]; reflexivity.
Qed.

(** An invocation that is [Ready] runs [_generate_new_api_key] and what
    follows it in the state left by [get_parameter] and the reading of the
    clock. *)
Lemma invoke_ready env w idp kp a days :
  Ready env w idp kp a days ->
  invoke env w
  = (new_api_key <- _generate_new_api_key a (expiry days (first_reading w)) ;;
     if nonempty (Some new_api_key)
     then _save_secure_parameter kp new_api_key ;; _delete_expired_api_keys a
     else ret tt)%lambda
      {| world := after_reading w; calls := [GetParameter idp];
         deadline := clock w + timeout |}.
Proof.
  intros [Hidp Hidp' Hkp Hkp' Hdays Hget Ha Ha' Htime Hrange].
  unfold invoke, run. rewrite Hidp, Hkp, (days_of_int _ _ Hdays).
  unfold bind at 1. unfold ret at 1.
  rewrite (nonempty_true _ Hidp').
  unfold bind at 1. unfold _get_parameter, except_ClientError, bind at 1, call.
  cbn [world calls deadline faults app]. rewrite Hget. cbn [world ssm]. rewrite Ha.
  rewrite (nonempty_true _ Ha'), (nonempty_true _ Hkp'). cbn [andb].
  unfold bind at 1. unfold _get_expire_time, bind at 1, now.
  cbn [world calls deadline ticks clock]. fold (first_reading w).
  replace (clock w + timeout <? first_reading w) with false by (symmetry; apply Z.ltb_ge; lia).
  rewrite min_364.
  replace (first_reading w + Z.min days 364 * day_seconds * micro <? datetime_min) with false
    by (symmetry; apply Z.ltb_ge; lia).
  replace (datetime_max <? first_reading w + Z.min days 364 * day_seconds * micro) with false
    by (symmetry; apply Z.ltb_ge; lia).
  cbn [orb]. unfold ret at 1. reflexivity.
Qed.

(** X1.  When the API id cannot be had, the invocation ends quietly:
    if [get_parameter] fails ([_get_parameter] catches the [ClientError]),
    or the parameter is missing or empty, [run] returns without an
    exception after that one call, and SSM and AppSync are as they were. *)
Theorem X1_unreadable_api_id_ends_quietly :
  forall env w idp,
    GRAPHQL_API_ID_KEY_PATH env = Some idp -> idp <> "" ->
    DAYS_FOR_KEY_TO_LAST env <> OtherText ->
    faults w (GetParameter idp) = true
    \/ VMap.get idp (ssm w) = None \/ VMap.get idp (ssm w) = Some "" ->
    invoke env w
    = (inr tt, {| world := w; calls := [GetParameter idp]; deadline := clock w + timeout |}).
Proof.
  intros env w idp Hidp Hidp' Hdays H.
  unfold invoke, run. rewrite Hidp.
  destruct (DAYS_FOR_KEY_TO_LAST env) as [|z|]; [| |contradiction];
    cbn [int_env]; unfold bind at 1; unfold ret at 1;
    rewrite (nonempty_true _ Hidp');
    unfold bind at 1; unfold _get_parameter, except_ClientError, bind at 1, call;
    cbn [world calls deadline faults app];
    (destruct (faults w (GetParameter idp)) eqn:Fg;
     [unfold ret; destruct w; reflexivity|]);
    (destruct H as [H|[H|H]]; [discriminate H| |]);
    cbn [world ssm]; rewrite H;
    [destruct w; reflexivity
    |destruct (GRAPHQL_API_KEY_KEY_PATH env); destruct w; reflexivity
    |destruct w; reflexivity
    |destruct (GRAPHQL_API_KEY_KEY_PATH env); destruct w; reflexivity].
Qed.


(** X2.  When [create_api_key] fails the exception leaves the handler:
    nothing was caught, the only calls made are the [get_parameter] and the
    [create_api_key], and neither the parameters nor the keys changed. *)
Theorem X2_failed_create_changes_nothing :
  forall env w idp kp a days,
    Ready env w idp kp a days ->
    let c := CreateApiKey a auto_maintained (expiry days (first_reading w)) in
    faults w c = true ->
    let r := invoke env w in
    fst r = inl (ClientError c)
    /\ calls (snd r) = [GetParameter idp; c]
    /\ ssm (world (snd r)) = ssm w
    /\ api_keys (world (snd r)) = api_keys w.
Proof.
  intros env w idp kp a days Hr c Hf r.
  assert (E : r = (inl (ClientError c),
                   {| world := after_reading w; calls := [GetParameter idp; c];
                      deadline := clock w + timeout |})).
  { subst r. rewrite (invoke_ready _ _ _ _ _ _ Hr).
    unfold bind at 1. unfold _generate_new_api_key, bind at 1, call.
    cbn [world calls deadline faults after_reading app]. fold c. now rewrite Hf. }
  rewrite E. repeat split.
Qed.

(** X3.  When [put_parameter] fails after the key was created, the
    exception leaves the handler and the new key stays in AppSync while
    the parameter still holds what it held: the key is not published, and
    no expired key is deleted. *)
Theorem X3_failed_put_leaves_the_new_key_unpublished :
  forall env w idp kp a days,
    Ready env w idp kp a days ->
    let e := expiry days (first_reading w) in
    faults w (CreateApiKey a auto_maintained e) = false ->
    next_id w <> "" ->
    faults w (PutParameter kp (next_id w)) = true ->
    let r := invoke env w in
    fst r = inl (ClientError (PutParameter kp (next_id w)))
    /\ calls (snd r)
       = [GetParameter idp; CreateApiKey a auto_maintained e; PutParameter kp (next_id w)]
    /\ ssm (world (snd r)) = ssm w
    /\ api_keys (world (snd r)) = (api_keys w ++ [new_key a e w])%list.
Proof.
  intros env w idp kp a days Hr e Hc Hn Hp r.
  assert (E : r = (inl (ClientError (PutParameter kp (next_id w))),
                   {| world :=
                        {| ssm := ssm w; api_keys := (api_keys w ++ [new_key a e w])%list;
                           clock := first_reading w; ticks := tl (ticks w);
                           next_id := next_id w; page := page w; faults := faults w |};
                      calls := [GetParameter idp; CreateApiKey a auto_maintained e;
                                PutParameter kp (next_id w)];
                      deadline := clock w + timeout |})).
  { subst r. rewrite (invoke_ready _ _ _ _ _ _ Hr).
    unfold bind at 1. unfold _generate_new_api_key, bind at 1, call.
    cbn [world calls deadline faults after_reading app]. fold e. rewrite Hc.
    cbn [world next_id set_world calls deadline after_reading ssm api_keys clock ticks page
         faults].
    rewrite (nonempty_true _ Hn).
    unfold bind at 1. unfold _save_secure_parameter, bind at 1, call.
    cbn [world calls deadline faults set_world app]. now rewrite Hp. }
  rewrite E. repeat split.
Qed.

(** The API id that the invocation read. *)
Lemma outcome_calls env w c :
  In c (calls (snd (invoke env w))) ->
  match c with
  | GetParameter n => GRAPHQL_API_ID_KEY_PATH env = Some n
  | PutParameter n _ => GRAPHQL_API_KEY_KEY_PATH env = Some n
  | CreateApiKey a d e =>
      d = auto_maintained
      /\ (exists idp, GRAPHQL_API_ID_KEY_PATH env = Some idp /\ VMap.get idp (ssm w) = Some a)
      /\ exists days, days_of env = Some days /\ e = expiry days (first_reading w)
  | ListApiKeys a | DeleteApiKey a _ =>
      exists idp, GRAPHQL_API_ID_KEY_PATH env = Some idp /\ VMap.get idp (ssm w) = Some a
  end.
Proof.
  intros Hin.
  destruct (invoke_outcome env w) as
    [Hc _ _|idp Hi Hc _ _|idp kp a' days' Hi Hk Ha Hd' e' Hc _ _
    |idp kp a' days' Hi Hk Ha Hd' e' Hc _ _ _
    |idp kp a' days' ds Hi Hk Ha Hd' e' keys Hc _ _ _ _ _ _];
    rewrite Hc in Hin; cbn [In app] in Hin.
  - contradiction.
  - destruct Hin as [<-|[]]. exact Hi.
  - destruct Hin as [<-|[<-|[]]]; [exact Hi|]. eauto 7.
  - destruct Hin as [<-|[<-|[<-|[]]]]; [exact Hi| |exact Hk]. eauto 7.
  - destruct Hin as [<-|[<-|[<-|[<-|Hin]]]]; [exact Hi| |exact Hk| |]; eauto 7.
    apply in_deletes in Hin as (d & _ & ->). eauto.
Qed.

(** X4.  Every AppSync call of an invocation is for the API whose id the
    parameter named by GRAPHQL_API_ID_KEY_PATH held at the start, and a key
    is created with the description "auto maintained api key". *)
Theorem X4_appsync_calls_are_for_the_stored_api :
  forall env w c,
    In c (calls (snd (invoke env w))) ->
    match c with
    | CreateApiKey a d _ =>
        d = auto_maintained
        /\ exists idp, GRAPHQL_API_ID_KEY_PATH env = Some idp /\ VMap.get idp (ssm w) = Some a
    | ListApiKeys a | DeleteApiKey a _ =>
        exists idp, GRAPHQL_API_ID_KEY_PATH env = Some idp /\ VMap.get idp (ssm w) = Some a
    | GetParameter _ | PutParameter _ _ => True
    end.
Proof.
  intros env w c Hin. pose proof (outcome_calls env w c Hin) as H.
  destruct c; try exact I; try exact H. destruct H as (H1 & H2 & _). auto.
Qed.

(** X5.  The lifetime has an upper bound only: with a
    DAYS_FOR_KEY_TO_LAST of zero or less, the expiry the Lambda asks for is
    not after the instant the clock was read. *)
Theorem X5_lifetime_has_no_lower_bound :
  forall env w days a d e,
    days_of env = Some days -> days <= 0 -> 0 <= clock w ->
    In (CreateApiKey a d e) (calls (snd (invoke env w))) ->
    e * micro <= first_reading w.
Proof.
  intros env w days a d e Hdays Hneg Hclock Hin.
  destruct (outcome_calls env w _ Hin) as (_ & _ & days' & Hd' & ->).
  rewrite Hdays in Hd'. injection Hd' as <-.
  pose proof (first_reading_ge w). unfold expiry.
  set (x := first_reading w + Z.min days 364 * day_seconds * micro).
  assert (Hx : x <= first_reading w) by (unfold x, day_seconds, micro; lia).
  pose proof (Z.quot_rem' x micro) as E.
  pose proof (Z.rem_bound_abs x micro ltac:(unfold micro; lia)) as B.
  destruct (Z.le_gt_cases 0 x) as [Hpos|Hlt].
  - pose proof (Z.rem_nonneg x micro ltac:(unfold micro; lia) Hpos). unfold micro in *. lia.
  - unfold micro in *. lia.
Qed.


Lemma append_inj_l (a x y : string) : (a ++ x = a ++ y)%string -> x = y.
Proof. induction a as [|c a IH]; cbn; [auto|]. intros [= H]. auto. Qed.

Lemma paths_differ stackName :
  String.eqb (graphqlApiIdKeyPath stackName) (graphqlApiKeyKeyPath stackName) = false.
Proof.
  apply String.eqb_neq. unfold graphqlApiIdKeyPath, graphqlApiKeyKeyPath. intros H.
  apply append_inj_l in H. apply append_inj_l in H. discriminate H.
Qed.

(** X6.  With the two parameter paths the stack builds from its name,
    the parameter that holds the API id is never written: after an
    invocation it holds what it held before. *)
Theorem X6_api_id_parameter_is_never_changed :
  forall stackName w,
    VMap.get (graphqlApiIdKeyPath stackName)
      (ssm (world (snd (invoke (stack_environment stackName) w))))
    = VMap.get (graphqlApiIdKeyPath stackName) (ssm w).
Proof.
  intros n w.
  destruct (invoke_outcome (stack_environment n) w) as
    [_ _ Hs|idp _ _ _ Hs|idp kp a' days' _ _ _ _ e' _ _ Hs
    |idp kp a' days' _ _ _ _ e' _ _ _ Hs
    |idp kp a' days' ds _ Hk _ _ e' keys _ _ _ _ _ _ Hs];
    rewrite Hs; try reflexivity.
  cbn in Hk. injection Hk as <-.
  apply TemplateFacts.get_put_other. apply paths_differ.
Qed.

(** The keys after the loop of [_delete_expired_api_keys]: a key that the
    loop was not given is still there. *)
Lemma delete_each_keeps a keys : forall s k,
  In k (api_keys (world s)) ->
  (forall d, In d keys -> same_key a (id d) k = false) ->
  In k (api_keys (world (snd (delete_each a keys s)))).
Proof.
  induction keys as [|x keys IH]; intros s k Hk Hd; [exact Hk|].
  cbn [delete_each]. unfold bind at 1. unfold now at 1.
  destruct (deadline s <? _); [exact Hk|].
  match goal with |- context [set_world ?w s] => set (s1 := set_world w s) end.
  assert (Hk1 : In k (api_keys (world s1))) by exact Hk.
  unfold bind at 1.
  destruct (expired x _ && is_auto_maintained x).
  - unfold delete_api_key, bind at 1, call.
    destruct (faults (world s1) (DeleteApiKey a (id x))); [exact Hk1|].
    apply IH; [|intros d Hin; apply Hd; now right].
    cbn. apply filter_In. split; [exact Hk1|]. rewrite (Hd x (or_introl eq_refl)). reflexivity.
  - unfold ret at 1. apply IH; [exact Hk1|intros d Hin; apply Hd; now right].
Qed.


Lemma invoke_final_keys env w : Final w (snd (invoke env w)).
Proof.
  unfold invoke, run.
  destruct env as [idp kp days].
  cbn [GRAPHQL_API_ID_KEY_PATH GRAPHQL_API_KEY_KEY_PATH DAYS_FOR_KEY_TO_LAST].
  unfold bind at 1.
  destruct days as [|z|]; cbn [int_env ret raise]; try (now left);
  (destruct idp as [idp|]; [|now left]);
  (destruct (nonempty (Some idp)); [|now left]);
  unfold bind at 1; unfold _get_parameter, except_ClientError, bind at 1, call;
  cbn [world calls deadline faults app];
  (destruct (faults w (GetParameter idp)) eqn:Fg; [now left|]);
  cbn [world ssm];
  (destruct (VMap.get idp (ssm w)) as [a|] eqn:Ga; [|now left]);
  (destruct kp as [kp|]; [|now left]);
  (destruct (nonempty (Some a) && nonempty (Some kp)); [|now left]);
  unfold bind at 1; unfold _get_expire_time, bind at 1, now;
  cbn [world calls deadline ticks clock];
  fold (first_reading w);
  (destruct (clock w + timeout <? first_reading w) eqn:Hdl; [now left|]);
  rewrite min_364;
  match goal with |- context [Z.min ?d 364] => set (days := d) end;
  (destruct ((first_reading w + Z.min days 364 * day_seconds * micro <? datetime_min)
             || (datetime_max <? first_reading w + Z.min days 364 * day_seconds * micro));
   [now left|]);
  unfold ret at 1; fold (expiry days (first_reading w));
  set (e := expiry days (first_reading w));
  unfold bind at 1; unfold _generate_new_api_key, bind at 1, call;
  cbn [world calls deadline faults set_world app];
  (destruct (faults w (CreateApiKey a auto_maintained e)) eqn:Fc; [now left|]);
  cbn [world next_id set_world calls deadline];
  (destruct (nonempty (Some (next_id w))) eqn:Hn;
   [|right; left; exists a, e; reflexivity]);
  unfold bind at 1; unfold _save_secure_parameter, bind at 1, call;
  cbn [world calls deadline faults set_world app];
  (destruct (faults w (PutParameter kp (next_id w))) eqn:Fp;
   [right; left; exists a, e; reflexivity|]);
  cbn [world ssm api_keys clock ticks next_id page faults set_world calls deadline];
  unfold _delete_expired_api_keys, bind at 1, list_api_keys, bind at 1, call;
  cbn [world calls deadline faults set_world app];
  (destruct (faults w (ListApiKeys a)) eqn:Fl;
   [right; left; exists a, e; reflexivity|]);
  cbn [world api_keys page];
  right; right;
  match goal with |- context [delete_each a _ ?x] => exists a, e, x end;
  split; reflexivity.
Qed.

(** X7.  [list_api_keys] is called once, without a [nextToken]: a key
    that is not on the first page of the listing of its API is still
    there after the invocation, expired or not. *)
Theorem X7_keys_beyond_the_first_page_are_kept :
  forall env w k,
    distinct_ids w ->
    In k (api_keys w) ->
    ~ In k (listed (api k) (page w) (api_keys w)) ->
    In k (api_keys (world (snd (invoke env w)))).
Proof.
  intros env w k [Hnd Hfresh] Hk Hout.
  destruct (invoke_final_keys env w) as [E|[(a & e & E)|(a & e & s & Hs & E)]];
    rewrite E; [exact Hk|apply in_or_app; now left|].
  apply delete_each_keeps; [rewrite Hs; apply in_or_app; now left|].
  intros d Hd. destruct (same_key a (id d) k) eqn:Hsame; [exfalso|reflexivity].
  apply same_key_eq in Hsame as [Ha Hid].
  unfold listed in Hd. rewrite filter_app, firstn_app in Hd.
  apply in_app_or in Hd as [Hd|Hd].
  - assert (Hd' := Hd). apply firstn_In in Hd'. apply filter_In in Hd' as [Hd' _].
    assert (d = k).
    { apply (NoDup_map_inj (fun k => (api k, id k)) (api_keys w)); auto.
      apply firstn_In in Hd. apply filter_In in Hd as [_ Hd]. apply String.eqb_eq in Hd.
      cbn. congruence. }
    subst d. apply Hout. unfold listed. now rewrite Ha.
  - apply firstn_In in Hd. apply filter_In in Hd as [[<-|[]] _].
    cbn in Hid. exact (Hfresh k Hk Hid).
Qed.


(** X8.  With a lifetime of a day or more, when an invocation changes
    the parameter store, the parameter named by GRAPHQL_API_KEY_KEY_PATH
    holds the id of a key that AppSync has at the end: the auto maintained
    key just created, with the expiry computed, which the clean-up did not
    delete. *)
Theorem X8_stored_key_id_names_a_live_key :
  forall env w days,
    distinct_ids w ->
    days_of env = Some days -> 1 <= days ->
    let s' := snd (invoke env w) in
    ssm (world s') <> ssm w ->
    exists kp k,
      GRAPHQL_API_KEY_KEY_PATH env = Some kp
      /\ VMap.get kp (ssm (world s')) = Some (id k)
      /\ In k (api_keys (world s'))
      /\ is_auto_maintained k = true
      /\ expires k = expiry days (first_reading w).
Proof.
  intros env w days [Hnd Hfresh] Hdays Hge s' Hssm. subst s'.
  destruct (invoke_outcome env w) as
    [_ _ Hs|idp _ _ _ Hs|idp kp a' days' _ _ _ _ e' _ _ Hs
    |idp kp a' days' _ _ _ _ e' _ _ _ Hs
    |idp kp a' days' ds _ Hk _ Hd' e' keys _ _ Hds Hfr _ _ Hs];
    try contradiction.
  rewrite Hdays in Hd'. injection Hd' as <-.
  exists kp, (new_key a' e' w). repeat split; auto.
  - rewrite Hs. apply TemplateFacts.get_put_same.
  - destruct (Hfr (new_key a' e' w)) as [H|(d & Hd & Hsame)];
      [apply in_or_app; right; now left|exact H|].
    exfalso. apply same_key_eq in Hsame as [_ Hki]. cbn in Hki.
    destruct (Hds d Hd) as (Ha & (Hdin & Hauto & t & Ht & Hdl & He)).
    apply in_app_or in Hdin as [Hdin|[<-|[]]].
    + now apply (Hfresh d Hdin).
    + unfold expired, new_key in He. cbn [expires] in He. apply Z.ltb_lt in He.
      unfold e', expiry in He.
      pose proof (quot_micro_lower
        (first_reading w + Z.min days 364 * day_seconds * micro)).
      pose proof (first_reading_ge w).
      unfold timeout, day_seconds, micro in *. lia.
Qed.

(** *** The properties on sample worlds *)

Ltac sample_ready :=
  constructor; try reflexivity; try discriminate;
  try (vm_compute; discriminate); split; vm_compute; discriminate.

(** X1 on the sample world with a failing [get_parameter]. *)
Lemma X1_witness :
  invoke Sample.env SampleFaults.no_get
  = (inr tt, {| world := SampleFaults.no_get;
                calls := [GetParameter "/all/stacks/mm/graphql-api-id"];
                deadline := clock SampleFaults.no_get + timeout |}).
Proof.
  apply (X1_unreadable_api_id_ends_quietly Sample.env SampleFaults.no_get
           "/all/stacks/mm/graphql-api-id").
  - reflexivity.
  - discriminate.
  - discriminate.
  - left. reflexivity.
Defined.

(** X2 on the sample world with a failing [create_api_key]. *)
Lemma X2_witness :
  let w := SampleFaults.no_create in
  let c := CreateApiKey "api123" auto_maintained (expiry 7 (first_reading w)) in
  let r := invoke Sample.env w in
  fst r = inl (ClientError c)
  /\ calls (snd r) = [GetParameter "/all/stacks/mm/graphql-api-id"; c]
  /\ ssm (world (snd r)) = ssm w
  /\ api_keys (world (snd r)) = api_keys w.
Proof.
  apply (X2_failed_create_changes_nothing Sample.env SampleFaults.no_create
           "/all/stacks/mm/graphql-api-id" "/all/stacks/mm/graphql-api-key" "api123" 7).
  - sample_ready.
  - reflexivity.
Defined.

(** X3 on the sample world with a failing [put_parameter]. *)
Lemma X3_witness :
  let w := SampleFaults.no_put in
  let kp := "/all/stacks/mm/graphql-api-key" in
  let e := expiry 7 (first_reading w) in
  let r := invoke Sample.env w in
  fst r = inl (ClientError (PutParameter kp (next_id w)))
  /\ calls (snd r)
     = [GetParameter "/all/stacks/mm/graphql-api-id";
        CreateApiKey "api123" auto_maintained e; PutParameter kp (next_id w)]
  /\ ssm (world (snd r)) = ssm w
  /\ api_keys (world (snd r)) = (api_keys w ++ [new_key "api123" e w])%list.
Proof.
  apply (X3_failed_put_leaves_the_new_key_unpublished Sample.env SampleFaults.no_put
           "/all/stacks/mm/graphql-api-id" "/all/stacks/mm/graphql-api-key" "api123" 7).
  - sample_ready.
  - reflexivity.
  - discriminate.
  - reflexivity.
Defined.

(** X4 on the sample world: the listing is for the API the parameter names. *)
Lemma X4_witness :
  In (ListApiKeys "api123") (calls (snd (invoke Sample.env Sample.world)))
  /\ exists idp,
       GRAPHQL_API_ID_KEY_PATH Sample.env = Some idp
       /\ VMap.get idp (ssm Sample.world) = Some "api123".
Proof.
  assert (Hin : In (ListApiKeys "api123") (calls (snd (invoke Sample.env Sample.world))))
    by (vm_compute; do 3 right; left; reflexivity).
  exact (conj Hin (X4_appsync_calls_are_for_the_stored_api Sample.env Sample.world
                     (ListApiKeys "api123") Hin)).
Defined.

(** X5 on the sample world with a lifetime of no day: the key asked for
    expires at the second the clock was read in. *)
Lemma X5_witness :
  In (CreateApiKey "api123" auto_maintained 1700000000)
     (calls (snd (invoke SampleFaults.short_lived Sample.world)))
  /\ 1700000000 * micro <= first_reading Sample.world.
Proof.
  assert (Hin : In (CreateApiKey "api123" auto_maintained 1700000000)
                  (calls (snd (invoke SampleFaults.short_lived Sample.world))))
    by (vm_compute; right; left; reflexivity).
  split; [exact Hin|].
  apply (X5_lifetime_has_no_lower_bound SampleFaults.short_lived Sample.world 0
           "api123" auto_maintained 1700000000).
  - reflexivity.
  - lia.
  - vm_compute. discriminate.
  - exact Hin.
Defined.

Lemma short_page_distinct_ids : distinct_ids SampleFaults.short_page.
Proof.
  split.
  - cbn. repeat constructor; cbn; intuition discriminate.
  - cbn. intros k [<-|[<-|[<-|[]]]]; discriminate.
Qed.

(** X7 on the sample world with a page of one key: the expired auto
    maintained key is listed last, and is kept. *)
Lemma X7_witness :
  let k := {| api := "api123"; id := "da2-old"; description := Some auto_maintained;
              expires := 1600000000 |} in
  In k (api_keys (world (snd (invoke Sample.env SampleFaults.short_page)))).
Proof.
  apply (X7_keys_beyond_the_first_page_are_kept Sample.env SampleFaults.short_page).
  - exact short_page_distinct_ids.
  - vm_compute. do 2 right. left. reflexivity.
  - vm_compute. intros [H|[]]. discriminate H.
Defined.

(** X8 on the sample world: the parameter names the key just created. *)
Lemma X8_witness :
  let s' := snd (invoke Sample.env Sample.world) in
  exists kp k,
    GRAPHQL_API_KEY_KEY_PATH Sample.env = Some kp
    /\ VMap.get kp (ssm (world s')) = Some (id k)
    /\ In k (api_keys (world s'))
    /\ is_auto_maintained k = true
    /\ expires k = expiry 7 (first_reading Sample.world).
Proof.
  apply (X8_stored_key_id_names_a_live_key Sample.env Sample.world 7).
  - exact sample_distinct_ids.
  - reflexivity.
  - lia.
  - vm_compute. discriminate.
Defined.

End RotationFacts.
